(** * FSFS transactions

    A shallow embedding of the commit engine in
    [subversion/libsvn_fs_fs/transaction.c]: the transaction registry and
    the proto-rev lock, the folding of the changes log, the choice of a
    delta base, the writing of representations and the final commit.

    Conventions of the embedding.
    - A function returning [svn_error_t *] returns an [svn_result]: either
      its outputs or the error it created.
    - State the C code mutates is passed in and handed back explicitly.
    - Calls into other files of the library (APR file I/O, the noderev
      cache, the rep-cache, checksums, serializers) are not interpreted:
      their outcome is an input of the function that makes the call, so
      every path of the C function can be exercised.
    - Writing to a file that is open, and cutting it, succeed; opening,
      locking, closing and removing can fail as the callee says.
    - There is one thread: a body run under a mutex simply runs.
    - C integers are [Z]; the functions below do no arithmetic that could
      leave the range of their C type for inputs the filesystem produces
      (revision numbers and predecessor counts far below 2^31). *)

From stdpp Require Import gmap strings list fin_maps pretty.
From Stdlib Require Import ZArith Lia Ascii.

Local Open Scope string_scope.
Local Open Scope list_scope.
Local Open Scope nat_scope.

(** ** Errors *)

Module Err.

(** The error codes the file creates itself, APR statuses wrapped by
    [svn_error_wrap_apr], and codes raised by callees. *)
Inductive svn_errno_t : Type :=
  | SVN_ERR_FS_CORRUPT
  | SVN_ERR_FS_TXN_OUT_OF_DATE
  | SVN_ERR_FS_REP_BEING_WRITTEN
  | SVN_ERR_FS_NOT_FILE
  | SVN_ERR_ASSERTION_FAIL
  | SVN_ERR_APR (status : Z)
  | SVN_ERR_OTHER (code : Z).

#[global] Instance svn_errno_eq_dec : EqDecision svn_errno_t.
Proof. solve_decision. Defined.

Record svn_error_t : Type := svn_error_create {
  apr_err : svn_errno_t;
  message : string
}.

#[global] Instance svn_error_eq_dec : EqDecision svn_error_t.
Proof. solve_decision. Defined.

Inductive svn_result (A : Type) : Type :=
  | Ok (a : A)
  | Raise (e : svn_error_t).

Arguments Ok {A} a.
Arguments Raise {A} e.

(** [SVN_ERR(expr)]: return the error of [expr] at once, else go on. *)
Definition SVN_ERR {A B : Type} (r : svn_result A) (k : A -> svn_result B)
  : svn_result B :=
  match r with
  | Ok a => k a
  | Raise e => Raise e
  end.

Definition is_ok {A : Type} (r : svn_result A) : bool :=
  match r with Ok _ => true | Raise _ => false end.

(** The code of the error a result carries, if it is one. *)
Definition raised {A : Type} (r : svn_result A) : option svn_errno_t :=
  match r with Ok _ => None | Raise e => Some (apr_err e) end.

(** [svn_error_wrap_apr (status, msg)]. *)
Definition svn_error_wrap_apr (status : Z) (msg : string) : svn_error_t :=
  svn_error_create (SVN_ERR_APR status) msg.

(** [svn_error_compose_create (err1, err2)]: the first error leads, the
    second is chained behind it; without a first error the second is
    returned. *)
Definition svn_error_compose_create (err1 err2 : option svn_error_t)
  : option svn_error_t :=
  match err1 with
  | Some e => Some e
  | None => err2
  end.

End Err.

Export Err.

Notation "'do' x <- r ; k" := (SVN_ERR r (fun x => k))
  (at level 10, x pattern, r at level 100, k at level 200).

(** ** Identifiers, representations, node revisions *)

Definition svn_revnum_t := Z.
Bind Scope Z_scope with svn_revnum_t.
Definition SVN_INVALID_REVNUM : svn_revnum_t := (-1)%Z.

(** Modelled from the spec: the node identifier declared in [id.h], which
    is not among the sources.  It is the triple (node_id, copy_id, origin)
    with origin either a transaction or a revision and a byte offset. *)
Inductive id_origin : Type :=
  | origin_txn (txn_id : string)
  | origin_rev (rev : svn_revnum_t) (offset : Z).

#[global] Instance id_origin_eq_dec : EqDecision id_origin.
Proof. solve_decision. Defined.

Record svn_fs_id_t : Type := mk_id {
  id_node_id : string;
  id_copy_id : string;
  id_origin_of : id_origin
}.

#[global] Instance svn_fs_id_eq_dec : EqDecision svn_fs_id_t.
Proof. solve_decision. Defined.

Definition svn_fs_fs__id_txn_create (node_id copy_id txn_id : string)
  : svn_fs_id_t :=
  mk_id node_id copy_id (origin_txn txn_id).

Definition svn_fs_fs__id_rev_create (node_id copy_id : string)
    (rev : svn_revnum_t) (offset : Z) : svn_fs_id_t :=
  mk_id node_id copy_id (origin_rev rev offset).

Definition svn_fs_fs__id_is_txn (id : svn_fs_id_t) : bool :=
  match id_origin_of id with origin_txn _ => true | origin_rev _ _ => false end.

(** The revision of an id; an id of a transaction has none. *)
Definition svn_fs_fs__id_rev (id : svn_fs_id_t) : svn_revnum_t :=
  match id_origin_of id with
  | origin_rev r _ => r
  | origin_txn _ => SVN_INVALID_REVNUM
  end.

Definition svn_fs_fs__id_offset (id : svn_fs_id_t) : Z :=
  match id_origin_of id with
  | origin_rev _ o => o
  | origin_txn _ => (-1)%Z
  end.

Definition svn_fs_fs__id_txn_id (id : svn_fs_id_t) : option string :=
  match id_origin_of id with
  | origin_txn t => Some t
  | origin_rev _ _ => None
  end.

(** [svn_fs_fs__id_eq]: equality of all the parts; a pointer may be NULL. *)
Definition svn_fs_fs__id_eq (a b : option svn_fs_id_t) : bool :=
  bool_decide (a = b).

(** [svn_fs_fs__id_copy] of [id.c], which is not among the sources: the
    copy of an id in another pool is the same id.  What the function does
    when it is handed NULL is not known from the sources; here NULL comes
    back.  The function returns a pointer and no error, so nothing it
    does can make a caller return an error of Subversion. *)
Definition svn_fs_fs__id_copy (id : option svn_fs_id_t) : option svn_fs_id_t :=
  id.

(** [representation_t] of [fs_fs.h], with the fields the spec lists:
    (revision | txn_id, offset, size, expanded_size, md5, sha1,
    uniquifier).  Checksums are kept as their digests. *)
Record representation_t : Type := mk_rep {
  rep_md5_checksum : option string;
  rep_sha1_checksum : option string;
  rep_revision : svn_revnum_t;
  rep_offset : Z;
  rep_size : Z;
  rep_expanded_size : Z;
  rep_txn_id : option string;
  rep_uniquifier : option string
}.

#[global] Instance representation_eq_dec : EqDecision representation_t.
Proof. solve_decision. Defined.

(** [apr_pcalloc]: every field zero or NULL. *)
Definition rep_calloc : representation_t :=
  mk_rep None None 0%Z 0%Z 0%Z 0%Z None None.

Definition is_txn_rep (rep : representation_t) : bool :=
  match rep_txn_id rep with Some _ => true | None => false end.

Definition reset_txn_in_rep (rep : representation_t) : representation_t :=
  mk_rep (rep_md5_checksum rep) (rep_sha1_checksum rep) (rep_revision rep)
         (rep_offset rep) (rep_size rep) (rep_expanded_size rep)
         None (rep_uniquifier rep).

Inductive svn_node_kind_t : Type :=
  | svn_node_none | svn_node_file | svn_node_dir | svn_node_unknown.

#[global] Instance svn_node_kind_eq_dec : EqDecision svn_node_kind_t.
Proof. solve_decision. Defined.

(** [node_revision_t], with the fields this file reads or writes. *)
Record node_revision_t : Type := mk_noderev {
  nr_kind : svn_node_kind_t;
  nr_id : svn_fs_id_t;
  nr_predecessor_id : option svn_fs_id_t;
  nr_predecessor_count : Z;
  nr_data_rep : option representation_t;
  nr_prop_rep : option representation_t;
  nr_copyroot_rev : svn_revnum_t;
  nr_is_fresh_txn_root : bool
}.

(** The line feed the file formats end their lines with. *)
Definition LF : string := String "010"%char EmptyString.

(** ** ChangesFold: merging the changes log into one change per path *)

Module ChangesFold.

Inductive svn_fs_path_change_kind_t : Type :=
  | svn_fs_path_change_modify
  | svn_fs_path_change_add
  | svn_fs_path_change_delete
  | svn_fs_path_change_replace
  | svn_fs_path_change_reset.

#[global] Instance change_kind_eq_dec : EqDecision svn_fs_path_change_kind_t.
Proof. solve_decision. Defined.

Record svn_fs_path_change2_t : Type := mk_change2 {
  node_rev_id : option svn_fs_id_t;
  change_kind : svn_fs_path_change_kind_t;
  text_mod : bool;
  prop_mod : bool;
  node_kind : svn_node_kind_t;
  copyfrom_known : bool;
  copyfrom_rev : svn_revnum_t;
  copyfrom_path : option string
}.

Record change_t : Type := mk_change {
  path : string;
  info : svn_fs_path_change2_t
}.

Definition corrupt (msg : string) : svn_error_t :=
  svn_error_create SVN_ERR_FS_CORRUPT msg.

(** The [switch] of [fold_change]: what becomes of the entry OLD_CHANGE
    when INFO is merged into it; [None] when the entry is to be removed. *)
Definition merge_change (old_change info : svn_fs_path_change2_t)
  : option svn_fs_path_change2_t :=
  match change_kind info with
  | svn_fs_path_change_reset => None
  | svn_fs_path_change_delete =>
      if bool_decide (change_kind old_change = svn_fs_path_change_add)
      then None
      else Some (mk_change2 (node_rev_id old_change)
                            svn_fs_path_change_delete
                            (text_mod info) (prop_mod info)
                            (node_kind old_change)
                            (copyfrom_known old_change)
                            SVN_INVALID_REVNUM None)
  | svn_fs_path_change_add
  | svn_fs_path_change_replace =>
      let '(cf_rev, cf_path) :=
        if bool_decide (copyfrom_rev info = SVN_INVALID_REVNUM)
        then (SVN_INVALID_REVNUM, None)
        else (copyfrom_rev info, copyfrom_path info) in
      Some (mk_change2 (svn_fs_fs__id_copy (node_rev_id info))
                       svn_fs_path_change_replace
                       (text_mod info) (prop_mod info)
                       (node_kind old_change)
                       (copyfrom_known old_change)
                       cf_rev cf_path)
  | svn_fs_path_change_modify =>
      Some (mk_change2 (node_rev_id old_change)
                       (change_kind old_change)
                       (if text_mod info then true else text_mod old_change)
                       (if prop_mod info then true else prop_mod old_change)
                       (node_kind old_change)
                       (copyfrom_known old_change)
                       (copyfrom_rev old_change) (copyfrom_path old_change))
  end.

(** [fold_change (changes, change)]. *)
Definition fold_change (changes : gmap string svn_fs_path_change2_t)
    (change : change_t)
  : svn_result (gmap string svn_fs_path_change2_t) :=
  let info := info change in
  match changes !! path change with
  | Some old_change =>
      if bool_decide (node_rev_id info = None)
         && negb (bool_decide (change_kind info = svn_fs_path_change_reset))
      then Raise (corrupt "Missing required node revision ID")
      else if negb (bool_decide (node_rev_id info = None))
              && negb (svn_fs_fs__id_eq (node_rev_id old_change)
                                        (node_rev_id info))
              && negb (bool_decide
                         (change_kind old_change = svn_fs_path_change_delete))
      then Raise (corrupt
             "Invalid change ordering: new node revision ID without delete")
      else if bool_decide (change_kind old_change = svn_fs_path_change_delete)
              && negb (bool_decide
                         (change_kind info = svn_fs_path_change_replace)
                       || bool_decide
                            (change_kind info = svn_fs_path_change_reset)
                       || bool_decide
                            (change_kind info = svn_fs_path_change_add))
      then Raise (corrupt
             "Invalid change ordering: non-add change on deleted path")
      else if bool_decide (change_kind info = svn_fs_path_change_add)
              && negb (bool_decide
                         (change_kind old_change = svn_fs_path_change_delete))
              && negb (bool_decide
                         (change_kind old_change = svn_fs_path_change_reset))
      then Raise (corrupt
             "Invalid change ordering: add change on preexisting path")
      else
        match merge_change old_change info with
        | None => Ok (delete (path change) changes)
        | Some merged => Ok (<[path change := merged]> changes)
        end
  | None =>
      Ok (<[path change :=
              mk_change2 (svn_fs_fs__id_copy (node_rev_id info))
                         (change_kind info) (text_mod info) (prop_mod info)
                         (node_kind info) (copyfrom_known info)
                         (copyfrom_rev info) (copyfrom_path info)]> changes)
  end.

(** Modelled from the spec: [svn_dirent_is_child] of
    [libsvn_subr/dirent_uri.c], which is not among the sources.  CHILD is a
    strict child of PARENT when PARENT, taken as a prefix ending at a path
    separator, is followed in CHILD by at least one more character; the
    empty PARENT is above every relative path. *)
Fixpoint strip_prefix (p s : string) : option string :=
  match p with
  | EmptyString => Some s
  | String a p' =>
      match s with
      | String b s' => if Ascii.eqb a b then strip_prefix p' s' else None
      | EmptyString => None
      end
  end.

Fixpoint last_char (s : string) : option ascii :=
  match s with
  | EmptyString => None
  | String a EmptyString => Some a
  | String _ s' => last_char s'
  end.

Definition starts_with_slash (s : string) : bool :=
  match s with
  | String a _ => Ascii.eqb a "/"%char
  | EmptyString => false
  end.

Definition ends_with_slash (s : string) : bool :=
  match last_char s with
  | Some a => Ascii.eqb a "/"%char
  | None => false
  end.

Definition svn_dirent_is_child (parent child : string) : bool :=
  match parent with
  | EmptyString =>
      negb (bool_decide (child = EmptyString)) && negb (starts_with_slash child)
  | _ =>
      match strip_prefix parent child with
      | None => false
      | Some rest =>
          if ends_with_slash parent
          then negb (bool_decide (rest = EmptyString))
               && negb (starts_with_slash rest)
          else starts_with_slash rest && (2 <=? String.length rest)%nat
      end
  end.

(** [min_child_len] of [process_changes]: a child path has at least the
    separator and one more character after the parent. *)
Definition min_child_len (p : string) : nat :=
  let path_len := String.length p in
  if (path_len =? 0)%nat then 1
  else if ends_with_slash p then path_len + 1
  else path_len + 2.

(** The test of the inner loop of [process_changes]. *)
Definition is_swept (p key : string) : bool :=
  (min_child_len p <=? String.length key)%nat && svn_dirent_is_child p key.

(** The inner loop: every entry of the hash is visited once, and the one
    visited is removed when it is a child of the changed path. *)
Definition sweep_children (p : string)
    (changed_paths : gmap string svn_fs_path_change2_t)
  : gmap string svn_fs_path_change2_t :=
  foldl (fun acc kv => if is_swept p kv.1 then delete kv.1 acc else acc)
        changed_paths (map_to_list changed_paths).

(** [process_changes (changed_paths, changes)]. *)
Fixpoint process_changes (changed_paths : gmap string svn_fs_path_change2_t)
    (changes : list change_t)
  : svn_result (gmap string svn_fs_path_change2_t) :=
  match changes with
  | [] => Ok changed_paths
  | change :: rest =>
      do folded <- fold_change changed_paths change;
      let k := change_kind (info change) in
      if bool_decide (k = svn_fs_path_change_delete)
         || bool_decide (k = svn_fs_path_change_replace)
      then process_changes (sweep_children (path change) folded) rest
      else process_changes folded rest
  end.

(** [svn_fs_fs__txn_changes_fetch]: the changes file is opened and parsed
    by callees (their outcome is PARSED), then folded into an empty hash. *)
Definition svn_fs_fs__txn_changes_fetch (parsed : svn_result (list change_t))
  : svn_result (gmap string svn_fs_path_change2_t) :=
  do changes <- parsed;
  process_changes ∅ changes.

End ChangesFold.

(** ** Filesystem settings *)

(** The members of [fs_fs_data_t] this file consults.  The two
    deltification limits are the values after the cast to [int]. *)
Record fs_fs_data_t : Type := mk_ffd {
  format : Z;
  max_files_per_dir : Z;
  max_linear_deltification : Z;
  max_deltification_walk : Z;
  rep_sharing_allowed : bool;
  deltify_directories : bool;
  deltify_properties : bool
}.

(** ** DeltaBase: the base representation of a new delta *)

Module DeltaBase.

Section choose.

Variable ffd : fs_fs_data_t.

(** [svn_fs_fs__get_node_revision (fs, id)] of [cached_data.c] and
    [svn_fs_fs__rep_chain_length] are callees in files outside these
    sources; what they return for the filesystem at hand is given. *)
Variable svn_fs_fs__get_node_revision :
  option svn_fs_id_t -> svn_result node_revision_t.
Variable svn_fs_fs__rep_chain_length : representation_t -> svn_result Z.

(** The representation the caller asked about. *)
Definition rep_of (props : bool) (noderev : node_revision_t)
  : option representation_t :=
  if props then nr_prop_rep noderev else nr_data_rep noderev.

(** The test inside the loop: the node-rev has such a rep, and the
    revision of its id is greater than the revision of the rep. *)
Definition looks_shared (props : bool) (base : node_revision_t) : bool :=
  match rep_of props base with
  | Some rep => (rep_revision rep <? svn_fs_fs__id_rev (nr_id base))%Z
  | None => false
  end.

(** [while ((count++) < noderev->predecessor_count)].  ITERS bounds the
    number of rounds; the caller passes the number of rounds the loop
    makes, so the bound is never what ends it. *)
Fixpoint walk_back (iters : nat) (props : bool) (count pc : Z)
    (base : node_revision_t) (maybe_shared_rep : bool)
  : svn_result (node_revision_t * bool) :=
  match iters with
  | O => Ok (base, maybe_shared_rep)
  | S iters' =>
      if (count <? pc)%Z then
        do base' <- svn_fs_fs__get_node_revision (nr_predecessor_id base);
        walk_back iters' props (count + 1)%Z pc base'
                  (if looks_shared props base' then true
                   else maybe_shared_rep)
      else Ok (base, maybe_shared_rep)
  end.

(** [choose_delta_base (rep, fs, noderev, props)]. *)
Definition choose_delta_base (noderev : node_revision_t) (props : bool)
  : svn_result (option representation_t) :=
  let pc := nr_predecessor_count noderev in
  if (pc =? 0)%Z then Ok None
  else
    let count := Z.land pc (pc - 1) in
    let walk := (pc - count)%Z in
    let count :=
      if (walk <? max_linear_deltification ffd)%Z then (pc - 1)%Z
      else count in
    if (max_deltification_walk ffd <? walk)%Z then Ok None
    else
      do walked <- walk_back (Z.to_nat (pc - count)) props count pc
                             noderev false;
      let '(base, maybe_shared_rep) := walked in
      match rep_of props base with
      | Some rep =>
          if maybe_shared_rep then
            do chain_length <- svn_fs_fs__rep_chain_length rep;
            if (2 * max_linear_deltification ffd + 2 <=? chain_length)%Z
            then Ok None
            else Ok (Some rep)
          else Ok (Some rep)
      | None => Ok None
      end.

End choose.

End DeltaBase.

(** ** The filesystem as the functions of this file see it *)

Definition bytes := list ascii.

Definition bytes_of (s : string) : bytes := String.list_ascii_of_string s.
Arguments bytes_of : simpl never.

Record fs_fs_shared_txn_data_t : Type := mk_shared_txn {
  txn_id : string;
  being_written : bool
}.

(** [fs_fs_shared_data_t]: the list of transactions, newest first, and
    whether the single-object free list holds an object. *)
Record fs_fs_shared_data_t : Type := mk_shared {
  txns : list fs_fs_shared_txn_data_t;
  free_txn : bool
}.

(** Modelled from the spec: the file 'current', written by
    [svn_fs_fs__write_current] and read by [svn_fs_fs__youngest_rev],
    both outside these sources.  It holds "<rev>" or, in the legacy
    format, "<rev> <node_id> <copy_id>". *)
Record current_file : Type := mk_current {
  current_rev : svn_revnum_t;
  current_ids : option (string * string)
}.

(** What is kept of a filesystem: its settings, the shared transaction
    data of the process, the cached youngest revision, and on disk the
    file 'current', the proto-rev files by transaction id and the
    revision files by revision. *)
Record svn_fs_t : Type := mk_fs {
  fs_ffd : fs_fs_data_t;
  fs_shared : fs_fs_shared_data_t;
  fs_youngest_rev_cache : svn_revnum_t;
  fs_current : current_file;
  fs_proto_revs : gmap string bytes;
  fs_revs : gmap Z bytes
}.

Definition with_shared (fs : svn_fs_t) (s : fs_fs_shared_data_t) : svn_fs_t :=
  mk_fs (fs_ffd fs) s (fs_youngest_rev_cache fs) (fs_current fs)
        (fs_proto_revs fs) (fs_revs fs).

Definition with_proto_revs (fs : svn_fs_t) (p : gmap string bytes)
  : svn_fs_t :=
  mk_fs (fs_ffd fs) (fs_shared fs) (fs_youngest_rev_cache fs)
        (fs_current fs) p (fs_revs fs).

Definition with_revs (fs : svn_fs_t) (r : gmap Z bytes) : svn_fs_t :=
  mk_fs (fs_ffd fs) (fs_shared fs) (fs_youngest_rev_cache fs)
        (fs_current fs) (fs_proto_revs fs) r.

Definition with_current (fs : svn_fs_t) (c : current_file) : svn_fs_t :=
  mk_fs (fs_ffd fs) (fs_shared fs) (fs_youngest_rev_cache fs) c
        (fs_proto_revs fs) (fs_revs fs).

Definition with_youngest_rev_cache (fs : svn_fs_t) (r : svn_revnum_t)
  : svn_fs_t :=
  mk_fs (fs_ffd fs) (fs_shared fs) r (fs_current fs)
        (fs_proto_revs fs) (fs_revs fs).

(** A computation on a state [S]: an error or a value, and the state as
    it stands then. *)
Definition action (S A : Type) : Type := S -> svn_result A * S.

(** A computation on the filesystem. *)
Definition fs_action (A : Type) : Type := action svn_fs_t A.

Definition ret {S A : Type} (a : A) : action S A := fun s => (Ok a, s).

Definition throw {S A : Type} (e : svn_error_t) : action S A :=
  fun s => (Raise e, s).

Definition bind {S A B : Type} (m : action S A) (k : A -> action S B)
  : action S B :=
  fun s =>
    match m s with
    | (Ok a, s') => k a s'
    | (Raise e, s') => (Raise e, s')
    end.

(** A callee that leaves the state as it is. *)
Definition lift {S A : Type} (r : svn_result A) : action S A :=
  fun s => (r, s).

(** A callee that only reports failure. *)
Definition attempt {S : Type} (r : option svn_error_t) : action S unit :=
  fun s => match r with
           | None => (Ok tt, s)
           | Some e => (Raise e, s)
           end.

Definition get_fs : fs_action svn_fs_t := fun fs => (Ok fs, fs).

Definition modify_fs (f : svn_fs_t -> svn_fs_t) : fs_action unit :=
  fun fs => (Ok tt, f fs).

Notation "'run' x <- m ; k" := (bind m (fun x => k))
  (at level 10, x pattern, m at level 100, k at level 200).

(** An open file: its name and the position of the file pointer.  The
    bytes are those of the file on disk; a write goes through to them. *)
Record apr_file_t : Type := mk_file {
  file_name : string;
  file_pos : nat
}.

Definition proto_rev_data (fs : svn_fs_t) (name : string) : bytes :=
  default [] (fs_proto_revs fs !! name).

(** Writing DATA at the file pointer. *)
Definition file_write (file : apr_file_t) (data : bytes)
  : fs_action apr_file_t :=
  fun fs =>
    let old := proto_rev_data fs (file_name file) in
    let new := take (file_pos file) old ++ data
               ++ drop (file_pos file + length data) old in
    (Ok (mk_file (file_name file) (file_pos file + length data)),
     with_proto_revs fs (<[file_name file := new]> (fs_proto_revs fs))).

Definition svn_fs_fs__get_file_offset (file : apr_file_t) : Z :=
  Z.of_nat (file_pos file).

(** ** TxnRegistry and ProtoRevLock *)

Module ProtoRevLock.

Definition APR_SUCCESS : Z := 0%Z.

(** Modelled from the spec: the status a non-blocking lock attempt ends
    with on contention, which [APR_STATUS_IS_EAGAIN] of APR tests for. *)
Definition APR_EAGAIN : Z := 11%Z.
Definition APR_ENOENT : Z := 2%Z.

Definition APR_STATUS_IS_EAGAIN (s : Z) : bool := (s =? APR_EAGAIN)%Z.

(** What the operating system answers to the calls of
    [get_writable_proto_rev_body] and [unlock_proto_rev_body]. *)
Record lock_io : Type := mk_lock_io {
  io_open_lockfile : Z;
  io_file_lock : Z;
  io_open_proto_rev : Z;
  io_seek_end : Z;
  io_file_unlock : Z;
  io_close_lockfile : Z
}.

(** The loop of [get_shared_txn] and [free_shared_txn]. *)
Fixpoint find_txn (l : list fs_fs_shared_txn_data_t) (id : string)
  : option fs_fs_shared_txn_data_t :=
  match l with
  | [] => None
  | txn :: next =>
      if String.eqb (txn_id txn) id then Some txn else find_txn next id
  end.

(** [get_shared_txn (fs, txn_id, create_new)].  The object returned is
    named by its transaction id: later reads and writes through the
    pointer go to the first object of the list with that id. *)
Definition get_shared_txn (ffsd : fs_fs_shared_data_t) (id : string)
    (create_new : bool)
  : option fs_fs_shared_txn_data_t * fs_fs_shared_data_t :=
  match find_txn (txns ffsd) id with
  | Some txn => (Some txn, ffsd)
  | None =>
      if create_new then
        let txn := mk_shared_txn id false in
        (Some txn, mk_shared (txn :: txns ffsd) false)
      else (None, ffsd)
  end.

(** [txn->being_written = v]. *)
Fixpoint set_being_written (l : list fs_fs_shared_txn_data_t) (id : string)
    (v : bool) : list fs_fs_shared_txn_data_t :=
  match l with
  | [] => []
  | txn :: next =>
      if String.eqb (txn_id txn) id then mk_shared_txn (txn_id txn) v :: next
      else txn :: set_being_written next id v
  end.

Fixpoint unlink_txn (l : list fs_fs_shared_txn_data_t) (id : string)
  : list fs_fs_shared_txn_data_t :=
  match l with
  | [] => []
  | txn :: next =>
      if String.eqb (txn_id txn) id then next else txn :: unlink_txn next id
  end.

(** [free_shared_txn (fs, txn_id)]. *)
Definition free_shared_txn (ffsd : fs_fs_shared_data_t) (id : string)
  : fs_fs_shared_data_t :=
  match find_txn (txns ffsd) id with
  | None => ffsd
  | Some _ => mk_shared (unlink_txn (txns ffsd) id) true
  end.

Definition is_being_written (fs : svn_fs_t) (id : string) : bool :=
  match find_txn (txns (fs_shared fs)) id with
  | Some txn => being_written txn
  | None => false
  end.

Definition mark_being_written (id : string) (v : bool) : fs_action unit :=
  modify_fs (fun fs =>
    with_shared fs (mk_shared (set_being_written (txns (fs_shared fs)) id v)
                              (free_txn (fs_shared fs)))).

(** [with_txnlist_lock (fs, body, baton)]: BODY runs with the mutex held;
    there is one thread here, so it simply runs. *)
Definition with_txnlist_lock {A : Type} (body : fs_action A) : fs_action A :=
  body.

(** [unlock_proto_rev_body].  The lock cookie is the open lock file. *)
Definition unlock_proto_rev_body (io : lock_io) (id : string)
  : fs_action unit :=
  run fs <- get_fs;
  match fst (get_shared_txn (fs_shared fs) id false) with
  | None =>
      throw (svn_error_create SVN_ERR_FS_CORRUPT
              ("Can't unlock unknown transaction '" +:+ id +:+ "'"))
  | Some txn =>
      if negb (being_written txn) then
        throw (svn_error_create SVN_ERR_FS_CORRUPT
                ("Can't unlock nonlocked transaction '" +:+ id +:+ "'"))
      else if negb (io_file_unlock io =? APR_SUCCESS)%Z then
        throw (svn_error_wrap_apr (io_file_unlock io)
                ("Can't unlock prototype revision lockfile for transaction '"
                 +:+ id +:+ "'"))
      else if negb (io_close_lockfile io =? APR_SUCCESS)%Z then
        throw (svn_error_wrap_apr (io_close_lockfile io)
                ("Can't close prototype revision lockfile for transaction '"
                 +:+ id +:+ "'"))
      else mark_being_written id false
  end.

Definition unlock_proto_rev (io : lock_io) (id : string) : fs_action unit :=
  with_txnlist_lock (unlock_proto_rev_body io id).

Definition unlock_proto_rev_list_locked (io : lock_io) (id : string)
  : fs_action unit :=
  unlock_proto_rev_body io id.

(** [svn_io_file_open] of the proto-rev file for writing, without
    [APR_CREATE], followed by the seek to its end. *)
Definition open_proto_rev_at_end (io : lock_io) (id : string)
  : fs_action apr_file_t :=
  run fs <- get_fs;
  match fs_proto_revs fs !! id with
  | None => throw (svn_error_wrap_apr APR_ENOENT "Can't open file")
  | Some data =>
      if negb (io_open_proto_rev io =? APR_SUCCESS)%Z then
        throw (svn_error_wrap_apr (io_open_proto_rev io) "Can't open file")
      else if negb (io_seek_end io =? APR_SUCCESS)%Z then
        throw (svn_error_wrap_apr (io_seek_end io)
                "Can't set position pointer in file")
      else ret (mk_file id (length data))
  end.

(** [get_writable_proto_rev_body].  It hands back the open proto-rev file
    and the lock cookie, here the id of the transaction whose lock file is
    held. *)
Definition get_writable_proto_rev_body (io : lock_io) (id : string)
  : fs_action (apr_file_t * string) :=
  fun fs =>
    let '(txn, ffsd) := get_shared_txn (fs_shared fs) id true in
    let fs := with_shared fs ffsd in
    if match txn with Some t => being_written t | None => false end then
      (Raise (svn_error_create SVN_ERR_FS_REP_BEING_WRITTEN
                ("Cannot write to the prototype revision file of "
                 +:+ "transaction '" +:+ id +:+ "' because a previous "
                 +:+ "representation is currently being written by "
                 +:+ "this process")), fs)
    else if negb (io_open_lockfile io =? APR_SUCCESS)%Z then
      (Raise (svn_error_wrap_apr (io_open_lockfile io) "Can't open file"), fs)
    else if negb (io_file_lock io =? APR_SUCCESS)%Z then
      if APR_STATUS_IS_EAGAIN (io_file_lock io) then
        (Raise (svn_error_create SVN_ERR_FS_REP_BEING_WRITTEN
                  ("Cannot write to the prototype revision file of "
                   +:+ "transaction '" +:+ id +:+ "' because a previous "
                   +:+ "representation is currently being written by "
                   +:+ "another process")), fs)
      else
        (Raise (svn_error_wrap_apr (io_file_lock io)
                  "Can't get exclusive lock on file"), fs)
    else
      let '(_, fs) := mark_being_written id true fs in
      match open_proto_rev_at_end io id fs with
      | (Ok file, fs) => (Ok (file, id), fs)
      | (Raise err, fs) =>
          let '(unlocked, fs) := unlock_proto_rev_list_locked io id fs in
          (Raise err, fs)
      end.

Definition get_writable_proto_rev (io : lock_io) (id : string)
  : fs_action (apr_file_t * string) :=
  with_txnlist_lock (get_writable_proto_rev_body io id).

(** [purge_shared_txn]. *)
Definition purge_shared_txn (id : string) : fs_action unit :=
  with_txnlist_lock
    (modify_fs (fun fs => with_shared fs (free_shared_txn (fs_shared fs) id))).

End ProtoRevLock.

(** ** RepSharing and RepWriter *)

Module RepWriter.

Import ProtoRevLock.

(** The header of a representation, as [rep_write_get_baton] fills it. *)
Inductive svn_fs_fs__rep_header_t : Type :=
  | svn_fs_fs__rep_self_delta
  | svn_fs_fs__rep_delta (base_revision : svn_revnum_t)
                         (base_offset base_length : Z).

(** The callees of the representation writers that live in other files,
    with what they answer. *)
Record rep_callees : Type := mk_rep_callees {
  md5_digest : bytes -> string;
  sha1_digest : bytes -> string;
  svn_fs_fs__get_node_revision :
    option svn_fs_id_t -> svn_result node_revision_t;
  svn_fs_fs__rep_chain_length : representation_t -> svn_result Z;
  svn_fs_fs__get_contents : option representation_t -> svn_result bytes;
  svn_fs_fs__write_rep_header : svn_fs_fs__rep_header_t -> bytes;
  (** the svndiff bytes a write of some data makes the encoder emit, and
      those it emits when the stream is closed after all the data *)
  svndiff_window : bytes -> bytes -> bytes;
  svndiff_close : bytes -> bytes -> bytes;
  svn_fs_fs__get_rep_reference :
    option string -> svn_result (option representation_t);
  svn_fs_fs__check_rep : representation_t -> option svn_error_t;
  (** [svn_io_check_path] of the sha1 file of a transaction, and the
      representation read and parsed from it *)
  txn_sha1_check_path : option string -> option string
                        -> svn_result svn_node_kind_t;
  txn_sha1_parse : option string -> option string
                   -> svn_result representation_t;
  read_next_ids : string -> svn_result (string * string);
  write_next_ids : string -> option svn_error_t;
  write_noderev_file : node_revision_t -> option svn_error_t;
  write_sha1_file : node_revision_t -> option svn_error_t;
  svn_io_file_close : apr_file_t -> option svn_error_t;
  (** the error [svn_io_file_trunc] returns for a file and an offset, if
      it returns one *)
  io_file_trunc : apr_file_t -> Z -> option svn_error_t
}.

Section writers.

Variable c : rep_callees.
Variable io : lock_io.

(** [svn_io_file_trunc (file, offset)]: unless it reports an error, the
    file is cut at OFFSET and the file pointer put there.  A truncation
    that reports an error is taken to have left the file as it was. *)
Definition svn_io_file_trunc (file : apr_file_t) (offset : Z)
  : fs_action apr_file_t :=
  fun fs =>
    match io_file_trunc c file offset with
    | Some err => (Raise err, fs)
    | None =>
        let old := proto_rev_data fs (file_name file) in
        (Ok (mk_file (file_name file) (Z.to_nat offset)),
         with_proto_revs fs
           (<[file_name file := take (Z.to_nat offset) old]>
              (fs_proto_revs fs)))
    end.

(** Errors of the rep-cache that [get_shared_rep] does not mask: CORRUPT
    and the malfunction category, which holds the failed assertions. *)
Definition is_fatal (err : svn_error_t) : bool :=
  match apr_err err with
  | SVN_ERR_FS_CORRUPT => true
  | SVN_ERR_ASSERTION_FAIL => true
  | _ => false
  end.

Definition backfill (rep old_rep : representation_t) : representation_t :=
  mk_rep (rep_md5_checksum rep) (rep_sha1_checksum old_rep)
         (rep_revision old_rep) (rep_offset old_rep) (rep_size old_rep)
         (rep_expanded_size old_rep) (rep_txn_id old_rep)
         (rep_uniquifier rep).

(** [get_shared_rep (old_rep, fs, rep, reps_hash)]. *)
Definition get_shared_rep (ffd : fs_fs_data_t) (rep : representation_t)
    (reps_hash : option (gmap string representation_t))
  : svn_result (option representation_t) :=
  if negb (rep_sharing_allowed ffd) then Ok None
  else
    let old_rep :=
      match reps_hash, rep_sha1_checksum rep with
      | Some h, Some digest => h !! digest
      | _, _ => None
      end in
    do old_rep <-
      match old_rep with
      | Some _ => Ok old_rep
      | None =>
          match svn_fs_fs__get_rep_reference c (rep_sha1_checksum rep) with
          | Ok (Some found) =>
              match svn_fs_fs__check_rep c found with
              | None => Ok (Some found)
              | Some err => Raise err
              end
          | Ok None => Ok None
          | Raise err => if is_fatal err then Raise err else Ok None
          end
      end;
    do old_rep <-
      match old_rep with
      | Some _ => Ok old_rep
      | None =>
          if is_txn_rep rep then
            do kind <- txn_sha1_check_path c (rep_txn_id rep)
                                           (rep_sha1_checksum rep);
            if bool_decide (kind = svn_node_file) then
              do parsed <- txn_sha1_parse c (rep_txn_id rep)
                                          (rep_sha1_checksum rep);
              Ok (Some parsed)
            else Ok None
          else Ok None
      end;
    Ok (match old_rep with
        | Some old => Some (backfill rep old)
        | None => None
        end).


(** [svn_fs_fs__put_node_revision]; the node-rev comes back with its
    [is_fresh_txn_root] set. *)
Definition svn_fs_fs__put_node_revision (id : svn_fs_id_t)
    (noderev : node_revision_t) (fresh_txn_root : bool)
  : svn_result node_revision_t :=
  let noderev :=
    mk_noderev (nr_kind noderev) (nr_id noderev) (nr_predecessor_id noderev)
               (nr_predecessor_count noderev) (nr_data_rep noderev)
               (nr_prop_rep noderev) (nr_copyroot_rev noderev)
               fresh_txn_root in
  if negb (svn_fs_fs__id_is_txn id) then
    Raise (svn_error_create SVN_ERR_FS_CORRUPT
             "Attempted to write to non-transaction")
  else
    match write_noderev_file c noderev with
    | Some err => Raise err
    | None => Ok noderev
    end.


Definition with_data_rep (noderev : node_revision_t)
    (rep : option representation_t) : node_revision_t :=
  mk_noderev (nr_kind noderev) (nr_id noderev) (nr_predecessor_id noderev)
             (nr_predecessor_count noderev) rep
             (nr_prop_rep noderev) (nr_copyroot_rev noderev)
             (nr_is_fresh_txn_root noderev).

Definition with_prop_rep (noderev : node_revision_t)
    (rep : option representation_t) : node_revision_t :=
  mk_noderev (nr_kind noderev) (nr_id noderev) (nr_predecessor_id noderev)
             (nr_predecessor_count noderev) (nr_data_rep noderev)
             rep (nr_copyroot_rev noderev)
             (nr_is_fresh_txn_root noderev).

(** [struct rep_write_baton].  The two checksum contexts are kept as the
    bytes they have been fed, the delta stream as the contents of its
    source. *)
Record rep_write_baton : Type := mk_baton {
  b_file : apr_file_t;
  b_source : bytes;
  b_rep_offset : Z;
  b_delta_start : Z;
  b_rep_size : Z;
  b_noderev : node_revision_t;
  b_txn_id : string;
  b_lockcookie : string;
  b_checksum_ctx : bytes
}.

Definition header_of (base_rep : option representation_t)
  : svn_fs_fs__rep_header_t :=
  match base_rep with
  | Some base =>
      svn_fs_fs__rep_delta (rep_revision base) (rep_offset base)
                           (rep_size base)
  | None => svn_fs_fs__rep_self_delta
  end.

(** [rep_write_get_baton]; TXN is [svn_fs_fs__id_txn_id (noderev->id)]. *)
Definition rep_write_get_baton (txn : string) (noderev : node_revision_t)
  : fs_action rep_write_baton :=
  run opened <- get_writable_proto_rev io txn;
  let '(file, lockcookie) := opened in
  let rep_offset := svn_fs_fs__get_file_offset file in
  run fs <- get_fs;
  run base_rep <- lift (DeltaBase.choose_delta_base
                          (fs_ffd fs) (svn_fs_fs__get_node_revision c)
                          (svn_fs_fs__rep_chain_length c) noderev false);
  run source <- lift (svn_fs_fs__get_contents c base_rep);
  run file <- file_write file
                (svn_fs_fs__write_rep_header c (header_of base_rep));
  let delta_start := svn_fs_fs__get_file_offset file in
  ret (mk_baton file source rep_offset delta_start 0%Z noderev txn
                lockcookie []).

(** [rep_write_contents (baton, data, len)]. *)
Definition rep_write_contents (b : rep_write_baton) (data : bytes)
  : fs_action rep_write_baton :=
  run file <- file_write (b_file b)
                (svndiff_window c (b_source b) data);
  ret (mk_baton file (b_source b) (b_rep_offset b) (b_delta_start b)
                (b_rep_size b + Z.of_nat (length data))%Z (b_noderev b)
                (b_txn_id b) (b_lockcookie b) (b_checksum_ctx b ++ data)).



(** [set_representation]. *)
Definition set_representation (noderev : node_revision_t)
  : fs_action rep_write_baton :=
  match svn_fs_fs__id_txn_id (nr_id noderev) with
  | None =>
      throw (svn_error_create SVN_ERR_FS_CORRUPT
              "Attempted to write to non-transaction")
  | Some txn => rep_write_get_baton txn noderev
  end.

(** [svn_fs_fs__set_contents]. *)
Definition svn_fs_fs__set_contents (noderev : node_revision_t)
  : fs_action rep_write_baton :=
  if negb (bool_decide (nr_kind noderev = svn_node_file)) then
    throw (svn_error_create SVN_ERR_FS_NOT_FILE
            "Can't set text contents of a directory")
  else set_representation noderev.

Definition with_checksums (rep : representation_t) (data : bytes)
  : representation_t :=
  mk_rep (Some (md5_digest c data)) (Some (sha1_digest c data))
         (rep_revision rep) (rep_offset rep) (rep_size rep)
         (rep_expanded_size rep) (rep_txn_id rep) (rep_uniquifier rep).

Definition with_offset (rep : representation_t) (offset : Z)
  : representation_t :=
  mk_rep (rep_md5_checksum rep) (rep_sha1_checksum rep)
         (rep_revision rep) offset (rep_size rep)
         (rep_expanded_size rep) (rep_txn_id rep) (rep_uniquifier rep).

Definition with_sizes (rep : representation_t) (size expanded_size : Z)
  : representation_t :=
  mk_rep (rep_md5_checksum rep) (rep_sha1_checksum rep)
         (rep_revision rep) (rep_offset rep) size
         expanded_size (rep_txn_id rep) (rep_uniquifier rep).

(** [write_hash_rep (rep, file, hash, fs, reps_hash)].  HASH_DUMP is what
    [svn_hash_write2] writes for the hash; [write_hash_handler] counts
    and checksums these bytes on their way to the file. *)
Definition write_hash_rep (rep : representation_t) (file : apr_file_t)
    (hash_dump : bytes) (reps_hash : option (gmap string representation_t))
  : fs_action (representation_t * apr_file_t) :=
  let rep := with_offset rep (svn_fs_fs__get_file_offset file) in
  run file <- file_write file (bytes_of ("PLAIN" +:+ LF));
  run file <- file_write file hash_dump;
  let whb_size := Z.of_nat (length hash_dump) in
  let rep := with_checksums rep hash_dump in
  run fs <- get_fs;
  run old_rep <- lift (get_shared_rep (fs_ffd fs) rep reps_hash);
  match old_rep with
  | Some old =>
      run file <- svn_io_file_trunc file (rep_offset rep);
      ret (old, file)
  | None =>
      run file <- file_write file (bytes_of ("ENDREP" +:+ LF));
      ret (with_sizes rep whb_size 0%Z, file)
  end.

(** [write_hash_delta_rep (rep, file, hash, fs, noderev, reps_hash,
    props)]. *)
Definition write_hash_delta_rep (rep : representation_t) (file : apr_file_t)
    (hash_dump : bytes) (noderev : node_revision_t)
    (reps_hash : option (gmap string representation_t)) (props : bool)
  : fs_action (representation_t * apr_file_t) :=
  run fs <- get_fs;
  run base_rep <- lift (DeltaBase.choose_delta_base
                          (fs_ffd fs) (svn_fs_fs__get_node_revision c)
                          (svn_fs_fs__rep_chain_length c) noderev props);
  run source <- lift (svn_fs_fs__get_contents c base_rep);
  let rep := with_offset rep (svn_fs_fs__get_file_offset file) in
  run file <- file_write file
                (svn_fs_fs__write_rep_header c (header_of base_rep));
  let delta_start := svn_fs_fs__get_file_offset file in
  run file <- file_write file (svndiff_window c source hash_dump);
  run file <- file_write file (svndiff_close c source hash_dump);
  let whb_size := Z.of_nat (length hash_dump) in
  let rep := with_checksums rep hash_dump in
  run old_rep <- lift (get_shared_rep (fs_ffd fs) rep reps_hash);
  match old_rep with
  | Some old =>
      run file <- svn_io_file_trunc file (rep_offset rep);
      ret (old, file)
  | None =>
      let rep_end := svn_fs_fs__get_file_offset file in
      run file <- file_write file (bytes_of ("ENDREP" +:+ LF));
      ret (with_sizes rep (rep_end - delta_start)%Z whb_size, file)
  end.

End writers.

End RepWriter.

(** A stream of writes: [rep_write_contents] for each chunk in turn. *)
Fixpoint rep_write_stream (c : RepWriter.rep_callees)
    (b : RepWriter.rep_write_baton) (chunks : list bytes)
  : fs_action RepWriter.rep_write_baton :=
  match chunks with
  | [] => ret b
  | data :: rest =>
      run b <- RepWriter.rep_write_contents c b data;
      rep_write_stream c b rest
  end.

(** ** Committer *)

Module Committer.

Import ProtoRevLock RepWriter ChangesFold.

(** Format numbers of [fs_fs.h]. *)
Definition SVN_FS_FS__MIN_PROTOREVS_DIR_FORMAT : Z := 3%Z.
Definition SVN_FS_FS__MIN_NO_GLOBAL_IDS_FORMAT : Z := 3%Z.

Record svn_fs_dirent_t : Type := mk_dirent {
  dirent_name : string;
  dirent_kind : svn_node_kind_t;
  dirent_id : svn_fs_id_t
}.

(** What the transaction holds behind the id of a node: the node-rev
    [svn_fs_fs__get_node_revision] reads for it, or its error, and for a
    directory the entries [svn_fs_fs__rep_contents_dir] reads, in the order
    [svn_sort__hash] puts them, each with what is behind its id. *)
#[local] Unset Elimination Schemes.
Inductive txn_tree : Type :=
  | unreadable (err : svn_error_t)
  | readable (noderev : node_revision_t)
             (entries : svn_result (list (svn_fs_dirent_t * txn_tree))).
#[local] Set Elimination Schemes.

Record svn_fs_txn_t : Type := mk_txn {
  txn_name : string;
  base_rev : svn_revnum_t
}.

(** The callees of the committer in other files, with what they answer
    during this commit. *)
Record commit_callees : Type := mk_commit_callees {
  read_current : option svn_error_t;
  verify_locks : string -> option svn_error_t;
  head_root_noderev : svn_revnum_t -> svn_result node_revision_t;
  unparse_dir_entries : list svn_fs_dirent_t -> bytes;
  svn_fs_fs__get_proplist : node_revision_t -> svn_result bytes;
  svn_fs_fs__add_keys : option string -> string -> string;
  svn_fs_fs__write_noderev : node_revision_t -> bytes;
  svn_fs_fs__read_changes : string -> svn_result (list change_t);
  svn_fs_fs__write_changes : gmap string svn_fs_path_change2_t -> bytes;
  svn_fs_fs__unparse_revision_trailer : Z -> Z -> bytes;
  svn_io_file_flush_to_disk : option svn_error_t;
  txn_flag_props : svn_result (bool * bool);
  svn_fs_fs__change_txn_props : option svn_error_t;
  make_rev_shard : option svn_error_t;
  make_revprops_shard : option svn_error_t;
  rename_proto_rev : option svn_error_t;
  svn_fs_fs__change_txn_prop : option svn_error_t;
  rename_revprops : option svn_error_t;
  txn_next_ids : svn_result (string * string);
  write_current : option svn_error_t;
  svn_io_remove_dir2 : option svn_error_t;
  svn_io_remove_file2 : option svn_error_t
}.

(** The variables of [commit_body] that are written to: the filesystem,
    the open proto-rev file, the cell NEW_REV_P points to, and the two
    collections of new representations. *)
Record commit_state : Type := mk_cs {
  cs_fs : svn_fs_t;
  cs_file : apr_file_t;
  cs_new_rev : option svn_revnum_t;
  cs_reps_to_cache : option (list representation_t);
  cs_reps_hash : option (gmap string representation_t)
}.

Definition commit_action (A : Type) : Type := action commit_state A.

(** A computation on the filesystem, run on the filesystem of the
    commit. *)
Definition on_fs {A : Type} (m : fs_action A) : commit_action A :=
  fun cs =>
    let '(r, fs) := m (cs_fs cs) in
    (r, mk_cs fs (cs_file cs) (cs_new_rev cs) (cs_reps_to_cache cs)
              (cs_reps_hash cs)).

(** The same for a computation that hands back the open file. *)
Definition on_file {A : Type} (m : apr_file_t -> fs_action (A * apr_file_t))
  : commit_action A :=
  fun cs =>
    match m (cs_file cs) (cs_fs cs) with
    | (Ok (a, file), fs) =>
        (Ok a, mk_cs fs file (cs_new_rev cs) (cs_reps_to_cache cs)
                     (cs_reps_hash cs))
    | (Raise e, fs) =>
        (Raise e, mk_cs fs (cs_file cs) (cs_new_rev cs)
                        (cs_reps_to_cache cs) (cs_reps_hash cs))
    end.

Definition write_to_file (data : bytes) : commit_action unit :=
  on_file (fun file => run file <- file_write file data; ret (tt, file)).

Definition get_cs : commit_action commit_state := fun cs => (Ok cs, cs).

Definition modify_cs (f : commit_state -> commit_state)
  : commit_action unit :=
  fun cs => (Ok tt, f cs).

Definition with_revision (rep : representation_t) (rev : svn_revnum_t)
  : representation_t :=
  mk_rep (rep_md5_checksum rep) (rep_sha1_checksum rep) rev
         (rep_offset rep) (rep_size rep) (rep_expanded_size rep)
         (rep_txn_id rep) (rep_uniquifier rep).

Definition without_sha1 (rep : representation_t) : representation_t :=
  mk_rep (rep_md5_checksum rep) None (rep_revision rep)
         (rep_offset rep) (rep_size rep) (rep_expanded_size rep)
         (rep_txn_id rep) (rep_uniquifier rep).

Section commit.

Variable c : rep_callees.
Variable cc : commit_callees.
Variable io : lock_io.

(** [validate_root_noderev (fs, root_noderev, rev)]. *)
Definition validate_root_noderev (root_noderev : node_revision_t)
    (rev : svn_revnum_t) : svn_result unit :=
  let head_revnum := (rev - 1)%Z in
  if negb (0 <? rev)%Z then
    Raise (svn_error_create SVN_ERR_ASSERTION_FAIL "rev > 0")
  else
    do head_root <- head_root_noderev cc head_revnum;
    let head_predecessor_count := nr_predecessor_count head_root in
    if negb (nr_predecessor_count root_noderev =? -1)%Z
       && negb (nr_predecessor_count root_noderev - head_predecessor_count
                =? rev - head_revnum)%Z
    then
      Raise (svn_error_create SVN_ERR_FS_CORRUPT
               ("predecessor count for the root node-revision is wrong: "
                +:+ "found (" +:+ pretty head_predecessor_count +:+ "+"
                +:+ pretty (rev - head_revnum)%Z +:+ " != "
                +:+ pretty (nr_predecessor_count root_noderev)
                +:+ "), committing r" +:+ pretty rev))
    else Ok tt.

(** The final form of a node or copy id: one made in the transaction
    starts with an underscore. *)
Definition final_key (ffd : fs_fs_data_t) (rev : svn_revnum_t)
    (start_key : option string) (key : string) : string :=
  match key with
  | String "_" stem =>
      if (SVN_FS_FS__MIN_NO_GLOBAL_IDS_FORMAT <=? format ffd)%Z
      then stem +:+ "-" +:+ pretty rev
      else svn_fs_fs__add_keys cc start_key stem
  | _ => key
  end.

Definition with_id (noderev : node_revision_t) (id : svn_fs_id_t)
  : node_revision_t :=
  mk_noderev (nr_kind noderev) id (nr_predecessor_id noderev)
             (nr_predecessor_count noderev) (nr_data_rep noderev)
             (nr_prop_rep noderev) (nr_copyroot_rev noderev)
             (nr_is_fresh_txn_root noderev).

Definition with_copyroot_rev (noderev : node_revision_t)
    (rev : svn_revnum_t) : node_revision_t :=
  mk_noderev (nr_kind noderev) (nr_id noderev) (nr_predecessor_id noderev)
             (nr_predecessor_count noderev) (nr_data_rep noderev)
             (nr_prop_rep noderev) rev (nr_is_fresh_txn_root noderev).

Definition with_is_fresh_txn_root (noderev : node_revision_t) (v : bool)
  : node_revision_t :=
  mk_noderev (nr_kind noderev) (nr_id noderev) (nr_predecessor_id noderev)
             (nr_predecessor_count noderev) (nr_data_rep noderev)
             (nr_prop_rep noderev) (nr_copyroot_rev noderev) v.

(** [APR_ARRAY_PUSH (reps_to_cache, ...)] behind its assertion. *)
Definition push_rep_to_cache (rep : representation_t)
  : commit_action unit :=
  fun cs =>
    match cs_reps_to_cache cs with
    | None =>
        (Raise (svn_error_create SVN_ERR_ASSERTION_FAIL
                  "reps_to_cache && reps_pool"), cs)
    | Some reps =>
        (Ok tt, mk_cs (cs_fs cs) (cs_file cs) (cs_new_rev cs)
                      (Some (reps ++ [rep])) (cs_reps_hash cs))
    end.

Definition add_to_reps_hash (rep : representation_t) : commit_action unit :=
  modify_cs (fun cs =>
    mk_cs (cs_fs cs) (cs_file cs) (cs_new_rev cs) (cs_reps_to_cache cs)
          (match cs_reps_hash cs, rep_sha1_checksum rep with
           | Some h, Some digest => Some (<[digest := rep]> h)
           | h, _ => h
           end)).

(** The part of [write_final_rev] that saves the new representations for
    the rep-cache. *)
Definition remember_new_reps (ffd : fs_fs_data_t) (rev : svn_revnum_t)
    (noderev : node_revision_t) : commit_action unit :=
  if rep_sharing_allowed ffd then
    run _ <-
      match nr_data_rep noderev with
      | Some data_rep =>
          if bool_decide (nr_kind noderev = svn_node_file)
             && (rep_revision data_rep =? rev)%Z
          then push_rep_to_cache data_rep
          else ret tt
      | None => ret tt
      end;
    match nr_prop_rep noderev with
    | Some prop_rep =>
        if (rep_revision prop_rep =? rev)%Z then
          run _ <- push_rep_to_cache prop_rep;
          add_to_reps_hash prop_rep
        else ret tt
    | None => ret tt
    end
  else ret tt.

(** The hash written by [write_hash_delta_rep] or [write_hash_rep],
    whichever the setting DELTIFY selects. *)
Definition write_hash (deltify : bool) (rep : representation_t)
    (hash_dump : bytes) (noderev : node_revision_t)
    (reps_hash : option (gmap string representation_t)) (props : bool)
  : commit_action representation_t :=
  on_file (fun file =>
    if deltify
    then write_hash_delta_rep c rep file hash_dump noderev reps_hash props
    else write_hash_rep c rep file hash_dump reps_hash).

Section final_rev.

Variable rev : svn_revnum_t.
Variable start_node_id start_copy_id : option string.
Variable initial_offset : Z.

(** The steps of [write_final_rev] on a directory after its children are
    written: ENTRIES are its entries with their final ids. *)
Definition write_dir_rep (noderev : node_revision_t)
    (entries : list svn_fs_dirent_t) : commit_action node_revision_t :=
  match nr_data_rep noderev with
  | Some data_rep =>
      if is_txn_rep data_rep then
        let data_rep := with_revision (reset_txn_in_rep data_rep) rev in
        let noderev := with_data_rep noderev (Some data_rep) in
        run cs <- get_cs;
        run data_rep <- write_hash (deltify_directories (fs_ffd (cs_fs cs)))
                                   data_rep (unparse_dir_entries cc entries)
                                   noderev None false;
        ret (with_data_rep noderev (Some data_rep))
      else ret noderev
  | None => ret noderev
  end.

(** The steps on a file. *)
Definition stamp_file_rep (noderev : node_revision_t)
  : commit_action node_revision_t :=
  match nr_data_rep noderev with
  | Some data_rep =>
      if is_txn_rep data_rep then
        let data_rep := with_revision (reset_txn_in_rep data_rep) rev in
        if (initial_offset <? rep_offset data_rep + rep_size data_rep)%Z then
          throw (svn_error_create SVN_ERR_FS_CORRUPT
                  "Truncated protorev file detected")
        else ret (with_data_rep noderev (Some data_rep))
      else ret noderev
  | None => ret noderev
  end.

(** "Fix up the property reps." *)
Definition write_prop_rep (noderev : node_revision_t)
  : commit_action node_revision_t :=
  match nr_prop_rep noderev with
  | Some prop_rep =>
      if is_txn_rep prop_rep then
        run proplist <- lift (svn_fs_fs__get_proplist cc noderev);
        let prop_rep := with_revision (reset_txn_in_rep prop_rep) rev in
        let noderev := with_prop_rep noderev (Some prop_rep) in
        run cs <- get_cs;
        run prop_rep <- write_hash (deltify_properties (fs_ffd (cs_fs cs)))
                                   prop_rep proplist noderev
                                   (cs_reps_hash cs) true;
        ret (with_prop_rep noderev (Some prop_rep))
      else ret noderev
  | None => ret noderev
  end.

(** The rest of [write_final_rev], from "Convert our temporary ID into a
    permanent revision one" to its end. *)
Definition finish_noderev (noderev : node_revision_t) (at_root : bool)
  : commit_action (option svn_fs_id_t) :=
  run cs <- get_cs;
  let ffd := fs_ffd (cs_fs cs) in
  let my_offset := svn_fs_fs__get_file_offset (cs_file cs) in
  let my_node_id :=
    final_key ffd rev start_node_id (id_node_id (nr_id noderev)) in
  let my_copy_id :=
    final_key ffd rev start_copy_id (id_copy_id (nr_id noderev)) in
  let noderev :=
    if (nr_copyroot_rev noderev =? SVN_INVALID_REVNUM)%Z
    then with_copyroot_rev noderev rev else noderev in
  let new_id := svn_fs_fs__id_rev_create my_node_id my_copy_id rev my_offset in
  let noderev := with_id noderev new_id in
  run _ <- remember_new_reps ffd rev noderev;
  let noderev :=
    match nr_data_rep noderev with
    | Some data_rep =>
        if bool_decide (nr_kind noderev = svn_node_dir)
        then with_data_rep noderev (Some (without_sha1 data_rep))
        else noderev
    | None => noderev
    end in
  let noderev :=
    match nr_prop_rep noderev with
    | Some prop_rep => with_prop_rep noderev (Some (without_sha1 prop_rep))
    | None => noderev
    end in
  let noderev := with_is_fresh_txn_root noderev false in
  run _ <- (if at_root then lift (validate_root_noderev noderev rev)
            else ret tt);
  run _ <- write_to_file (svn_fs_fs__write_noderev cc noderev);
  ret (Some (nr_id noderev)).

(** The id an entry gets from the id its node was written under. *)
Definition with_final_id (dirent : svn_fs_dirent_t)
    (new_id : option svn_fs_id_t) : svn_fs_dirent_t :=
  match new_id with
  | Some new_id =>
      if (svn_fs_fs__id_rev new_id =? rev)%Z
      then mk_dirent (dirent_name dirent) (dirent_kind dirent) new_id
      else dirent
  | None => dirent
  end.

(** The loop of [write_final_rev] over the sorted entries of a
    directory: each child is written by WRITE_CHILD and its entry gets
    the id it was written under. *)
Definition write_children
    (write_child : txn_tree -> svn_fs_id_t
                   -> commit_action (option svn_fs_id_t))
  : list (svn_fs_dirent_t * txn_tree)
    -> commit_action (list svn_fs_dirent_t) :=
  fix children (l : list (svn_fs_dirent_t * txn_tree)) :=
    match l with
    | [] => ret []
    | (dirent, child) :: rest =>
        run new_id <- write_child child (dirent_id dirent);
        run rest <- children rest;
        ret (with_final_id dirent new_id :: rest)
    end.

(** [write_final_rev (new_id_p, file, rev, fs, id, ..., at_root)]; NODE is
    what the transaction holds behind ID. *)
Fixpoint write_final_rev (node : txn_tree) (id : svn_fs_id_t)
    (at_root : bool) {struct node} : commit_action (option svn_fs_id_t) :=
  if negb (svn_fs_fs__id_is_txn id) then ret None
  else
    match node with
    | unreadable err => throw err
    | readable noderev entries =>
        run noderev <-
          (if bool_decide (nr_kind noderev = svn_node_dir) then
             run entries <- lift entries;
             run entries <-
               write_children
                 (fun child id => write_final_rev child id false) entries;
             write_dir_rep noderev entries
           else stamp_file_rep noderev);
        run noderev <- write_prop_rep noderev;
        finish_noderev noderev at_root
    end.

End final_rev.

(** Modelled from the spec: [svn_fs_fs__youngest_rev], which is not among
    the sources; [commit_body] calls it to "read old_rev from current".
    It fails when 'current' cannot be read and else gives the revision
    the file names.  What the function does to the cached youngest
    revision is not known from the sources or the spec: here it leaves
    the cache alone.  Of the properties stated below only one rests on
    that, in what it says of the cache: that a commit refused as out of
    date leaves the whole state as it was. *)
Definition svn_fs_fs__youngest_rev : fs_action svn_revnum_t :=
  run _ <- attempt (read_current cc);
  run fs <- get_fs;
  ret (current_rev (fs_current fs)).

(** [get_next_revision_ids]: the second and third word of 'current'. *)
Definition get_next_revision_ids : fs_action (string * string) :=
  run _ <- attempt (read_current cc);
  run fs <- get_fs;
  match current_ids (fs_current fs) with
  | Some ids => ret ids
  | None =>
      throw (svn_error_create SVN_ERR_FS_CORRUPT "Corrupt 'current' file")
  end.

(** [write_final_changed_path_info]. *)
Definition write_final_changed_path_info (txn : string) : commit_action Z :=
  run cs <- get_cs;
  let offset := svn_fs_fs__get_file_offset (cs_file cs) in
  run changed_paths <-
    lift (svn_fs_fs__txn_changes_fetch (svn_fs_fs__read_changes cc txn));
  run _ <- write_to_file (svn_fs_fs__write_changes cc changed_paths);
  ret offset.

(** Modelled from the spec: [svn_fs_fs__write_current], which writes
    "<rev>" or "<rev> <node_id> <copy_id>" into 'current' atomically. *)
Definition svn_fs_fs__write_current (rev : svn_revnum_t)
    (ids : option (string * string)) : fs_action unit :=
  run _ <- attempt (write_current cc);
  modify_fs (fun fs => with_current fs (mk_current rev ids)).

(** [write_final_current]. *)
Definition write_final_current (txn : string) (rev : svn_revnum_t)
    (start_node_id start_copy_id : option string) : fs_action unit :=
  run fs <- get_fs;
  if (SVN_FS_FS__MIN_NO_GLOBAL_IDS_FORMAT <=? format (fs_ffd fs))%Z then
    svn_fs_fs__write_current rev None
  else
    run ids <- lift (txn_next_ids cc);
    svn_fs_fs__write_current rev
      (Some (svn_fs_fs__add_keys cc start_node_id (fst ids),
             svn_fs_fs__add_keys cc start_copy_id (snd ids))).

(** Modelled from the spec: [svn_fs_fs__move_into_place] of the proto-rev
    file, a rename onto the file of the new revision. *)
Definition move_proto_rev_into_place (txn : string) (rev : svn_revnum_t)
  : fs_action unit :=
  run _ <- attempt (rename_proto_rev cc);
  modify_fs (fun fs =>
    with_revs (with_proto_revs fs (delete txn (fs_proto_revs fs)))
              (<[rev := proto_rev_data fs txn]> (fs_revs fs))).

(** [svn_fs_fs__purge_txn]. *)
Definition svn_fs_fs__purge_txn (txn : string) : fs_action unit :=
  run _ <- purge_shared_txn txn;
  run _ <- attempt (svn_io_remove_dir2 cc);
  run fs <- get_fs;
  if (SVN_FS_FS__MIN_PROTOREVS_DIR_FORMAT <=? format (fs_ffd fs))%Z then
    run _ <- attempt (svn_io_remove_file2 cc);
    modify_fs (fun fs => with_proto_revs fs (delete txn (fs_proto_revs fs)))
  else ret tt.

(** [verify_as_revision_before_current_plus_plus]: its body is compiled
    in debugging builds only. *)
Definition verify_as_revision_before_current_plus_plus
    (new_rev : svn_revnum_t) : commit_action unit :=
  ret tt.

(** [commit_body (baton)], with the transaction, the flag SET_TIMESTAMP
    and what the transaction holds behind its root id. *)
Definition commit_body (txn : svn_fs_txn_t) (set_timestamp : bool)
    (root : txn_tree) : commit_action unit :=
  run old_rev <- on_fs svn_fs_fs__youngest_rev;
  if negb (base_rev txn =? old_rev)%Z then
    throw (svn_error_create SVN_ERR_FS_TXN_OUT_OF_DATE
            "Transaction out of date")
  else
    run _ <- attempt (verify_locks cc (txn_name txn));
    run cs <- get_cs;
    let ffd := fs_ffd (cs_fs cs) in
    run start_ids <-
      (if (format ffd <? SVN_FS_FS__MIN_NO_GLOBAL_IDS_FORMAT)%Z then
         run ids <- on_fs get_next_revision_ids;
         ret (Some (fst ids), Some (snd ids))
       else ret (None, None));
    let '(start_node_id, start_copy_id) := start_ids in
    let new_rev := (old_rev + 1)%Z in
    run opened <- on_fs (get_writable_proto_rev io (txn_name txn));
    let '(proto_file, proto_file_lockcookie) := opened in
    run _ <- modify_cs (fun cs =>
               mk_cs (cs_fs cs) proto_file (cs_new_rev cs)
                     (cs_reps_to_cache cs) (cs_reps_hash cs));
    let initial_offset := svn_fs_fs__get_file_offset proto_file in
    let root_id := svn_fs_fs__id_txn_create "0" "0" (txn_name txn) in
    run new_root_id <- write_final_rev new_rev start_node_id start_copy_id
                                       initial_offset root root_id true;
    run changed_path_offset <- write_final_changed_path_info (txn_name txn);
    run _ <- write_to_file
               (svn_fs_fs__unparse_revision_trailer cc
                  (match new_root_id with
                   | Some id => svn_fs_fs__id_offset id
                   | None => (-1)%Z
                   end)
                  changed_path_offset);
    run _ <- attempt (svn_io_file_flush_to_disk cc);
    run cs <- get_cs;
    run _ <- attempt (svn_io_file_close c (cs_file cs));
    run flags <- lift (txn_flag_props cc);
    run _ <- (if fst flags || snd flags
              then attempt (svn_fs_fs__change_txn_props cc) else ret tt);
    run _ <-
      (if negb (max_files_per_dir ffd =? 0)%Z
          && (Z.rem new_rev (max_files_per_dir ffd) =? 0)%Z
       then
         run _ <- attempt (make_rev_shard cc);
         attempt (make_revprops_shard cc)
       else ret tt);
    run _ <- on_fs (move_proto_rev_into_place (txn_name txn) new_rev);
    run _ <- on_fs (unlock_proto_rev io proto_file_lockcookie);
    run _ <- (if set_timestamp
              then attempt (svn_fs_fs__change_txn_prop cc) else ret tt);
    run _ <- attempt (rename_revprops cc);
    run _ <- verify_as_revision_before_current_plus_plus new_rev;
    run _ <- on_fs (write_final_current (txn_name txn) new_rev
                                        start_node_id start_copy_id);
    run _ <- modify_cs (fun cs =>
               mk_cs (with_youngest_rev_cache (cs_fs cs) new_rev)
                     (cs_file cs) (Some new_rev)
                     (cs_reps_to_cache cs) (cs_reps_hash cs));
    on_fs (svn_fs_fs__purge_txn (txn_name txn)).

(** The state [svn_fs_fs__commit] starts [commit_body] in: no file is
    open, NEW_REV_P has not been written, and the collections of new
    representations exist when rep-sharing is allowed. *)
Definition commit_baton (fs : svn_fs_t) : commit_state :=
  if rep_sharing_allowed (fs_ffd fs)
  then mk_cs fs (mk_file "" 0) None (Some []) (Some ∅)
  else mk_cs fs (mk_file "" 0) None None None.

End commit.

End Committer.

(** The steps of [write_final_rev] on a node-rev read from the
    transaction, up to "Convert our temporary ID into a permanent
    revision one": the children and the data rep, then the property rep. *)
Definition write_node_reps (c : RepWriter.rep_callees)
    (cc : Committer.commit_callees) (rev : svn_revnum_t)
    (start_node_id start_copy_id : option string) (initial_offset : Z)
    (noderev : node_revision_t)
    (entries : svn_result (list (Committer.svn_fs_dirent_t
                                 * Committer.txn_tree)))
  : Committer.commit_action node_revision_t :=
  run noderev <-
    (if bool_decide (nr_kind noderev = svn_node_dir) then
       run entries <- lift entries;
       run entries <-
         Committer.write_children rev
           (fun child id =>
              Committer.write_final_rev c cc rev start_node_id start_copy_id
                                        initial_offset child id false)
           entries;
       Committer.write_dir_rep c cc rev noderev entries
     else Committer.stamp_file_rep rev initial_offset noderev);
  Committer.write_prop_rep c cc rev noderev.

(** * Notions used to state the properties, and sample data *)

Import ChangesFold DeltaBase ProtoRevLock RepWriter Committer.

(** ** Changes *)

Definition is_delete_or_replace (c : change_t) : Prop :=
  change_kind (info c) = svn_fs_path_change_delete
  \/ change_kind (info c) = svn_fs_path_change_replace.

(** A record that needs a node revision id and has none. *)
Definition lacks_node_rev_id (c : change_t) : Prop :=
  node_rev_id (info c) = None
  /\ change_kind (info c) <> svn_fs_path_change_reset.

Definition sample_changes : gmap string svn_fs_path_change2_t :=
  let e := mk_change2 (Some (mk_id "1" "0" (origin_txn "5-1")))
                      svn_fs_path_change_modify true false svn_node_file
                      true SVN_INVALID_REVNUM None in
  <["/a" := e]> (<["/a/b" := e]> (<["/a/b/c" := e]> (<["/ab" := e]> ∅))).

Definition delete_a : change_t :=
  mk_change "/a"
    (mk_change2 (Some (mk_id "1" "0" (origin_txn "5-1")))
                svn_fs_path_change_delete false false svn_node_file
                true SVN_INVALID_REVNUM None).

Definition sample_swept : gmap string svn_fs_path_change2_t :=
  match process_changes sample_changes [delete_a] with
  | Ok swept => swept
  | Raise _ => ∅
  end.

Definition add_a : change_t :=
  mk_change "/a"
    (mk_change2 (Some (mk_id "_1" "0" (origin_txn "5-1")))
                svn_fs_path_change_add true false svn_node_file
                true SVN_INVALID_REVNUM None).

Definition modify_a_without_id : change_t :=
  mk_change "/a"
    (mk_change2 None svn_fs_path_change_modify true false svn_node_file
                true SVN_INVALID_REVNUM None).

Definition after_add_a : gmap string svn_fs_path_change2_t :=
  match process_changes ∅ [add_a] with
  | Ok m => m
  | Raise _ => ∅
  end.

(** ** Delta bases *)

(** The node-revs met when [predecessor_id] is followed N times from
    NODEREV, the nearest first. *)
Fixpoint predecessors
    (get_node_revision : option svn_fs_id_t -> svn_result node_revision_t)
    (n : nat) (noderev : node_revision_t)
  : svn_result (list node_revision_t) :=
  match n with
  | O => Ok []
  | S n' =>
      do b <- get_node_revision (nr_predecessor_id noderev);
      do rest <- predecessors get_node_revision n' b;
      Ok (b :: rest)
  end.

(** The index, counted from the oldest end, of the node-rev the skip-delta
    rule picks for a node-rev with PC predecessors. *)
Definition skip_delta_count (ffd : fs_fs_data_t) (pc : Z) : Z :=
  let count := Z.land pc (pc - 1) in
  if (pc - count <? max_linear_deltification ffd)%Z then (pc - 1)%Z
  else count.

(** The distance to the node-rev whose index is the predecessor count
    with its lowest set bit cleared. *)
Definition skip_delta_walk (pc : Z) : Z := (pc - Z.land pc (pc - 1))%Z.

Definition line_ffd : fs_fs_data_t := mk_ffd 6 1000 4 1023 true false false.

(** Node-rev K of a line of history: it was made in revision K, has K
    predecessors, and its data rep was written in revision K - LAG. *)
Definition line_node (lag k : Z) : node_revision_t :=
  mk_noderev svn_node_file (mk_id "1" "0" (origin_rev k 0))
             (Some (mk_id "1" "0" (origin_rev (k - 1)%Z 0))) k
             (Some (mk_rep None None (k - lag)%Z 0 10 10 None None))
             None 0%Z false.

Definition line_store (lag : Z) (id : option svn_fs_id_t)
  : svn_result node_revision_t :=
  match id with
  | Some i =>
      match id_origin_of i with
      | origin_rev r _ => Ok (line_node lag r)
      | origin_txn _ =>
          Raise (svn_error_create (SVN_ERR_OTHER 160014) "no such node")
      end
  | None => Raise (svn_error_create (SVN_ERR_OTHER 160014) "no such node")
  end.

Definition long_chain (rep : representation_t) : svn_result Z := Ok 100%Z.

Definition line_walk (lag : Z) : list node_revision_t :=
  match predecessors (line_store lag) 8 (line_node lag 40) with
  | Ok l => l
  | Raise _ => []
  end.

(** ** Files and representations *)

(** The file pointer of FILE is at the end of the file. *)
Definition at_end (file : apr_file_t) (fs : svn_fs_t) : Prop :=
  file_pos file = length (proto_rev_data fs (file_name file)).

Definition endrep : bytes := bytes_of ("ENDREP" +:+ LF).

Definition plain_header : bytes := bytes_of ("PLAIN" +:+ LF).

(** The representation [write_hash_rep] looks for a shared one of. *)
Definition hash_rep_candidate (c : rep_callees) (rep : representation_t)
    (offset : Z) (hash_dump : bytes) : representation_t :=
  with_checksums c (with_offset rep offset) hash_dump.

(** ** Commits *)

(** Nothing of the commit has been published between two states. *)
Definition unpublished (cs cs' : commit_state) : Prop :=
  fs_current (cs_fs cs') = fs_current (cs_fs cs)
  /\ fs_youngest_rev_cache (cs_fs cs') = fs_youngest_rev_cache (cs_fs cs)
  /\ fs_ffd (cs_fs cs') = fs_ffd (cs_fs cs)
  /\ cs_new_rev cs' = cs_new_rev cs.

(** A computation that publishes nothing, however it ends. *)
Definition quiet {A : Type} (m : commit_action A) : Prop :=
  forall cs r cs', m cs = (r, cs') -> unpublished cs cs'.

Definition quiet_fs {A : Type} (m : fs_action A) : Prop :=
  forall fs r fs',
    m fs = (r, fs') ->
    fs_current fs' = fs_current fs
    /\ fs_youngest_rev_cache fs' = fs_youngest_rev_cache fs
    /\ fs_ffd fs' = fs_ffd fs.

(** The predecessor count of the root is known and is not that of the
    head root plus one. *)
Definition count_mismatch (root_noderev head_root : node_revision_t) : Prop :=
  nr_predecessor_count root_noderev <> (-1)%Z
  /\ (nr_predecessor_count root_noderev - nr_predecessor_count head_root)%Z
     <> 1%Z.

(** ** A sample filesystem: head revision 5 and the transaction 5-1 *)

Definition ex_ffd : fs_fs_data_t := mk_ffd 6 1000 16 1023 true false false.

Definition ex_fs : svn_fs_t :=
  mk_fs ex_ffd (mk_shared [] false) 5 (mk_current 5 None)
        {["5-1" := bytes_of "earlier reps"]} ∅.

(** Every call of the operating system succeeds. *)
Definition ex_lock_io : lock_io := mk_lock_io 0 0 0 0 0 0.


(** Callees of the writers; CACHED is what the rep-cache knows. *)
Definition ex_rep_callees (cached : option representation_t) : rep_callees :=
  {| md5_digest := fun _ => "md5";
     sha1_digest := fun _ => "sha1";
     svn_fs_fs__get_node_revision := line_store 0;
     svn_fs_fs__rep_chain_length := long_chain;
     svn_fs_fs__get_contents := fun _ => Ok [];
     svn_fs_fs__write_rep_header := fun _ => bytes_of ("DELTA" +:+ LF);
     svndiff_window := fun _ data => data;
     svndiff_close := fun _ _ => [];
     svn_fs_fs__get_rep_reference := fun _ => Ok cached;
     svn_fs_fs__check_rep := fun _ => None;
     txn_sha1_check_path := fun _ _ => Ok svn_node_none;
     txn_sha1_parse := fun _ _ => Ok rep_calloc;
     read_next_ids := fun _ => Ok ("3", "1");
     write_next_ids := fun _ => None;
     write_noderev_file := fun _ => None;
     write_sha1_file := fun _ => None;
     svn_io_file_close := fun _ => None;
     io_file_trunc := fun _ _ => None |}.

Definition ex_props : bytes := bytes_of ("K 1" +:+ LF +:+ "END" +:+ LF).

Definition ex_file : apr_file_t := mk_file "5-1" 12.

Definition ex_prop_rep : representation_t :=
  mk_rep None None 6 0 0 0 None (Some "5-1/_4").

(** [write_hash_rep] on the sample filesystem. *)
Definition ex_hash_run (cached : option representation_t)
  : svn_result (representation_t * apr_file_t) * svn_fs_t :=
  write_hash_rep (ex_rep_callees cached) ex_prop_rep ex_file ex_props None
                 ex_fs.

Definition ex_hash_rep (cached : option representation_t)
  : representation_t :=
  match (ex_hash_run cached).1 with
  | Ok written => written.1
  | Raise _ => rep_calloc
  end.

Definition ex_hash_file (cached : option representation_t) : apr_file_t :=
  match (ex_hash_run cached).1 with
  | Ok written => written.2
  | Raise _ => ex_file
  end.

(** The root of the transaction, a directory without changes, with PC
    predecessors. *)
Definition ex_root (pc : Z) : node_revision_t :=
  mk_noderev svn_node_dir (mk_id "0" "0" (origin_txn "5-1"))
             (Some (mk_id "0" "0" (origin_rev 5 100))) pc
             (Some (mk_rep (Some "m") None 5 60 30 30 None None))
             None 0%Z true.

(** The root of revision REV has REV predecessors. *)
Definition ex_head_root (rev : svn_revnum_t) : svn_result node_revision_t :=
  Ok (mk_noderev svn_node_dir (mk_id "0" "0" (origin_rev rev 100))
                 None rev None None 0%Z false).

Definition ex_commit_callees : commit_callees :=
  {| read_current := None;
     verify_locks := fun _ => None;
     head_root_noderev := ex_head_root;
     unparse_dir_entries := fun _ => bytes_of ("END" +:+ LF);
     svn_fs_fs__get_proplist := fun _ => Ok ex_props;
     svn_fs_fs__add_keys := fun _ key => key;
     svn_fs_fs__write_noderev := fun _ => bytes_of ("noderev" +:+ LF);
     svn_fs_fs__read_changes := fun _ => Ok [];
     svn_fs_fs__write_changes := fun _ => [];
     svn_fs_fs__unparse_revision_trailer :=
       fun _ _ => bytes_of ("trailer" +:+ LF);
     svn_io_file_flush_to_disk := None;
     txn_flag_props := Ok (false, false);
     svn_fs_fs__change_txn_props := None;
     make_rev_shard := None;
     make_revprops_shard := None;
     rename_proto_rev := None;
     svn_fs_fs__change_txn_prop := None;
     rename_revprops := None;
     txn_next_ids := Ok ("0", "0");
     write_current := None;
     svn_io_remove_dir2 := None;
     svn_io_remove_file2 := None |}.

(** The commit of the transaction 5-1, taken to be based on BASE, with a
    root of PC predecessors. *)
Definition ex_commit (pc : Z) (base : svn_revnum_t)
  : svn_result unit * commit_state :=
  commit_body (ex_rep_callees None) ex_commit_callees ex_lock_io
              (mk_txn "5-1" base) false (readable (ex_root pc) (Ok []))
              (commit_baton ex_fs).


(** The commit of the transaction gets as far as the check of its root:
    'current' can be read and names the base revision of the
    transaction, the locks are in order, the ids to start from are there
    in a format that needs them, the proto-rev file can be taken for
    writing, and the root with what is below it could be written were it
    not the root, that is without the check. *)
Definition root_check_reached (c : rep_callees) (cc : commit_callees)
    (io : lock_io) (txn : svn_fs_txn_t) (root : txn_tree)
    (cs : commit_state) : Prop :=
  let fs := cs_fs cs in
  let old_rev := current_rev (fs_current fs) in
  read_current cc = None
  /\ base_rev txn = old_rev
  /\ (0 <= old_rev)%Z
  /\ verify_locks cc (txn_name txn) = None
  /\ exists start_node_id start_copy_id proto_file cookie fs1 new_id cs1,
       (if (format (fs_ffd fs) <? SVN_FS_FS__MIN_NO_GLOBAL_IDS_FORMAT)%Z
        then exists ids,
               current_ids (fs_current fs) = Some ids
               /\ start_node_id = Some ids.1
               /\ start_copy_id = Some ids.2
        else start_node_id = None /\ start_copy_id = None)
       /\ get_writable_proto_rev io (txn_name txn) fs
          = (Ok (proto_file, cookie), fs1)
       /\ write_final_rev c cc (old_rev + 1)%Z start_node_id start_copy_id
            (svn_fs_fs__get_file_offset proto_file) root
            (svn_fs_fs__id_txn_create "0" "0" (txn_name txn)) false
            (mk_cs fs1 proto_file (cs_new_rev cs) (cs_reps_to_cache cs)
                   (cs_reps_hash cs))
          = (Ok new_id, cs1).
(** * More of the file: the functions around the commit engine *)

(** ** Changed paths of a revision *)

(** [svn_fs_fs__paths_changed]: the changes of a revision, read by the
    callee [svn_fs_fs__get_changes] (its outcome is CHANGES), entered one
    after the other into a hash keyed by path. *)
Definition svn_fs_fs__paths_changed (changes : svn_result (list change_t))
  : svn_result (gmap string svn_fs_path_change2_t) :=
  do changes <- changes;
  Ok (foldl (fun changed_paths change =>
               <[path change := info change]> changed_paths)
            ∅ changes).

(** An entry with other modification flags. *)
Definition with_mods (e : svn_fs_path_change2_t) (text prop : bool)
  : svn_fs_path_change2_t :=
  mk_change2 (node_rev_id e) (change_kind e) text prop (node_kind e)
             (copyfrom_known e) (copyfrom_rev e) (copyfrom_path e).

(** A modify record for the node the entry E is about. *)
Definition modifies (p : string) (e : svn_fs_path_change2_t) (c : change_t)
  : Prop :=
  path c = p
  /\ change_kind (info c) = svn_fs_path_change_modify
  /\ node_rev_id (info c) = node_rev_id e.

Definition sample_modify (text prop : bool) : change_t :=
  mk_change "/a"
    (mk_change2 (Some (mk_id "1" "0" (origin_txn "5-1")))
                svn_fs_path_change_modify text prop svn_node_file
                true SVN_INVALID_REVNUM None).

Definition sample_entry : svn_fs_path_change2_t :=
  mk_change2 (Some (mk_id "1" "0" (origin_txn "5-1")))
             svn_fs_path_change_modify true false svn_node_file
             true SVN_INVALID_REVNUM None.

Definition delete_new_a : change_t :=
  mk_change "/a"
    (mk_change2 (Some (mk_id "_1" "0" (origin_txn "5-1")))
                svn_fs_path_change_delete false false svn_node_file
                true SVN_INVALID_REVNUM None).

Definition add_a_again : change_t :=
  mk_change "/a"
    (mk_change2 (Some (mk_id "_7" "0" (origin_txn "5-1")))
                svn_fs_path_change_add true true svn_node_file
                true SVN_INVALID_REVNUM None).

(** ** Verification of locks before a commit *)

Module LockVerifier.

Section verify.

(** Callees: [svn_fs_fs__allow_locked_operation (path, fs, recurse, TRUE)]
    of [lock.c], with the error it ends with, and [qsort] with
    [svn_sort_compare_paths], with the array it leaves. *)
Variable svn_fs_fs__allow_locked_operation :
  string -> bool -> option svn_error_t.
Variable qsort : list string -> list string.

(** The loop of [verify_locks] over the sorted paths.  The array holds
    keys of the hash, so [svn_hash_gets] finds a change for each of them;
    the C code reads through the pointer it gets without a test, which is
    reported as a malfunction here should the pointer be NULL. *)
Fixpoint verify_paths (changes : gmap string svn_fs_path_change2_t)
    (last_recursed : option string) (changed_paths : list string)
  : svn_result unit :=
  match changed_paths with
  | [] => Ok tt
  | path :: rest =>
      if match last_recursed with
         | Some parent => svn_dirent_is_child parent path
         | None => false
         end
      then verify_paths changes last_recursed rest
      else
        match changes !! path with
        | None =>
            Raise (svn_error_create SVN_ERR_ASSERTION_FAIL "change != NULL")
        | Some change =>
            let recurse :=
              negb (bool_decide
                      (change_kind change = svn_fs_path_change_modify)) in
            match svn_fs_fs__allow_locked_operation path recurse with
            | Some err => Raise err
            | None =>
                verify_paths changes
                             (if recurse then Some path else last_recursed)
                             rest
            end
        end
  end.

(** [verify_locks (fs, txn_name)]; PARSED is what the callees of
    [svn_fs_fs__txn_changes_fetch] read from the changes file. *)
Definition verify_locks (parsed : svn_result (list change_t))
  : svn_result unit :=
  do changes <- svn_fs_fs__txn_changes_fetch parsed;
  let changed_paths := qsort (map_to_list changes).*1 in
  verify_paths changes None changed_paths.

End verify.

End LockVerifier.

(** The lock check the changed path P gets on its own: recursive unless
    the change is a modification. *)
Definition own_lock_check (change : svn_fs_path_change2_t) : bool :=
  negb (bool_decide (change_kind change = svn_fs_path_change_modify)).

(** The changed path P passed the lock check: its own, or the recursive
    check of a changed path above it. *)
Definition lock_checked (allow : string -> bool -> option svn_error_t)
    (changes : gmap string svn_fs_path_change2_t) (p : string) : Prop :=
  (exists change, changes !! p = Some change
                  /\ allow p (own_lock_check change) = None)
  \/ (exists q above, changes !! q = Some above
                      /\ svn_dirent_is_child q p = true
                      /\ own_lock_check above = true
                      /\ allow q true = None).

(** A lock table in which the paths in and below /a/b are locked by
    someone else. *)
Definition sample_allow (p : string) (recurse : bool) : option svn_error_t :=
  if bool_decide (p = "/a/b") || svn_dirent_is_child "/a/b" p
     || (recurse && svn_dirent_is_child p "/a/b")
  then Some (svn_error_create (SVN_ERR_OTHER 160035) "path already locked")
  else None.

(** Sorting by the order of the characters. *)
Fixpoint sample_insert (p : string) (l : list string) : list string :=
  match l with
  | [] => [p]
  | q :: rest =>
      if String.leb p q then p :: l else q :: sample_insert p rest
  end.

Definition sample_qsort (l : list string) : list string :=
  foldr sample_insert [] l.

Definition sample_log : list change_t :=
  [mk_change "/ab" (info (sample_modify true false));
   mk_change "/c" (info add_a);
   mk_change "/c/d" (info add_a_again)].

Definition sample_log_changes : gmap string svn_fs_path_change2_t :=
  match svn_fs_fs__txn_changes_fetch (Ok sample_log) with
  | Ok m => m
  | Raise _ => ∅
  end.

(** ** The cleanup of an unfinished representation *)

(** [rep_write_cleanup (data)], the pool cleanup registered by
    [rep_write_get_baton]: it runs when the pool of the baton goes away
    before [rep_write_contents_close] has unregistered it.  The status it
    returns is the code of the first error, [None] standing for
    [APR_SUCCESS].  The transaction id it takes from the node-rev of the
    baton is the one the baton was made for. *)
Definition rep_write_cleanup (c : rep_callees) (io : lock_io)
    (b : rep_write_baton) : svn_fs_t -> option svn_errno_t * svn_fs_t :=
  fun fs =>
    let txn_id := b_txn_id b in
    let '(truncated, fs) := svn_io_file_trunc c (b_file b) (b_rep_offset b) fs in
    let err :=
      match truncated with
      | Ok file => svn_error_compose_create None (svn_io_file_close c file)
      | Raise e =>
          svn_error_compose_create (Some e) (svn_io_file_close c (b_file b))
      end in
    let '(unlocked, fs) := unlock_proto_rev io txn_id fs in
    let err :=
      svn_error_compose_create err
        (match unlocked with Ok _ => None | Raise e => Some e end) in
    (apr_err <$> err, fs).

(** The transaction ids of the registry, newest first. *)
Definition registered (ffsd : fs_fs_shared_data_t) : list string :=
  txn_id <$> txns ffsd.

(** A registry that knows the transaction 5-1 and an older one. *)
Definition ex_registry : fs_fs_shared_data_t :=
  mk_shared [mk_shared_txn "5-1" false; mk_shared_txn "4-3" true] false.

Definition ex_fs_registered : svn_fs_t := with_shared ex_fs ex_registry.

(** The proto-rev file of 5-1 opened for writing on the sample
    filesystem. *)
Definition ex_opened : svn_result (apr_file_t * string) * svn_fs_t :=
  get_writable_proto_rev ex_lock_io "5-1" ex_fs.

(** A filesystem without the proto-rev file of the transaction. *)
Definition ex_fs_no_proto_rev : svn_fs_t := with_proto_revs ex_fs ∅.

(** A node-rev of the transaction 5-1 whose contents are about to be
    written. *)
Definition ex_file_noderev : node_revision_t :=
  mk_noderev svn_node_file (mk_id "_3" "0" (origin_txn "5-1"))
             None 0 None None 0%Z false.

Definition ex_baton : svn_result rep_write_baton * svn_fs_t :=
  rep_write_get_baton (ex_rep_callees None) ex_lock_io "5-1" ex_file_noderev
                      ex_fs.

Definition ex_chunks : list bytes := [bytes_of "hello "; bytes_of "world"].

(** The baton of that writer, and the baton and the filesystem after the
    chunks were written. *)
Definition ex_b0 : rep_write_baton :=
  match ex_baton.1 with
  | Ok b => b
  | Raise _ => mk_baton ex_file [] 0 0 0 ex_file_noderev "" "" []
  end.

Definition ex_written : svn_result rep_write_baton * svn_fs_t :=
  rep_write_stream (ex_rep_callees None) ex_b0 ex_chunks ex_baton.2.

Definition ex_b : rep_write_baton :=
  match ex_written.1 with
  | Ok b => b
  | Raise _ => ex_b0
  end.


(** The error of a truncation that fails, and the callees of the writers
    with such a truncation. *)
Definition ex_trunc_error : svn_error_t :=
  svn_error_wrap_apr 28 "Can't truncate file".

Definition ex_trunc_fails : rep_callees :=
  let c := ex_rep_callees None in
  {| md5_digest := md5_digest c;
     sha1_digest := sha1_digest c;
     svn_fs_fs__get_node_revision := svn_fs_fs__get_node_revision c;
     svn_fs_fs__rep_chain_length := svn_fs_fs__rep_chain_length c;
     svn_fs_fs__get_contents := svn_fs_fs__get_contents c;
     svn_fs_fs__write_rep_header := svn_fs_fs__write_rep_header c;
     svndiff_window := svndiff_window c;
     svndiff_close := svndiff_close c;
     svn_fs_fs__get_rep_reference := svn_fs_fs__get_rep_reference c;
     svn_fs_fs__check_rep := svn_fs_fs__check_rep c;
     txn_sha1_check_path := txn_sha1_check_path c;
     txn_sha1_parse := txn_sha1_parse c;
     read_next_ids := read_next_ids c;
     write_next_ids := write_next_ids c;
     write_noderev_file := write_noderev_file c;
     write_sha1_file := write_sha1_file c;
     svn_io_file_close := svn_io_file_close c;
     io_file_trunc := fun _ _ => Some ex_trunc_error |}.

(** ** The entry point of a commit *)

(** The callees of [svn_fs_fs__commit] in other files:
    [svn_fs_fs__with_write_lock], which may fail to get the write lock
    and otherwise runs the body and returns what the body returned, the
    rep-cache, and the two halves of [SVN_SQLITE__WITH_TXN], the second of
    which is given the error of the statement between them. *)
Record commit_entry_callees : Type := mk_commit_entry_callees {
  get_write_lock : option svn_error_t;
  svn_fs_fs__open_rep_cache : option svn_error_t;
  svn_sqlite__begin_transaction : option svn_error_t;
  svn_fs_fs__set_rep_reference : representation_t -> option svn_error_t;
  svn_sqlite__finish_transaction : option svn_error_t -> option svn_error_t
}.

Section commit_entry.

Variable c : rep_callees.
Variable cc : commit_callees.
Variable io : lock_io.
Variable ec : commit_entry_callees.

(** [write_reps_to_cache (fs, reps_to_cache)]. *)
Fixpoint write_reps_to_cache (reps_to_cache : list representation_t)
  : option svn_error_t :=
  match reps_to_cache with
  | [] => None
  | rep :: rest =>
      match svn_fs_fs__set_rep_reference ec rep with
      | Some err => Some err
      | None => write_reps_to_cache rest
      end
  end.

(** [svn_fs_fs__with_write_lock (fs, body, baton)]. *)
Definition svn_fs_fs__with_write_lock {A : Type} (body : commit_action A)
  : commit_action A :=
  run _ <- attempt (get_write_lock ec);
  body.

(** [SVN_SQLITE__WITH_TXN (expr, db)]. *)
Definition SVN_SQLITE__WITH_TXN (expr : option svn_error_t)
  : option svn_error_t :=
  match svn_sqlite__begin_transaction ec with
  | Some err => Some err
  | None => svn_sqlite__finish_transaction ec expr
  end.

(** [svn_fs_fs__commit (new_rev_p, fs, txn, set_timestamp)]; it hands back
    the variables of the commit as it leaves them, the cell NEW_REV_P
    points to among them.  With rep-sharing allowed the array of new
    representations exists. *)
Definition svn_fs_fs__commit (txn : svn_fs_txn_t) (set_timestamp : bool)
    (root : txn_tree) (fs : svn_fs_t) : svn_result unit * commit_state :=
  (run _ <- svn_fs_fs__with_write_lock
              (commit_body c cc io txn set_timestamp root);
   run cb <- get_cs;
   if rep_sharing_allowed (fs_ffd (cs_fs cb)) then
     run _ <- attempt (svn_fs_fs__open_rep_cache ec);
     attempt (SVN_SQLITE__WITH_TXN
                (write_reps_to_cache (default [] (cs_reps_to_cache cb))))
   else ret tt)
    (commit_baton fs).

End commit_entry.

(** A computation that keeps a property of the variables of the commit,
    however it ends. *)
Definition keeps (I : commit_state -> Prop) {A : Type} (m : commit_action A)
  : Prop :=
  forall cs r cs', I cs -> m cs = (r, cs') -> I cs'.

(** The new representations saved for the rep-cache all belong to
    revision REV. *)
Definition saved_for (rev : svn_revnum_t) (cs : commit_state) : Prop :=
  forall reps, cs_reps_to_cache cs = Some reps ->
               Forall (fun rep => rep_revision rep = rev) reps.

(** The new revision is out: 'current' names it, the cache of the
    youngest revision has it, and so has the cell NEW_REV_P points to. *)
Definition published (rev : svn_revnum_t) (cs : commit_state) : Prop :=
  cs_new_rev cs = Some rev
  /\ current_rev (fs_current (cs_fs cs)) = rev
  /\ fs_youngest_rev_cache (cs_fs cs) = rev.

(** Callees of the entry point for which everything works. *)
Definition ex_entry_callees : commit_entry_callees :=
  {| get_write_lock := None;
     svn_fs_fs__open_rep_cache := None;
     svn_sqlite__begin_transaction := None;
     svn_fs_fs__set_rep_reference := fun _ => None;
     svn_sqlite__finish_transaction := fun err => err |}.

(** The same with a rep-cache that cannot be opened. *)
Definition ex_entry_callees_no_cache : commit_entry_callees :=
  {| get_write_lock := None;
     svn_fs_fs__open_rep_cache :=
       Some (svn_error_create (SVN_ERR_OTHER 200030) "sqlite: disk I/O error");
     svn_sqlite__begin_transaction := None;
     svn_fs_fs__set_rep_reference := fun _ => None;
     svn_sqlite__finish_transaction := fun err => err |}.

(** A file of the transaction 5-1 with a property list of its own. *)
Definition ex_changed_file : node_revision_t :=
  mk_noderev svn_node_file (mk_id "_3" "0" (origin_txn "5-1"))
             None 0
             (Some (mk_rep (Some "m1") (Some "s1") SVN_INVALID_REVNUM
                           0 12 12 (Some "5-1") (Some "5-1/_5")))
             (Some (mk_rep None None SVN_INVALID_REVNUM 0 0 0 (Some "5-1")
                           None))
             SVN_INVALID_REVNUM false.

(** The root of the transaction 5-1 with that file in it. *)
Definition ex_changed_root : txn_tree :=
  readable
    (mk_noderev svn_node_dir (mk_id "0" "0" (origin_txn "5-1"))
                (Some (mk_id "0" "0" (origin_rev 5 100))) 6
                (Some (mk_rep None None SVN_INVALID_REVNUM 0 0 0
                              (Some "5-1") (Some "5-1/_6")))
                None 0%Z true)
    (Ok [(mk_dirent "f" svn_node_file (mk_id "_3" "0" (origin_txn "5-1")),
          readable ex_changed_file (Ok []))]).

Definition ex_changed_commit (ec : commit_entry_callees)
  : svn_result unit * commit_state :=
  svn_fs_fs__commit (ex_rep_callees None) ex_commit_callees ex_lock_io ec
                    (mk_txn "5-1" 5) false ex_changed_root ex_fs.

(** [commit_body] on that transaction, as [svn_fs_fs__commit] starts
    it. *)
Definition ex_changed_body : svn_result unit * commit_state :=
  commit_body (ex_rep_callees None) ex_commit_callees ex_lock_io
              (mk_txn "5-1" 5) false ex_changed_root (commit_baton ex_fs).

(** A computation of the commit that, when it succeeds, has done no more
    to the open proto-rev file than add bytes at its end, where it has
    left the file pointer. *)
Definition grows {A : Type} (m : commit_action A) : Prop :=
  forall cs a cs',
    at_end (cs_file cs) (cs_fs cs) ->
    m cs = (Ok a, cs') ->
    file_name (cs_file cs') = file_name (cs_file cs)
    /\ at_end (cs_file cs') (cs_fs cs')
    /\ exists more,
         proto_rev_data (cs_fs cs') (file_name (cs_file cs))
         = proto_rev_data (cs_fs cs) (file_name (cs_file cs)) ++ more.

(** The same for a writer that is handed the open file. *)
Definition grows_file {A : Type}
    (m : apr_file_t -> fs_action (A * apr_file_t)) : Prop :=
  forall file fs a file' fs',
    at_end file fs ->
    m file fs = (Ok (a, file'), fs') ->
    file_name file' = file_name file
    /\ at_end file' fs'
    /\ exists more,
         proto_rev_data fs' (file_name file)
         = proto_rev_data fs (file_name file) ++ more.

(** ** Creating and listing transactions *)

Module TxnStore.

(** The extension of a transaction directory, [PATH_EXT_TXN] of [fs.h]:
    "Return the basename minus the ".txn" extension". *)
Definition PATH_EXT_TXN : string := ".txn".

(** The status APR gives for a file that exists, the one
    [APR_STATUS_IS_EEXIST] tests for; as for [APR_EAGAIN] above the number
    is that of the errno. *)
Definition APR_EEXIST : Z := 17%Z.

Definition APR_STATUS_IS_EEXIST (code : svn_errno_t) : bool :=
  match code with
  | SVN_ERR_APR status => (status =? APR_EEXIST)%Z
  | _ => false
  end.

(** Two codes of [svn_error_codes.h] the type of error codes above has
    no name for.  The header is not among the sources; the numbers serve
    to tell the codes apart. *)
Definition SVN_ERR_IO_UNIQUE_NAMES_EXHAUSTED : svn_errno_t :=
  SVN_ERR_OTHER 135003.
Definition SVN_ERR_INCORRECT_PARAMS : svn_errno_t :=
  SVN_ERR_OTHER 200004.

Section txns_dir.

(** The operating system: the status of a [mkdir] in the transactions
    directory when no entry of that name is in the way, and of reading
    the directory. *)
Variable io_dir_make : string -> Z.
Variable io_get_dirents : option svn_error_t.

(** [fs->path] in local style, for the message. *)
Variable fs_path : string.

(** [svn_io_dir_make] of the directory NAME in the transactions
    directory, the names in which are the state. *)
Definition svn_io_dir_make (name : string) : action (gset string) unit :=
  fun dirents =>
    if bool_decide (name ∈ dirents) then
      (Raise (svn_error_wrap_apr APR_EEXIST "Can't create directory"),
       dirents)
    else if negb (io_dir_make name =? APR_SUCCESS)%Z then
      (Raise (svn_error_wrap_apr (io_dir_make name) "Can't create directory"),
       dirents)
    else (Ok tt, {[name]} ∪ dirents).

(** The name [create_txn_dir_pre_1_5] tries in round I, without the
    directories above it. *)
Definition unique_name (rev : svn_revnum_t) (i : Z) : string :=
  pretty rev +:+ "-" +:+ pretty i +:+ PATH_EXT_TXN.

(** The loop of [create_txn_dir_pre_1_5]; ROUNDS is the number of rounds
    left when I is tried. *)
Fixpoint try_unique_names (rounds : nat) (rev : svn_revnum_t) (i : Z)
  : action (gset string) string :=
  match rounds with
  | O =>
      throw (svn_error_create SVN_ERR_IO_UNIQUE_NAMES_EXHAUSTED
               ("Unable to create transaction directory in '" +:+ fs_path
                +:+ "' for revision " +:+ pretty rev))
  | S rounds' =>
      fun dirents =>
        let name := unique_name rev i in
        match svn_io_dir_make name dirents with
        | (Ok _, dirents) =>
            (Ok (String.substring
                   0 (String.length name - String.length PATH_EXT_TXN) name),
             dirents)
        | (Raise err, dirents) =>
            if negb (APR_STATUS_IS_EEXIST (apr_err err))
            then (Raise err, dirents)
            else try_unique_names rounds' rev (i + 1)%Z dirents
        end
  end.

(** [create_txn_dir_pre_1_5 (id_p, fs, rev)]. *)
Definition create_txn_dir_pre_1_5 (rev : svn_revnum_t)
  : action (gset string) string :=
  try_unique_names (Z.to_nat 99999) rev 1%Z.

(** The test and the cut of [svn_fs_fs__list_transactions] on one name of
    the directory. *)
Definition txn_of_dirent (name : string) : option string :=
  let klen := String.length name in
  let ext_len := String.length PATH_EXT_TXN in
  if (klen <=? ext_len)%nat
     || negb (String.eqb (String.substring (klen - ext_len) ext_len name)
                         PATH_EXT_TXN)
  then None
  else Some (String.substring 0 (klen - ext_len) name).

(** [svn_fs_fs__list_transactions (names_p, fs)]; the names come in the
    order the hash of the directory entries is walked in. *)
Definition svn_fs_fs__list_transactions
  : action (gset string) (list string) :=
  run _ <- attempt io_get_dirents;
  fun dirents => (Ok (omap txn_of_dirent (elements dirents)), dirents).

End txns_dir.

(** [create_new_txn_noderev_from_rev (fs, txn_id, src)]: the node-rev it
    stores for the root of the transaction, and what has become of its
    members [copyfrom_path] and [copyfrom_rev], which the record of a
    node-rev above leaves out. *)
Definition create_new_txn_noderev_from_rev (c : rep_callees)
    (txn_id : string) (src : svn_fs_id_t)
  : svn_result (node_revision_t * option string * svn_revnum_t) :=
  do noderev <- svn_fs_fs__get_node_revision c (Some src);
  if svn_fs_fs__id_is_txn (nr_id noderev) then
    Raise (svn_error_create SVN_ERR_FS_CORRUPT
             "Copying from transactions not allowed")
  else
    let copyfrom_path : option string := None in
    let copyfrom_rev := SVN_INVALID_REVNUM in
    let node_id := id_node_id (nr_id noderev) in
    let copy_id := id_copy_id (nr_id noderev) in
    let noderev :=
      mk_noderev (nr_kind noderev)
                 (svn_fs_fs__id_txn_create node_id copy_id txn_id)
                 (Some (nr_id noderev))
                 (nr_predecessor_count noderev + 1)%Z
                 (nr_data_rep noderev) (nr_prop_rep noderev)
                 (nr_copyroot_rev noderev) (nr_is_fresh_txn_root noderev) in
    do noderev <- svn_fs_fs__put_node_revision c (nr_id noderev) noderev true;
    Ok (noderev, copyfrom_path, copyfrom_rev).

End TxnStore.

(** The name of round J of [create_txn_dir_pre_1_5] is taken: an entry
    of that name is in the transactions directory, or the system says
    so. *)
Definition taken (io_dir_make : string -> Z) (rev : svn_revnum_t)
    (dirents : gset string) (j : Z) : Prop :=
  TxnStore.unique_name rev j ∈ dirents
  \/ io_dir_make (TxnStore.unique_name rev j) = TxnStore.APR_EEXIST.

(** The head root of the sample filesystem as the node-rev cache has
    it. *)
Definition ex_head_root_id : svn_fs_id_t := mk_id "0" "0" (origin_rev 5 100).

Definition ex_root_callees : rep_callees :=
  {| md5_digest := fun _ => "md5";
     sha1_digest := fun _ => "sha1";
     svn_fs_fs__get_node_revision := fun _ => ex_head_root 5;
     svn_fs_fs__rep_chain_length := long_chain;
     svn_fs_fs__get_contents := fun _ => Ok [];
     svn_fs_fs__write_rep_header := fun _ => bytes_of ("DELTA" +:+ LF);
     svndiff_window := fun _ data => data;
     svndiff_close := fun _ _ => [];
     svn_fs_fs__get_rep_reference := fun _ => Ok None;
     svn_fs_fs__check_rep := fun _ => None;
     txn_sha1_check_path := fun _ _ => Ok svn_node_none;
     txn_sha1_parse := fun _ _ => Ok rep_calloc;
     read_next_ids := fun _ => Ok ("3", "1");
     write_next_ids := fun _ => None;
     write_noderev_file := fun _ => None;
     write_sha1_file := fun _ => None;
     svn_io_file_close := fun _ => None;
     io_file_trunc := fun _ _ => None |}.

Definition ex_head_root_noderev : node_revision_t :=
  mk_noderev svn_node_dir ex_head_root_id None 5 None None 0%Z false.

(** The root of a transaction "5-3" made from it. *)
Definition ex_txn_root : node_revision_t :=
  mk_noderev svn_node_dir (svn_fs_fs__id_txn_create "0" "0" "5-3")
             (Some ex_head_root_id) 6 None None 0%Z true.

(** A transactions directory with two transactions on revision 5 and a
    stray file. *)
Definition ex_txns_dir : gset string := {["5-1.txn"; "5-2.txn"; "README"]}.

(** A [mkdir] that works. *)
Definition ex_dir_make (name : string) : Z := 0%Z.

(** A transactions directory that claims to have every name. *)
Definition full_dir_make (name : string) : Z := TxnStore.APR_EEXIST.

(** ** Transaction properties *)

Module TxnProps.

Import TxnStore.

(** [svn_prop_t]: a name and a value, which is [NULL] to delete. *)
Definition svn_prop_t : Type := string * option string.

Definition APR_STATUS_IS_ENOENT (code : svn_errno_t) : bool :=
  match code with
  | SVN_ERR_APR status => (status =? APR_ENOENT)%Z
  | _ => false
  end.

(** [svn_hash_sets (ht, key, val)]. *)
Definition svn_hash_sets (ht : gmap string string) (key : string)
    (val : option string) : gmap string string :=
  match val with
  | Some val => <[key := val]> ht
  | None => delete key ht
  end.

(** The property file of one transaction: absent, or holding a property
    list.  The file is kept as the hash its text stands for, that is
    [svn_hash_read2] is taken to read what [svn_hash_write2] wrote. *)
Definition props_file : Type := option (gmap string string).

(** What the callees answer: a failure of reading a property file that is
    there, before a property of it is stored, and of writing one; for
    [svn_fs_fs__begin_txn] the check of the filesystem, the transaction
    [svn_fs_fs__create_txn] makes and the time as a string. *)
Record props_io : Type := mk_props_io {
  io_read_props : option svn_error_t;
  io_write_props : option svn_error_t;
  svn_fs__check_fs : option svn_error_t;
  svn_fs_fs__create_txn : svn_result svn_fs_txn_t;
  svn_time_to_cstring_now : string
}.

Section txn_props.

Variable io : props_io.

(** The names of the three properties and the two bits of the flags,
    which headers outside this file define. *)
Variable SVN_PROP_REVISION_DATE : string.
Variable SVN_FS__PROP_TXN_CHECK_OOD : string.
Variable SVN_FS__PROP_TXN_CHECK_LOCKS : string.
Variable SVN_FS_TXN_CHECK_OOD : Z.
Variable SVN_FS_TXN_CHECK_LOCKS : Z.

(** [get_txn_proplist (proplist, fs, txn_id)]; the id of a transaction
    is never [NULL] in [svn_fs_txn_t] above, so the id is passed as an
    option here. *)
Definition get_txn_proplist (proplist : gmap string string)
    (txn_id : option string) : action props_file (gmap string string) :=
  match txn_id with
  | None =>
      throw (svn_error_create SVN_ERR_INCORRECT_PARAMS
               ("Internal error: a null transaction id was "
                +:+ "passed to get_txn_proplist()"))
  | Some _ =>
      fun file =>
        match file with
        | None =>
            (Raise (svn_error_wrap_apr APR_ENOENT "Can't open file"), file)
        | Some stored =>
            match io_read_props io with
            | Some err => (Raise err, file)
            | None => (Ok (stored ∪ proplist), file)
            end
        end
  end.

(** [svn_fs_fs__change_txn_props (txn, props)]. *)
Definition svn_fs_fs__change_txn_props (txn : svn_fs_txn_t)
    (props : list svn_prop_t) : action props_file unit :=
  fun file =>
    let txn_prop : gmap string string := ∅ in
    let '(err, file) := get_txn_proplist txn_prop (Some (txn_name txn)) file in
    let go (txn_prop : gmap string string) : action props_file unit :=
      let txn_prop :=
        foldl (fun ht prop => svn_hash_sets ht prop.1 prop.2) txn_prop props in
      run _ <- attempt (io_write_props io);
      fun _ => (Ok tt, Some txn_prop) in
    match err with
    | Raise err =>
        if APR_STATUS_IS_ENOENT (apr_err err) then go txn_prop file
        else (Raise err, file)
    | Ok txn_prop => go txn_prop file
    end.

(** [svn_fs_fs__change_txn_prop (txn, name, value)]. *)
Definition svn_fs_fs__change_txn_prop (txn : svn_fs_txn_t) (name : string)
    (value : option string) : action props_file unit :=
  svn_fs_fs__change_txn_props txn [(name, value)].

(** [svn_fs_fs__txn_proplist (table_p, txn)]. *)
Definition svn_fs_fs__txn_proplist (txn : svn_fs_txn_t)
  : action props_file (gmap string string) :=
  get_txn_proplist ∅ (Some (txn_name txn)).

(** [svn_fs_fs__txn_prop (value_p, txn, propname)]. *)
Definition svn_fs_fs__txn_prop (txn : svn_fs_txn_t) (propname : string)
  : action props_file (option string) :=
  run _ <- attempt (svn_fs__check_fs io);
  run table <- svn_fs_fs__txn_proplist txn;
  ret (table !! propname).

(** [svn_fs_fs__begin_txn (txn_p, fs, rev, flags)]. *)
Definition svn_fs_fs__begin_txn (flags : Z)
  : action props_file svn_fs_txn_t :=
  run _ <- attempt (svn_fs__check_fs io);
  run txn <- lift (svn_fs_fs__create_txn io);
  let date := svn_time_to_cstring_now io in
  let props : list svn_prop_t := [(SVN_PROP_REVISION_DATE, Some date)] in
  let props :=
    if negb (Z.land flags SVN_FS_TXN_CHECK_OOD =? 0)%Z
    then props ++ [(SVN_FS__PROP_TXN_CHECK_OOD, Some "true")]
    else props in
  let props :=
    if negb (Z.land flags SVN_FS_TXN_CHECK_LOCKS =? 0)%Z
    then props ++ [(SVN_FS__PROP_TXN_CHECK_LOCKS, Some "true")]
    else props in
  run _ <- svn_fs_fs__change_txn_props txn props;
  ret txn.

(** The step of [commit_body] headed "Remove any temporary txn props
    representing 'flags'", on the property file. *)
Definition remove_flag_props (txn : svn_fs_txn_t) : action props_file unit :=
  run txnprops <- svn_fs_fs__txn_proplist txn;
  let txnprop_list : list svn_prop_t := [] in
  let txnprop_list :=
    if bool_decide (is_Some (txnprops !! SVN_FS__PROP_TXN_CHECK_OOD))
    then txnprop_list ++ [(SVN_FS__PROP_TXN_CHECK_OOD, None)]
    else txnprop_list in
  let txnprop_list :=
    if bool_decide (is_Some (txnprops !! SVN_FS__PROP_TXN_CHECK_LOCKS))
    then txnprop_list ++ [(SVN_FS__PROP_TXN_CHECK_LOCKS, None)]
    else txnprop_list in
  if negb (bool_decide (txnprop_list = []))
  then svn_fs_fs__change_txn_props txn txnprop_list
  else ret tt.

End txn_props.

End TxnProps.

(** Callees that work, at a fixed time. *)
Definition ex_props_io : TxnProps.props_io :=
  {| TxnProps.io_read_props := None;
     TxnProps.io_write_props := None;
     TxnProps.svn_fs__check_fs := None;
     TxnProps.svn_fs_fs__create_txn := Ok (mk_txn "5-3" 5);
     TxnProps.svn_time_to_cstring_now := "2014-01-01T00:00:00.000000Z" |}.

(** A property file with a log message and the flag to check locks. *)
Definition ex_props_file : TxnProps.props_file :=
  Some {["svn:log" := "message"; "svn:check-locks" := "true"]}.

(** ** Aborting a transaction, and the property list of a node *)

(** [svn_error_quick_wrap (child, new_msg)], which [SVN_ERR_W] calls: the
    code of the child under a new message; the child chained behind it is
    not kept. *)
Definition svn_error_quick_wrap (child : svn_error_t) (new_msg : string)
  : svn_error_t :=
  svn_error_create (apr_err child) new_msg.

(** [svn_fs_fs__abort_txn (txn)], with what [svn_fs__check_fs]
    answers. *)
Definition svn_fs_fs__abort_txn (cc : commit_callees)
    (check_fs : option svn_error_t) (txn : svn_fs_txn_t) : fs_action unit :=
  run _ <- attempt check_fs;
  fun fs =>
    match svn_fs_fs__purge_txn cc (txn_name txn) fs with
    | (Raise err, fs) =>
        (Raise (svn_error_quick_wrap err
                  ("Transaction '" +:+ txn_name txn +:+ "' cleanup failed")),
         fs)
    | (Ok _, fs) => (Ok tt, fs)
    end.

(** [svn_fs_fs__set_proplist (fs, noderev, proplist)], with what dumping
    the list to the property file of the node answers; the result is the
    node-rev as the caller finds it afterwards. *)
Definition svn_fs_fs__set_proplist (c : rep_callees)
    (dump_proplist : gmap string string -> option svn_error_t)
    (noderev : node_revision_t) (proplist : gmap string string)
  : svn_result node_revision_t :=
  match dump_proplist proplist with
  | Some err => Raise err
  | None =>
      if match nr_prop_rep noderev with
         | None => true
         | Some rep => negb (is_txn_rep rep)
         end
      then
        let prop_rep :=
          mk_rep None None 0%Z 0%Z 0%Z 0%Z
                 (svn_fs_fs__id_txn_id (nr_id noderev)) None in
        let noderev := with_prop_rep noderev (Some prop_rep) in
        svn_fs_fs__put_node_revision c (nr_id noderev) noderev false
      else Ok noderev
  end.

(** The node of a transaction before its properties are set, with the
    property representation of the revision it comes from. *)
Definition ex_txn_file_noderev : node_revision_t :=
  mk_noderev svn_node_file (svn_fs_fs__id_txn_create "3" "0" "5-1")
             (Some (mk_id "3" "0" (origin_rev 5 10))) 2
             (Some (mk_rep (Some "m") None 5 60 30 30 None None))
             (Some (mk_rep (Some "p") None 4 10 20 20 None None))
             0%Z false.

(** The same node once its properties were set. *)
Definition ex_txn_file_noderev_mutable : node_revision_t :=
  with_prop_rep ex_txn_file_noderev
                (Some (mk_rep None None 0 0 0 0 (Some "5-1") None)).

(** * Properties *)

(** ** Folding of the changes log *)

Section fold_facts.


Implicit Types (m : gmap string svn_fs_path_change2_t) (p k : string).

Lemma strip_prefix_length p s rest :
  strip_prefix p s = Some rest ->
  String.length s = String.length p + String.length rest.
Proof.
  revert s. induction p as [|a p IH]; intros s H; simpl in *.
  - by inversion H.
  - destruct s as [|b s]; [done|].
    destruct (Ascii.eqb a b); [|done].
    simpl. by rewrite (IH _ H).
Qed.

Lemma strip_prefix_refl p : strip_prefix p p = Some EmptyString.
Proof.
  induction p as [|a p IH]; simpl; [done|].
  by rewrite Ascii.eqb_refl.
Qed.

(** The length test of the inner loop never rejects a child. *)
Lemma is_child_min_len p k :
  svn_dirent_is_child p k = true -> min_child_len p <= String.length k.
Proof.
  unfold svn_dirent_is_child, min_child_len.
  destruct p as [|a p].
  - simpl. destruct k; simpl; [done|lia].
  - remember (String a p) as q eqn:Hq.
    assert (Hlen : (String.length q =? 0)%nat = false)
      by (subst q; done).
    rewrite Hlen.
    destruct (strip_prefix q k) as [rest|] eqn:Hs; [|done].
    apply strip_prefix_length in Hs.
    destruct (ends_with_slash q).
    + destruct rest; simpl in *; [done|lia].
    + intros [_ H2%Nat.leb_le]%andb_prop. lia.
Qed.

Lemma is_swept_is_child p k : is_swept p k = svn_dirent_is_child p k.
Proof.
  unfold is_swept.
  destruct (svn_dirent_is_child p k) eqn:Hc; [|by rewrite andb_false_r].
  apply is_child_min_len, Nat.leb_le in Hc. by rewrite Hc.
Qed.

(** A path is no child of itself. *)
Lemma is_child_irrefl p : svn_dirent_is_child p p = false.
Proof.
  unfold svn_dirent_is_child. destruct p as [|a p]; [done|].
  rewrite strip_prefix_refl. by destruct (ends_with_slash _).
Qed.

Lemma sweep_loop_lookup p (l : list (string * svn_fs_path_change2_t)) m k :
  foldl (fun acc kv => if is_swept p kv.1 then delete kv.1 acc else acc) m l
    !! k
  = if is_swept p k && bool_decide (k ∈ l.*1) then None else m !! k.
Proof.
  revert m. induction l as [|kv l IH]; intros m.
  - simpl. by rewrite andb_false_r.
  - rewrite fmap_cons. simpl foldl. rewrite IH.
    assert (Hin : bool_decide (k ∈ kv.1 :: l.*1)
                  = bool_decide (k = kv.1) || bool_decide (k ∈ l.*1)).
    { apply eq_true_iff_eq.
      rewrite orb_true_iff, !bool_decide_eq_true, elem_of_cons. done. }
    rewrite Hin. clear Hin.
    destruct (decide (k = kv.1)) as [->|Hne].
    + rewrite (bool_decide_eq_true_2 (kv.1 = kv.1)) by done. simpl.
      rewrite andb_true_r.
      destruct (is_swept p kv.1) eqn:Hkv; simpl.
      * rewrite lookup_delete_eq. by destruct (bool_decide _).
      * done.
    + rewrite (bool_decide_eq_false_2 (k = kv.1)) by done. simpl.
      destruct (is_swept p k && bool_decide (k ∈ l.*1)); [done|].
      destruct (is_swept p kv.1); [by rewrite lookup_delete_ne|done].
Qed.

(** What the inner loop leaves: the children of P are gone, every other
    entry is as it was. *)
Lemma sweep_children_lookup p m k :
  sweep_children p m !! k
  = if svn_dirent_is_child p k then None else m !! k.
Proof.
  unfold sweep_children. rewrite sweep_loop_lookup, is_swept_is_child.
  destruct (svn_dirent_is_child p k); [|done]. simpl.
  case_bool_decide as Hin; [done|].
  destruct (m !! k) as [x|] eqn:Hx; [|done].
  exfalso. apply Hin. apply list_elem_of_fmap. exists (k, x).
  split; [done|]. by apply elem_of_map_to_list.
Qed.

(** [fold_change] touches the entry of the record's own path only. *)
Lemma fold_change_other m c folded k :
  fold_change m c = Ok folded -> k <> path c -> folded !! k = m !! k.
Proof.
  unfold fold_change. intros H Hne.
  destruct (m !! path c) as [old|].
  - repeat (match type of H with
            | (if ?b then _ else _) = _ => destruct b; [done|]
            end).
    destruct (merge_change old (info c)); inversion H; subst.
    + by rewrite lookup_insert_ne.
    + by rewrite lookup_delete_ne.
  - inversion H; subst. by rewrite lookup_insert_ne.
Qed.

Lemma process_changes_app m pre post :
  process_changes m (pre ++ post)
  = do m' <- process_changes m pre; process_changes m' post.
Proof.
  revert m. induction pre as [|c pre IH]; intros m; simpl; [done|].
  destruct (fold_change m c) as [folded|e]; simpl; [|done].
  destruct (_ || _); apply IH.
Qed.

End fold_facts.

Section fold_claims.


(** C7.  After a delete or replace record on path P has been folded into
    the map, every entry whose path is a strict child of P is gone, the
    entry of P itself is what [fold_change] made of it, and the entries
    of all other paths are the ones the map had before. *)
Theorem process_changes_sweeps_children
    (m swept : gmap string svn_fs_path_change2_t) (c : change_t) :
  is_delete_or_replace c ->
  process_changes m [c] = Ok swept ->
  exists folded,
    fold_change m c = Ok folded
    /\ (forall k, svn_dirent_is_child (path c) k = true -> swept !! k = None)
    /\ swept !! path c = folded !! path c
    /\ (forall k, svn_dirent_is_child (path c) k = false ->
                  k <> path c -> swept !! k = m !! k).
Proof.
  intros Hkind H. simpl in H.
  destruct (fold_change m c) as [folded|e] eqn:Hf; simpl in H; [|done].
  assert (Hs : swept = sweep_children (path c) folded).
  { destruct Hkind as [Hk|Hk]; rewrite Hk in H; simpl in H; by inversion H. }
  subst swept. exists folded. split; [done|]. repeat split.
  - intros k Hk. by rewrite sweep_children_lookup, Hk.
  - by rewrite sweep_children_lookup, is_child_irrefl.
  - intros k Hk Hne. rewrite sweep_children_lookup, Hk.
    by apply (fold_change_other m c).
Qed.

Lemma process_changes_sweeps_children_witness :
  exists folded,
    fold_change sample_changes delete_a = Ok folded
    /\ (forall k, svn_dirent_is_child "/a" k = true -> sample_swept !! k = None)
    /\ sample_swept !! "/a" = folded !! "/a"
    /\ (forall k, svn_dirent_is_child "/a" k = false ->
                  k <> "/a" -> sample_swept !! k = sample_changes !! k).
Proof.
  apply (process_changes_sweeps_children sample_changes sample_swept delete_a).
  - left. reflexivity.
  - vm_compute. reflexivity.
Defined.

Lemma fold_change_missing_id (m : gmap string svn_fs_path_change2_t) c :
  is_Some (m !! path c) -> lacks_node_rev_id c ->
  fold_change m c = Raise (corrupt "Missing required node revision ID").
Proof.
  intros [old Hold] [Hnull Hkind]. unfold fold_change. rewrite Hold.
  rewrite (bool_decide_eq_true_2 _ Hnull).
  by rewrite (bool_decide_eq_false_2 _ Hkind).
Qed.

(** A record without node revision id, of a kind other than reset, makes
    the folding of the log fail with a CORRUPT error when the map already
    has an entry for its path at the moment the record is folded. *)
Theorem changes_fetch_missing_id_corrupt
    (pre post : list change_t) (c : change_t)
    (m' : gmap string svn_fs_path_change2_t) :
  process_changes ∅ pre = Ok m' ->
  is_Some (m' !! path c) ->
  lacks_node_rev_id c ->
  svn_fs_fs__txn_changes_fetch (Ok (pre ++ c :: post)%list)
  = Raise (svn_error_create SVN_ERR_FS_CORRUPT
             "Missing required node revision ID").
Proof.
  intros Hpre Hin Hc. unfold svn_fs_fs__txn_changes_fetch. simpl.
  rewrite process_changes_app, Hpre. simpl.
  by rewrite (fold_change_missing_id m' c Hin Hc).
Qed.

Lemma changes_fetch_missing_id_corrupt_witness :
  svn_fs_fs__txn_changes_fetch (Ok ([add_a] ++ modify_a_without_id :: [])%list)
  = Raise (svn_error_create SVN_ERR_FS_CORRUPT
             "Missing required node revision ID").
Proof.
  apply (changes_fetch_missing_id_corrupt [add_a] [] modify_a_without_id
           after_add_a).
  - vm_compute. reflexivity.
  - vm_compute. eexists. reflexivity.
  - split; [reflexivity | discriminate].
Defined.


End fold_claims.

(** ** The choice of a delta base *)

Section delta_base_facts.


Variable ffd : fs_fs_data_t.
Variable get_node_revision : option svn_fs_id_t -> svn_result node_revision_t.
Variable rep_chain_length : representation_t -> svn_result Z.

Lemma last_nonempty_default (b d d' : node_revision_t) rest :
  List.last (b :: rest) d = List.last (b :: rest) d'.
Proof.
  revert b. induction rest as [|c rest IH]; intros b; [done|].
  change (List.last (c :: rest) d = List.last (c :: rest) d'). apply IH.
Qed.

Lemma last_cons_default (b d : node_revision_t) rest :
  List.last (b :: rest) d = List.last rest b.
Proof.
  destruct rest as [|c rest]; [done|].
  change (List.last (c :: rest) d = List.last (c :: rest) b).
  apply last_nonempty_default.
Qed.

Lemma walk_back_predecessors props n :
  forall count pc base shared,
    n = Z.to_nat (pc - count) ->
    walk_back get_node_revision n props count pc base shared
    = do l <- predecessors get_node_revision n base;
      Ok (List.last l base, existsb (looks_shared props) l || shared).
Proof.
  induction n as [|n IH]; intros count pc base shared Hn; simpl; [done|].
  assert (Hlt : (count <? pc)%Z = true) by (apply Z.ltb_lt; lia).
  rewrite Hlt.
  destruct (get_node_revision (nr_predecessor_id base)) as [b|e]; simpl;
    [|done].
  rewrite IH by lia.
  destruct (predecessors get_node_revision n b) as [rest|e]; unfold SVN_ERR; [|done].
  rewrite last_cons_default. simpl.
  by destruct (looks_shared props b), (existsb _ rest), shared.
Qed.

Lemma predecessors_length n noderev l :
  predecessors get_node_revision n noderev = Ok l -> length l = n.
Proof.
  revert noderev l. induction n as [|n IH]; intros noderev l; simpl.
  - by intros [= <-].
  - destruct (get_node_revision _) as [b|e]; simpl; [|done].
    destruct (predecessors get_node_revision n b) as [rest|e] eqn:Hrest;
      simpl; [|done].
    intros [= <-]. simpl. f_equal. by eapply IH.
Qed.

(** The course of [choose_delta_base] once the two early exits are
    passed and the walk has met the node-revs L. *)
Lemma choose_delta_base_walked noderev props l :
  let pc := nr_predecessor_count noderev in
  pc <> 0%Z ->
  (skip_delta_walk pc <= max_deltification_walk ffd)%Z ->
  predecessors get_node_revision
    (Z.to_nat (pc - skip_delta_count ffd pc)) noderev = Ok l ->
  choose_delta_base ffd get_node_revision rep_chain_length noderev props
  = match rep_of props (List.last l noderev) with
    | Some rep =>
        if existsb (looks_shared props) l then
          do chain_length <- rep_chain_length rep;
          if (2 * max_linear_deltification ffd + 2 <=? chain_length)%Z
          then Ok None else Ok (Some rep)
        else Ok (Some rep)
    | None => Ok None
    end.
Proof.
  intros pc Hpc Hwalk Hl. unfold choose_delta_base.
  fold pc. unfold skip_delta_walk in Hwalk. unfold skip_delta_count in Hl.
  rewrite (proj2 (Z.eqb_neq pc 0) Hpc).
  rewrite (proj2 (Z.ltb_ge _ _) Hwalk).
  rewrite walk_back_predecessors by done.
  rewrite Hl. simpl. by rewrite orb_false_r.
Qed.

End delta_base_facts.

Section delta_base_claims.


Variable ffd : fs_fs_data_t.
Variable get_node_revision : option svn_fs_id_t -> svn_result node_revision_t.
Variable rep_chain_length : representation_t -> svn_result Z.

Local Abbreviation choose := (choose_delta_base ffd get_node_revision
                                                rep_chain_length).
Local Abbreviation preds := (predecessors get_node_revision).
Local Abbreviation steps pc := (Z.to_nat (pc - skip_delta_count ffd pc)).

(** C5, as the code has it.  [choose_delta_base] follows the skip-delta
    rule: no base without predecessors; otherwise count is the predecessor
    count with its lowest set bit cleared, replaced by the predecessor
    count minus one when the distance is below [max_linear_deltification];
    no base when the distance exceeds [max_deltification_walk]; otherwise
    [predecessor_id] is followed back predecessor count minus count steps,
    and a base that is returned is the prop or data rep of the node-rev
    reached; it is returned whenever no rep met on the walk looks shared,
    the one other outcome being that the guard for shared reps drops it. *)
Theorem choose_delta_base_skip_delta (noderev : node_revision_t)
    (props : bool) :
  let pc := nr_predecessor_count noderev in
  (pc = 0%Z -> choose noderev props = Ok None)
  /\ (pc <> 0%Z ->
      (max_deltification_walk ffd < skip_delta_walk pc)%Z ->
      choose noderev props = Ok None)
  /\ (pc <> 0%Z ->
      (skip_delta_walk pc <= max_deltification_walk ffd)%Z ->
      (forall e, preds (steps pc) noderev = Raise e ->
                 choose noderev props = Raise e)
      /\ (forall l, preds (steps pc) noderev = Ok l ->
            let base := List.last l noderev in
            length l = steps pc
            /\ (existsb (looks_shared props) l = false ->
                choose noderev props = Ok (rep_of props base))
            /\ (forall rep, choose noderev props = Ok (Some rep) ->
                            rep_of props base = Some rep))).
Proof.
  intros pc. split; [|split].
  - intros Hpc. unfold choose_delta_base. fold pc. by rewrite Hpc.
  - intros Hpc Hwalk. unfold choose_delta_base. fold pc.
    rewrite (proj2 (Z.eqb_neq pc 0) Hpc).
    unfold skip_delta_walk in Hwalk.
    by rewrite (proj2 (Z.ltb_lt _ _) Hwalk).
  - intros Hpc Hwalk. split.
    + intros e He. unfold choose_delta_base. fold pc.
      rewrite (proj2 (Z.eqb_neq pc 0) Hpc).
      unfold skip_delta_walk in Hwalk.
      rewrite (proj2 (Z.ltb_ge _ _) Hwalk).
      rewrite walk_back_predecessors by done.
      unfold skip_delta_count in He. by rewrite He.
    + intros l Hl base.
      rewrite (choose_delta_base_walked ffd get_node_revision
                 rep_chain_length noderev props l Hpc Hwalk Hl).
      fold base. split; [by eapply predecessors_length|]. split.
      * intros ->. by destruct (rep_of props base).
      * intros rep. destruct (rep_of props base) as [r|]; [|done].
        destruct (existsb _ l); [|congruence].
        destruct (rep_chain_length r) as [len|e]; simpl; [|done].
        destruct (_ <=? _)%Z; congruence.
Qed.

(** C6, as the code has it.  A walked node-rev counts as holding a
    possibly shared rep exactly when it has the rep the caller asked about
    and the revision of its id is greater than the revision of that rep;
    if any walked node-rev counts so, the base is discarded as soon as the
    delta chain rooted at it is at least 2 * max_linear_deltification + 2
    long, and kept when the chain is shorter. *)
Theorem choose_delta_base_shared_rep_guard (noderev : node_revision_t)
    (props : bool) (l : list node_revision_t) :
  let pc := nr_predecessor_count noderev in
  pc <> 0%Z ->
  (skip_delta_walk pc <= max_deltification_walk ffd)%Z ->
  preds (steps pc) noderev = Ok l ->
  (forall b, looks_shared props b = true <->
             exists rep, rep_of props b = Some rep
                         /\ (rep_revision rep < svn_fs_fs__id_rev (nr_id b))%Z)
  /\ walk_back get_node_revision (steps pc) props (skip_delta_count ffd pc)
               pc noderev false
     = Ok (List.last l noderev, existsb (looks_shared props) l)
  /\ (forall rep len,
        existsb (looks_shared props) l = true ->
        rep_of props (List.last l noderev) = Some rep ->
        rep_chain_length rep = Ok len ->
        choose noderev props
        = Ok (if (2 * max_linear_deltification ffd + 2 <=? len)%Z
              then None else Some rep)).
Proof.
  intros pc Hpc Hwalk Hl. split; [|split].
  - intros b. unfold looks_shared.
    destruct (rep_of props b) as [rep|].
    + rewrite Z.ltb_lt. split; [eauto|]. by intros (r & [= <-] & H).
    + split; [done|]. by intros (r & H & _).
  - rewrite walk_back_predecessors by done. rewrite Hl. simpl.
    by rewrite orb_false_r.
  - intros rep len Hshared Hrep Hlen.
    rewrite (choose_delta_base_walked ffd get_node_revision
               rep_chain_length noderev props l Hpc Hwalk Hl).
    rewrite Hrep, Hshared, Hlen. simpl.
    by destruct (_ <=? _)%Z.
Qed.

End delta_base_claims.

Section delta_base_examples.


Lemma choose_delta_base_skip_delta_witness :
  choose_delta_base line_ffd (line_store 0) long_chain (line_node 0 40) false
  = Ok (nr_data_rep (line_node 0 32)).
Proof.
  destruct (choose_delta_base_skip_delta line_ffd (line_store 0) long_chain
              (line_node 0 40) false) as (_ & _ & H).
  destruct H as [_ H]; [done | by vm_compute |].
  destruct (H (line_walk 0)) as (_ & H1 & _); [by vm_compute|].
  rewrite H1; [by vm_compute | by vm_compute].
Defined.

Lemma choose_delta_base_shared_rep_guard_witness :
  choose_delta_base line_ffd (line_store 1) long_chain (line_node 1 40) false
  = Ok None.
Proof.
  destruct (choose_delta_base_shared_rep_guard line_ffd (line_store 1)
              long_chain (line_node 1 40) false
              (line_walk 1))
    as (_ & _ & H); [done | by vm_compute | by vm_compute |].
  rewrite (H (mk_rep None None 31 0 10 10 None None) 100%Z);
    [done | by vm_compute | by vm_compute | done].
Defined.

(** C5, as the claim has it, fails: with predecessors, a distance within
    [max_deltification_walk] and a walk that reaches a node-rev with a data
    rep, no base is returned when a rep on the way looks shared and the
    chain of the base is long. *)
Lemma choose_delta_base_base_discarded :
  nr_predecessor_count (line_node 1 40) <> 0%Z
  /\ (skip_delta_walk 40 <= max_deltification_walk line_ffd)%Z
  /\ predecessors (line_store 1) 8 (line_node 1 40) = Ok (line_walk 1)
  /\ nr_data_rep (List.last (line_walk 1) (line_node 1 40))
     = nr_data_rep (line_node 1 32)
  /\ nr_data_rep (line_node 1 32) <> None
  /\ choose_delta_base line_ffd (line_store 1) long_chain
                       (line_node 1 40) false = Ok None.
Proof.
  split; [by vm_compute|]. split; [by vm_compute|].
  split; [by vm_compute|]. split; [by vm_compute|].
  split; [done|]. by vm_compute.
Qed.

(** C6, as the claim has it, fails in both directions.  A node-rev whose
    rep is older than the node-rev itself is counted although its rep does
    not satisfy revision > id_rev (owner), and the base is dropped; a rep
    with revision > id_rev (owner) is not counted, and the base is kept
    whatever the length of its chain. *)
Lemma choose_delta_base_shared_test_direction :
  (looks_shared false (line_node 1 39) = true
   /\ forall rep, nr_data_rep (line_node 1 39) = Some rep ->
                  ~ (rep_revision rep
                     > svn_fs_fs__id_rev (nr_id (line_node 1 39)))%Z)
  /\ choose_delta_base line_ffd (line_store 1) long_chain
                       (line_node 1 40) false = Ok None
  /\ (looks_shared false (line_node (-1) 39) = false
      /\ exists rep, nr_data_rep (line_node (-1) 39) = Some rep
                     /\ (rep_revision rep
                         > svn_fs_fs__id_rev (nr_id (line_node (-1) 39)))%Z)
  /\ choose_delta_base line_ffd (line_store (-1)) long_chain
                       (line_node (-1) 40) false
     = Ok (nr_data_rep (line_node (-1) 32)).
Proof.
  split; [split; [done|]|].
  { intros rep [= <-]. by vm_compute. }
  split; [by vm_compute|]. split; [|by vm_compute].
  split; [done|]. eexists. split; [reflexivity|]. by vm_compute.
Qed.

End delta_base_examples.

(** ** The transaction registry and the proto-rev lock *)

Section proto_rev_lock_facts.


Lemma find_txn_set_being_written l id v t :
  find_txn l id = Some t ->
  find_txn (set_being_written l id v) id = Some (mk_shared_txn (txn_id t) v).
Proof.
  induction l as [|x l IH]; simpl; [done|].
  destruct (String.eqb (txn_id x) id) eqn:Hx; simpl.
  - intros [= <-]. by rewrite Hx.
  - rewrite Hx. apply IH.
Qed.

(** After [get_shared_txn] with CREATE_NEW the transaction is in the list,
    with the flag it had, or a cleared flag when it is new. *)
Lemma get_shared_txn_create ffsd id :
  exists t,
    get_shared_txn ffsd id true = (Some t, snd (get_shared_txn ffsd id true))
    /\ find_txn (txns (snd (get_shared_txn ffsd id true))) id = Some t
    /\ being_written t
       = match find_txn (txns ffsd) id with
         | Some t0 => being_written t0
         | None => false
         end.
Proof.
  unfold get_shared_txn.
  destruct (find_txn (txns ffsd) id) as [t0|] eqn:Hf; simpl.
  - exists t0. by rewrite Hf.
  - exists (mk_shared_txn id false). simpl. by rewrite String.eqb_refl.
Qed.

End proto_rev_lock_facts.

Section proto_rev_lock_claims.


(** The two ways [get_writable_proto_rev] reports a proto-rev file as
    being written, and what it hands back when it succeeds. *)
Lemma get_writable_proto_rev_outcome
    (io : lock_io) (id : string) (fs : svn_fs_t) :
  let r := get_writable_proto_rev io id fs in
  (raised (fst r) = Some SVN_ERR_FS_REP_BEING_WRITTEN <->
   is_being_written fs id = true
   \/ (is_being_written fs id = false
       /\ io_open_lockfile io = APR_SUCCESS
       /\ APR_STATUS_IS_EAGAIN (io_file_lock io) = true))
  /\ (forall file cookie,
        fst r = Ok (file, cookie) ->
        is_being_written fs id = false
        /\ is_being_written (snd r) id = true
        /\ file_name file = id
        /\ file_pos file = length (proto_rev_data (snd r) id)).
Proof.
  unfold get_writable_proto_rev, with_txnlist_lock,
    get_writable_proto_rev_body, is_being_written.
  destruct (get_shared_txn_create (fs_shared fs) id) as (t & Hget & Hfind & Hbw).
  rewrite Hget.
  set (ffsd := snd (get_shared_txn (fs_shared fs) id true)) in *.
  rewrite <- Hbw. clear Hbw.
  destruct (being_written t) eqn:Ht; simpl.
  { split; [split; [by left|done]|done]. }
  destruct (io_open_lockfile io =? APR_SUCCESS)%Z eqn:Hopen; simpl.
  2:{ apply Z.eqb_neq in Hopen. split; [|done].
      split; [done|]. intros [?|(_ & ? & _)]; done. }
  apply Z.eqb_eq in Hopen.
  destruct (io_file_lock io =? APR_SUCCESS)%Z eqn:Hlock; simpl.
  2:{ destruct (APR_STATUS_IS_EAGAIN (io_file_lock io)) eqn:Hag; simpl.
      - split; [|done]. split; [by right|done].
      - split; [|done]. split; [done|]. intros [?|(_ & _ & ?)]; done. }
  apply Z.eqb_eq in Hlock.
  assert (Hag : APR_STATUS_IS_EAGAIN (io_file_lock io) = false)
    by (by rewrite Hlock).
  unfold open_proto_rev_at_end, bind, get_fs, with_shared. simpl.
  destruct (fs_proto_revs fs !! id) as [data|] eqn:Hdata; simpl.
  2:{ destruct (unlock_proto_rev_list_locked _ _ _) as [u fs'].
      split; [|done]. split; [done|]. intros [?|(_ & _ & ?)]; congruence. }
  destruct (io_open_proto_rev io =? APR_SUCCESS)%Z; simpl.
  2:{ destruct (unlock_proto_rev_list_locked _ _ _) as [u fs'].
      split; [|done]. split; [done|]. intros [?|(_ & _ & ?)]; congruence. }
  destruct (io_seek_end io =? APR_SUCCESS)%Z; simpl.
  2:{ destruct (unlock_proto_rev_list_locked _ _ _) as [u fs'].
      split; [|done]. split; [done|]. intros [?|(_ & _ & ?)]; congruence. }
  split.
  { split; [done|]. intros [?|(_ & _ & ?)]; congruence. }
  intros file cookie [= <- <-]. simpl.
  rewrite (find_txn_set_being_written _ id true t Hfind). simpl.
  unfold proto_rev_data. simpl. by rewrite Hdata.
Qed.

(** C3.  [get_writable_proto_rev] fails with REP_BEING_WRITTEN in exactly
    two cases: the registry already has the transaction as being written,
    or it has not, the lock file could be opened, and the non-blocking
    exclusive lock was refused because another process holds it.  When it
    succeeds the transaction is marked as being written and the file
    handed back is the proto-rev file of the transaction with its file
    pointer at the end of the file. *)
Theorem get_writable_proto_rev_being_written
    (io : lock_io) (id : string) (fs : svn_fs_t) :
  let r := get_writable_proto_rev io id fs in
  (raised (fst r) = Some SVN_ERR_FS_REP_BEING_WRITTEN <->
   is_being_written fs id = true
   \/ (is_being_written fs id = false
       /\ io_open_lockfile io = APR_SUCCESS
       /\ APR_STATUS_IS_EAGAIN (io_file_lock io) = true))
  /\ (forall file cookie,
        fst r = Ok (file, cookie) ->
        is_being_written fs id = false
        /\ is_being_written (snd r) id = true
        /\ file_name file = id
        /\ file_pos file = length (proto_rev_data (snd r) id)).
Proof. apply get_writable_proto_rev_outcome. Qed.

End proto_rev_lock_claims.

Section action_facts.

Lemma bind_ok {S A B : Type} (m : action S A) (k : A -> action S B)
    fs b fs' :
  bind m k fs = (Ok b, fs') ->
  exists a fs1, m fs = (Ok a, fs1) /\ k a fs1 = (Ok b, fs').
Proof.
  unfold bind. destruct (m fs) as [[a|e] fs1]; [eauto|done].
Qed.

Lemma lift_ok {S A : Type} (r : svn_result A) (fs : S) a fs' :
  lift r fs = (Ok a, fs') -> r = Ok a /\ fs' = fs.
Proof. unfold lift. by intros [= -> ->]. Qed.

Lemma attempt_ok {S : Type} (r : option svn_error_t) (fs : S) u fs' :
  attempt r fs = (Ok u, fs') -> r = None /\ fs' = fs.
Proof. unfold attempt. destruct r; [done|]. by intros [= _ ->]. Qed.

Lemma ret_ok {S A : Type} (a : A) (fs : S) b fs' :
  ret a fs = (Ok b, fs') -> b = a /\ fs' = fs.
Proof. unfold ret. by intros [= -> ->]. Qed.

Lemma get_fs_ok fs a fs' : get_fs fs = (Ok a, fs') -> a = fs /\ fs' = fs.
Proof. unfold get_fs. by intros [= -> ->]. Qed.

(** A sequence whose first call goes well goes on with what the call
    returned. *)
Lemma run_bind {S A B : Type} (m : action S A) (k : A -> action S B)
    s a s1 :
  m s = (Ok a, s1) -> bind m k s = k a s1.
Proof. unfold bind. by intros ->. Qed.

End action_facts.

(** Take the first call of a successful sequence apart: A is what the
    call returned, FS1 the filesystem it left, H1 the equation of the
    call. *)
Ltac step_core H a fs1 H1 :=
  apply bind_ok in H; destruct H as (a & fs1 & H1 & H);
  lazymatch type of H1 with
  | lift _ _ = _ => apply lift_ok in H1; destruct H1 as [H1 ->]
  | attempt _ _ = _ => apply attempt_ok in H1; destruct H1 as [H1 ->]
  | get_fs _ = _ => apply get_fs_ok in H1; destruct H1 as [-> ->]
  | ret _ _ = _ => apply ret_ok in H1; destruct H1 as [-> ->]
  | _ => idtac
  end.

Tactic Notation "step" hyp(H) "as" ident(a) ident(fs1) ident(H1) :=
  step_core H a fs1 H1.

(** ** Writing representations *)

Section rep_writer_facts.


Variable c : rep_callees.
Variable io : lock_io.

Lemma proto_rev_data_insert fs (p : gmap string bytes) name data :
  proto_rev_data (with_proto_revs fs (<[name := data]> p)) name = data.
Proof. unfold proto_rev_data. simpl. by rewrite lookup_insert_eq. Qed.

(** A write at the end of the file appends. *)
Lemma file_write_at_end file data fs :
  at_end file fs ->
  file_write file data fs
  = (Ok (mk_file (file_name file) (file_pos file + length data)),
     with_proto_revs fs
       (<[file_name file := proto_rev_data fs (file_name file) ++ data]>
          (fs_proto_revs fs))).
Proof.
  unfold at_end, file_write. intros ->.
  rewrite take_ge by lia. rewrite drop_ge by lia. by rewrite app_nil_r.
Qed.

Lemma at_end_after_write file data fs :
  at_end file fs ->
  at_end (mk_file (file_name file) (file_pos file + length data))
         (with_proto_revs fs
            (<[file_name file := proto_rev_data fs (file_name file) ++ data]>
               (fs_proto_revs fs))).
Proof.
  unfold at_end. intros H. simpl. rewrite proto_rev_data_insert.
  rewrite length_app. lia.
Qed.



End rep_writer_facts.

Section rep_writer_close.


Variable c : rep_callees.
Variable io : lock_io.



End rep_writer_close.

Section rep_writer_open.


Variable c : rep_callees.
Variable io : lock_io.

(** The registry functions change the shared transaction data only. *)
Lemma unlock_proto_rev_shared id fs r fs' :
  unlock_proto_rev io id fs = (r, fs') ->
  exists s, fs' = with_shared fs s.
Proof.
  unfold unlock_proto_rev, with_txnlist_lock, unlock_proto_rev_body, bind,
    get_fs, throw, mark_being_written, modify_fs.
  assert (Hid : fs = with_shared fs (fs_shared fs)) by (by destruct fs).
  destruct (get_shared_txn (fs_shared fs) id false).1 as [t|];
    [|intros [= _ <-]; eauto].
  repeat (match goal with
          | |- context [if ?b then _ else _] => destruct b
          end); intros [= _ <-]; eauto.
Qed.

Lemma get_writable_proto_rev_shared id fs r fs' :
  get_writable_proto_rev io id fs = (r, fs') ->
  exists s, fs' = with_shared fs s.
Proof.
  unfold get_writable_proto_rev, with_txnlist_lock,
    get_writable_proto_rev_body.
  destruct (get_shared_txn (fs_shared fs) id true) as [txn ffsd].
  destruct (match txn with Some t => being_written t | None => false end);
    [intros [= _ <-]; eauto|].
  destruct (negb _); [intros [= _ <-]; eauto|].
  destruct (negb _).
  { destruct (APR_STATUS_IS_EAGAIN _); intros [= _ <-]; eauto. }
  unfold mark_being_written, modify_fs.
  destruct (open_proto_rev_at_end io id _) as [[file|err] fs1] eqn:Hopen.
  - intros [= _ <-]. revert Hopen.
    unfold open_proto_rev_at_end, bind, get_fs, throw, ret.
    repeat (match goal with
            | |- context [match ?o with Some _ => _ | None => _ end] =>
                destruct o
            | |- context [if ?b then _ else _] => destruct b
            end); intros [= <-]; simpl; eauto.
  - assert (Hfs1 : exists s, fs1 = with_shared fs s).
    { revert Hopen.
      unfold open_proto_rev_at_end, bind, get_fs, throw, ret.
      repeat (match goal with
              | |- context [match ?o with Some _ => _ | None => _ end] =>
                  destruct o
              | |- context [if ?b then _ else _] => destruct b
              end); intros [= <-]; simpl; eauto. }
    destruct Hfs1 as [s ->].
    destruct (unlock_proto_rev_list_locked io id _) as [u fs2] eqn:Hu.
    intros [= _ <-].
    apply (unlock_proto_rev_shared id) in Hu as [s' ->]. simpl. eauto.
Qed.

(** The baton [rep_write_get_baton] makes: the offset it records is the
    end of the proto-rev file as it was, and the file has the header of
    the new representation after it. *)
Lemma rep_write_get_baton_ok txn noderev fs b fs' :
  rep_write_get_baton c io txn noderev fs = (Ok b, fs') ->
  let before := proto_rev_data fs txn in
  file_name (b_file b) = txn
  /\ b_txn_id b = txn
  /\ b_noderev b = noderev
  /\ b_rep_offset b = Z.of_nat (length before)
  /\ at_end (b_file b) fs'
  /\ b_delta_start b = Z.of_nat (length (proto_rev_data fs' txn))
  /\ fs_ffd fs' = fs_ffd fs
  /\ exists header, proto_rev_data fs' txn = before ++ header.
Proof.
  intros H before. unfold rep_write_get_baton in H.
  step H as opened fs1 Hopen. destruct opened as [file cookie].
  pose proof (get_writable_proto_rev_outcome io txn fs) as [_ Hok].
  rewrite Hopen in Hok. destruct (Hok file cookie eq_refl)
    as (_ & _ & Hname & Hpos).
  apply get_writable_proto_rev_shared in Hopen as [s ->].
  change (proto_rev_data (with_shared fs s) txn) with before in Hpos.
  step H as fsa fsb Hget. step H as base_rep fsc Hbase.
  step H as source fsd Hsource.
  step H as file1 fs2 Hw.
  apply ret_ok in H as [-> ->]. simpl.
  assert (Hend : at_end file (with_shared fs s)).
  { unfold at_end. by rewrite Hname. }
  rewrite (file_write_at_end _ _ _ Hend) in Hw. injection Hw as <- <-.
  rewrite Hname.
  change (proto_rev_data (with_shared fs s) txn) with before.
  unfold at_end, svn_fs_fs__get_file_offset.
  cbn [b_file b_txn_id b_noderev b_rep_offset b_delta_start file_name
       file_pos].
  rewrite !proto_rev_data_insert, length_app, Hpos.
  repeat split; try done; try lia. eauto.
Qed.

(** Writes append to the file and leave the recorded offsets alone. *)
Lemma rep_write_stream_ok chunks b fs b' fs' :
  at_end (b_file b) fs ->
  rep_write_stream c b chunks fs = (Ok b', fs') ->
  let name := file_name (b_file b) in
  file_name (b_file b') = name
  /\ b_txn_id b' = b_txn_id b
  /\ b_noderev b' = b_noderev b
  /\ b_rep_offset b' = b_rep_offset b
  /\ b_delta_start b' = b_delta_start b
  /\ at_end (b_file b') fs'
  /\ fs_ffd fs' = fs_ffd fs
  /\ exists body, proto_rev_data fs' name = proto_rev_data fs name ++ body.
Proof.
  revert b fs. induction chunks as [|data rest IH]; intros b fs Hend H name.
  - apply ret_ok in H as [-> ->]. repeat split; try done.
    exists []. by rewrite app_nil_r.
  - simpl in H. step H as b1 fs1 Hw. unfold rep_write_contents in Hw.
    step Hw as file1 fs2 Hfw. apply ret_ok in Hw as [-> ->].
    rewrite (file_write_at_end _ _ _ Hend) in Hfw. injection Hfw as <- <-.
    apply IH in H; [|by apply at_end_after_write]. simpl in H.
    destruct H as (H1 & H2 & H3 & H4 & H5 & H6 & H7 & body & H8).
    fold name in H8. rewrite proto_rev_data_insert in H8.
    repeat split; try done.
    exists (svndiff_window c (b_source b) data ++ body).
    by rewrite H8, app_assoc.
Qed.

Lemma get_writable_proto_rev_marks id fs file cookie fs' :
  get_writable_proto_rev io id fs = (Ok (file, cookie), fs') ->
  is_being_written fs' id = true.
Proof.
  intros H. pose proof (get_writable_proto_rev_outcome io id fs) as [_ Hok].
  rewrite H in Hok. by destruct (Hok file cookie eq_refl) as (_ & ? & _).
Qed.

Lemma file_write_shared file data fs r fs' :
  file_write file data fs = (r, fs') -> fs_shared fs' = fs_shared fs.
Proof. unfold file_write. by intros [= _ <-]. Qed.

Lemma rep_write_get_baton_marks txn noderev fs b fs' :
  rep_write_get_baton c io txn noderev fs = (Ok b, fs') ->
  is_being_written fs' txn = true.
Proof.
  intros H. unfold rep_write_get_baton in H.
  step H as opened fs1 Hopen. destruct opened as [file cookie].
  apply get_writable_proto_rev_marks in Hopen.
  step H as fsa fsb Hget. step H as base_rep fsc Hbase.
  step H as source fsd Hsource. step H as file1 fs2 Hw.
  apply ret_ok in H as [-> ->].
  unfold is_being_written in *.
  by rewrite (file_write_shared _ _ _ _ _ Hw).
Qed.

Lemma rep_write_stream_shared chunks b fs b' fs' :
  rep_write_stream c b chunks fs = (Ok b', fs') ->
  fs_shared fs' = fs_shared fs.
Proof.
  revert b fs. induction chunks as [|data rest IH]; intros b fs H.
  - by apply ret_ok in H as [-> ->].
  - simpl in H. step H as b1 fs1 Hw. unfold rep_write_contents in Hw.
    step Hw as file1 fs2 Hfw. apply ret_ok in Hw as [-> ->].
    rewrite (IH _ _ H). apply (file_write_shared _ _ _ _ _ Hfw).
Qed.

End rep_writer_open.

Section rep_writer_hash.


Variable c : rep_callees.

(** What [write_hash_rep] leaves behind when it succeeds. *)
Lemma write_hash_rep_ok rep file hash_dump reps_hash fs rep' file' fs' :
  at_end file fs ->
  write_hash_rep c rep file hash_dump reps_hash fs = (Ok (rep', file'), fs') ->
  let name := file_name file in
  let before := proto_rev_data fs name in
  let candidate :=
    hash_rep_candidate c rep (Z.of_nat (length before)) hash_dump in
  at_end file' fs' /\ file_name file' = name /\ fs_ffd fs' = fs_ffd fs
  /\ exists old_rep,
       get_shared_rep c (fs_ffd fs) candidate reps_hash = Ok old_rep
       /\ match old_rep with
          | Some old => proto_rev_data fs' name = before /\ rep' = old
          | None =>
              proto_rev_data fs' name
              = before ++ plain_header ++ hash_dump ++ endrep
              /\ rep' = with_sizes candidate (Z.of_nat (length hash_dump)) 0
          end.
Proof.
  intros Hend H name before candidate. unfold write_hash_rep in H.
  assert (Hoff : svn_fs_fs__get_file_offset file = Z.of_nat (length before)).
  { unfold svn_fs_fs__get_file_offset. by rewrite Hend. }
  rewrite Hoff in H.
  step H as file1 fs1 Hw1.
  rewrite (file_write_at_end _ _ _ Hend) in Hw1. injection Hw1 as <- <-.
  pose proof (at_end_after_write _ (bytes_of ("PLAIN" +:+ LF)) _ Hend)
    as Hend1.
  step H as file2 fs2 Hw2.
  rewrite (file_write_at_end _ _ _ Hend1) in Hw2. injection Hw2 as <- <-.
  pose proof (at_end_after_write _ hash_dump _ Hend1) as Hend2.
  cbn [file_name] in *. fold name in H, Hend1, Hend2. fold before in H.
  rewrite proto_rev_data_insert in *.
  step H as fsa fsb Hget. step H as old_rep fsc Hshared.
  fold (hash_rep_candidate c rep (Z.of_nat (length before)) hash_dump)
    in H, Hshared.
  fold candidate in H, Hshared.
  destruct old_rep as [old|].
  - step H as file3 fs3 Htrunc. apply ret_ok in H as [[= -> ->] ->].
    unfold svn_io_file_trunc in Htrunc.
    destruct (io_file_trunc c _ _); [done|]. injection Htrunc as <- <-.
    unfold at_end. cbn [file_name file_pos].
    rewrite !proto_rev_data_insert.
    rewrite !Nat2Z.id, !take_app3_length.
    split; [done|]. split; [done|]. split; [done|].
    exists (Some old). by split.
  - step H as file3 fs3 Hw3. apply ret_ok in H as [[= -> ->] ->].
    rewrite (file_write_at_end _ _ _ Hend2) in Hw3. injection Hw3 as <- <-.
    pose proof (at_end_after_write _ endrep _ Hend2) as Hend3.
    cbn [file_name] in *. rewrite !proto_rev_data_insert in *.
    split; [done|]. split; [done|]. split; [done|].
    exists None. split; [done|]. split; [|done].
    unfold endrep, plain_header. by rewrite <- !app_assoc.
Qed.


End rep_writer_hash.

Section rep_writer_claims.


Variable c : rep_callees.
Variable io : lock_io.


(** C10.  A hash that [write_hash_rep] stores, no shared representation
    being found, gets expanded_size 0 and as size the number of bytes of
    the hash dump, which is what stands in the file between the PLAIN
    header and the end marker. *)
Theorem write_hash_rep_plain_sizes
    rep file hash_dump reps_hash fs rep' file' fs' :
  at_end file fs ->
  write_hash_rep c rep file hash_dump reps_hash fs = (Ok (rep', file'), fs') ->
  get_shared_rep c (fs_ffd fs)
    (hash_rep_candidate c rep
       (Z.of_nat (length (proto_rev_data fs (file_name file)))) hash_dump)
    reps_hash = Ok None ->
  rep_expanded_size rep' = 0%Z
  /\ rep_size rep' = Z.of_nat (length hash_dump)
  /\ proto_rev_data fs' (file_name file)
     = proto_rev_data fs (file_name file)
       ++ plain_header ++ hash_dump ++ endrep.
Proof.
  intros Hend H Hnone.
  apply write_hash_rep_ok in H as (_ & _ & _ & old_rep & Hshared & Hres);
    [|done].
  rewrite Hnone in Hshared. injection Hshared as <-.
  destruct Hres as [Hfile ->]. by split.
Qed.

End rep_writer_claims.

(** ** The commit *)

Section commit_frames.


Variable c : rep_callees.
Variable cc : commit_callees.
Variable io : lock_io.

Lemma unpublished_refl cs : unpublished cs cs.
Proof. by unfold unpublished. Qed.

Lemma unpublished_trans cs1 cs2 cs3 :
  unpublished cs1 cs2 -> unpublished cs2 cs3 -> unpublished cs1 cs3.
Proof. unfold unpublished. intuition congruence. Qed.

Lemma quiet_ret {A : Type} (a : A) : quiet (ret a).
Proof. intros cs r cs' [= _ <-]. apply unpublished_refl. Qed.

Lemma quiet_throw {A : Type} e : quiet (throw (A := A) e).
Proof. intros cs r cs' [= _ <-]. apply unpublished_refl. Qed.

Lemma quiet_lift {A : Type} (x : svn_result A) : quiet (lift x).
Proof. intros cs r cs' [= _ <-]. apply unpublished_refl. Qed.

Lemma quiet_attempt x : quiet (attempt x).
Proof.
  intros cs r cs'. unfold attempt.
  destruct x; intros [= _ <-]; apply unpublished_refl.
Qed.

Lemma quiet_get_cs : quiet get_cs.
Proof. intros cs r cs' [= _ <-]. apply unpublished_refl. Qed.

Lemma quiet_bind {A B : Type} (m : commit_action A)
    (k : A -> commit_action B) :
  quiet m -> (forall a, quiet (k a)) -> quiet (bind m k).
Proof.
  intros Hm Hk cs r cs'. unfold bind.
  destruct (m cs) as [[a|e] cs1] eqn:H1.
  - intros H2. eapply unpublished_trans; [by eapply Hm|by eapply Hk].
  - intros [= _ <-]. by eapply Hm.
Qed.

Lemma quiet_bind_lift {A B : Type} (x : svn_result A)
    (k : A -> commit_action B) :
  (forall a, x = Ok a -> quiet (k a)) -> quiet (bind (lift x) k).
Proof.
  intros Hk cs r cs'. unfold bind, lift. destruct x as [a|e].
  - by apply Hk.
  - intros [= _ <-]. apply unpublished_refl.
Qed.

Lemma quiet_fs_ret {A : Type} (a : A) : quiet_fs (ret a).
Proof. by intros fs r fs' [= _ <-]. Qed.

Lemma quiet_fs_throw {A : Type} e : quiet_fs (throw (A := A) e).
Proof. by intros fs r fs' [= _ <-]. Qed.

Lemma quiet_fs_lift {A : Type} (x : svn_result A) : quiet_fs (lift x).
Proof. by intros fs r fs' [= _ <-]. Qed.

Lemma quiet_fs_attempt x : quiet_fs (attempt x).
Proof. intros fs r fs'. unfold attempt. by destruct x; intros [= _ <-]. Qed.

Lemma quiet_fs_get_fs : quiet_fs get_fs.
Proof. by intros fs r fs' [= _ <-]. Qed.

Lemma quiet_fs_bind {A B : Type} (m : fs_action A) (k : A -> fs_action B) :
  quiet_fs m -> (forall a, quiet_fs (k a)) -> quiet_fs (bind m k).
Proof.
  intros Hm Hk fs r fs'. unfold bind.
  destruct (m fs) as [[a|e] fs1] eqn:H1.
  - intros H2. apply Hm in H1. apply Hk in H2. intuition congruence.
  - intros [= _ <-]. by eapply Hm.
Qed.

Lemma quiet_fs_file_write file data : quiet_fs (file_write file data).
Proof. by intros fs r fs' [= _ <-]. Qed.

Lemma quiet_fs_trunc file offset : quiet_fs (svn_io_file_trunc c file offset).
Proof.
  intros fs r fs'. unfold svn_io_file_trunc.
  destruct (io_file_trunc c file offset); by intros [= _ <-].
Qed.

Lemma quiet_fs_get_writable id : quiet_fs (get_writable_proto_rev io id).
Proof.
  intros fs r fs' H. by apply get_writable_proto_rev_shared in H as [s ->].
Qed.

Lemma quiet_fs_unlock id : quiet_fs (unlock_proto_rev io id).
Proof.
  intros fs r fs' H. by apply unlock_proto_rev_shared in H as [s ->].
Qed.

Lemma quiet_on_fs {A : Type} (m : fs_action A) : quiet_fs m -> quiet (on_fs m).
Proof.
  intros Hm cs r cs'. unfold on_fs.
  destruct (m (cs_fs cs)) as [r1 fs1] eqn:H1. intros [= _ <-].
  apply Hm in H1. unfold unpublished. simpl. tauto.
Qed.

Lemma quiet_on_file {A : Type}
    (m : apr_file_t -> fs_action (A * apr_file_t)) :
  (forall file, quiet_fs (m file)) -> quiet (on_file m).
Proof.
  intros Hm cs r cs'. unfold on_file.
  destruct (m (cs_file cs) (cs_fs cs)) as [[[a file]|e] fs1] eqn:H1;
    intros [= _ <-]; apply Hm in H1; unfold unpublished; simpl; tauto.
Qed.

End commit_frames.

(** Decompose a goal [quiet m] or [quiet_fs m] along the shape of M. *)
Ltac quiet_step :=
  first
    [ apply quiet_ret | apply quiet_throw | apply quiet_lift
    | apply quiet_attempt | apply quiet_get_cs
    | apply quiet_fs_ret | apply quiet_fs_throw | apply quiet_fs_lift
    | apply quiet_fs_attempt | apply quiet_fs_get_fs
    | apply quiet_fs_file_write | apply quiet_fs_trunc
    | apply quiet_fs_get_writable | apply quiet_fs_unlock
    | apply quiet_bind; [|intros ?]
    | apply quiet_fs_bind; [|intros ?]
    | apply quiet_on_fs
    | apply quiet_on_file; intros ?
    | match goal with
      | |- quiet (if ?b then _ else _) => destruct b
      | |- quiet_fs (if ?b then _ else _) => destruct b
      | |- quiet (match ?x with _ => _ end) => destruct x
      | |- quiet_fs (match ?x with _ => _ end) => destruct x
      end ].

Ltac quiet_all := repeat quiet_step.

Section commit_quiet.


Variable c : rep_callees.
Variable cc : commit_callees.
Variable io : lock_io.

Lemma quiet_fs_write_hash_rep rep file dump reps_hash :
  quiet_fs (write_hash_rep c rep file dump reps_hash).
Proof. unfold write_hash_rep. quiet_all. Qed.

Lemma quiet_fs_write_hash_delta_rep rep file dump noderev reps_hash props :
  quiet_fs (write_hash_delta_rep c rep file dump noderev reps_hash props).
Proof. unfold write_hash_delta_rep. quiet_all. Qed.

Lemma quiet_write_hash deltify rep dump noderev reps_hash props :
  quiet (write_hash c deltify rep dump noderev reps_hash props).
Proof.
  unfold write_hash. apply quiet_on_file. intros file.
  destruct deltify;
    [apply quiet_fs_write_hash_delta_rep | apply quiet_fs_write_hash_rep].
Qed.

Lemma quiet_write_to_file data : quiet (write_to_file data).
Proof. unfold write_to_file. quiet_all. Qed.

Lemma quiet_push_rep_to_cache rep : quiet (push_rep_to_cache rep).
Proof.
  intros cs r cs'. unfold push_rep_to_cache.
  destruct (cs_reps_to_cache cs); by intros [= _ <-].
Qed.

Lemma quiet_add_to_reps_hash rep : quiet (add_to_reps_hash rep).
Proof. intros cs r cs'. by intros [= _ <-]. Qed.

Lemma quiet_remember_new_reps ffd rev noderev :
  quiet (remember_new_reps ffd rev noderev).
Proof.
  unfold remember_new_reps.
  repeat first [ apply quiet_push_rep_to_cache | apply quiet_add_to_reps_hash
               | quiet_step ].
Qed.

Lemma quiet_write_dir_rep rev noderev entries :
  quiet (write_dir_rep c cc rev noderev entries).
Proof.
  unfold write_dir_rep. repeat first [apply quiet_write_hash | quiet_step].
Qed.

Lemma quiet_stamp_file_rep rev initial_offset noderev :
  quiet (stamp_file_rep rev initial_offset noderev).
Proof. unfold stamp_file_rep. quiet_all. Qed.

Lemma quiet_write_prop_rep rev noderev :
  quiet (write_prop_rep c cc rev noderev).
Proof.
  unfold write_prop_rep. repeat first [apply quiet_write_hash | quiet_step].
Qed.

Lemma quiet_finish_noderev rev start_node_id start_copy_id noderev at_root :
  quiet (finish_noderev cc rev start_node_id start_copy_id noderev at_root).
Proof.
  unfold finish_noderev.
  repeat first [ apply quiet_remember_new_reps | apply quiet_write_to_file
               | quiet_step ].
Qed.

Lemma quiet_write_children rev write_child l :
  Forall (fun p => forall id, quiet (write_child p.2 id)) l ->
  quiet (write_children rev write_child l).
Proof.
  induction 1 as [|[dirent child] l Hchild _ IH]; simpl; [apply quiet_ret|].
  apply quiet_bind; [apply Hchild|]. intros new_id.
  apply quiet_bind; [apply IH|]. intros rest. apply quiet_ret.
Qed.

(** Induction on what a transaction holds: the property holds of a
    directory when it holds of all that is behind its entries. *)
Lemma txn_tree_ind (P : txn_tree -> Prop) :
  (forall err, P (unreadable err)) ->
  (forall noderev err, P (readable noderev (Raise err))) ->
  (forall noderev l,
      Forall (fun p => P p.2) l -> P (readable noderev (Ok l))) ->
  forall node, P node.
Proof.
  intros Hu He Hl. fix IH 1. intros [err|noderev [l|err]].
  - apply Hu.
  - apply Hl. induction l as [|[dirent child] l IHl]; constructor.
    + apply IH.
    + apply IHl.
  - apply He.
Qed.

Lemma quiet_write_final_rev rev start_node_id start_copy_id initial_offset
    node :
  forall id at_root,
    quiet (write_final_rev c cc rev start_node_id start_copy_id
                           initial_offset node id at_root).
Proof.
  induction node as [err|noderev err|noderev l IH] using txn_tree_ind;
    intros id at_root; simpl;
    (destruct (negb (svn_fs_fs__id_is_txn id)); [apply quiet_ret|]).
  - apply quiet_throw.
  - apply quiet_bind; [|intros nr1].
    + destruct (bool_decide _); [|apply quiet_stamp_file_rep].
      apply quiet_bind_lift. intros entries [=].
    + apply quiet_bind; [apply quiet_write_prop_rep|].
      intros nr2. apply quiet_finish_noderev.
  - apply quiet_bind; [|intros nr1].
    + destruct (bool_decide _); [|apply quiet_stamp_file_rep].
      apply quiet_bind_lift. intros entries [= <-].
      apply quiet_bind; [|intros ?; apply quiet_write_dir_rep].
      apply quiet_write_children.
      eapply Forall_impl; [exact IH|]. intros p Hp id'. apply Hp.
    + apply quiet_bind; [apply quiet_write_prop_rep|].
      intros nr2. apply quiet_finish_noderev.
Qed.

End commit_quiet.

Section commit_claims.


Variable c : rep_callees.
Variable cc : commit_callees.
Variable io : lock_io.

Lemma bind_cases {S A B : Type} (m : action S A) (k : A -> action S B)
    s r s' :
  bind m k s = (r, s') ->
  (exists a s1, m s = (Ok a, s1) /\ k a s1 = (r, s'))
  \/ (exists e, m s = (Raise e, s') /\ r = Raise e).
Proof.
  unfold bind. destruct (m s) as [[a|e] s1]; [eauto|].
  intros [= <- <-]. eauto.
Qed.

Lemma quiet_of_ok {A : Type} (m : commit_action A) cs r cs' :
  quiet m -> m cs = (r, cs') -> unpublished cs cs'.
Proof. intros Hm H. by eapply Hm. Qed.

(** C2.  A transaction whose base revision is not the head revision named
    by 'current' when [commit_body] runs is refused with TXN_OUT_OF_DATE,
    and nothing has changed: not the files, not the registry, not the
    variables of the commit. *)
Theorem commit_out_of_date (txn : svn_fs_txn_t) (set_timestamp : bool)
    (root : txn_tree) (cs : commit_state) :
  read_current cc = None ->
  base_rev txn <> current_rev (fs_current (cs_fs cs)) ->
  commit_body c cc io txn set_timestamp root cs
  = (Raise (svn_error_create SVN_ERR_FS_TXN_OUT_OF_DATE
              "Transaction out of date"), cs).
Proof.
  intros Hread Hbase.
  unfold commit_body, bind, on_fs, svn_fs_fs__youngest_rev, attempt,
    get_fs, ret, throw.
  rewrite Hread. simpl.
  apply Z.eqb_neq in Hbase. rewrite Hbase. simpl. by destruct cs.
Qed.

Lemma quiet_fs_youngest_rev : quiet_fs (svn_fs_fs__youngest_rev cc).
Proof. unfold svn_fs_fs__youngest_rev. quiet_all. Qed.

Lemma quiet_fs_get_next_revision_ids : quiet_fs (get_next_revision_ids cc).
Proof. unfold get_next_revision_ids. quiet_all. Qed.

Lemma quiet_fs_move_proto_rev txn rev :
  quiet_fs (move_proto_rev_into_place cc txn rev).
Proof.
  unfold move_proto_rev_into_place. apply quiet_fs_bind; [quiet_all|].
  intros _ fs r fs'. by intros [= _ <-].
Qed.

Lemma quiet_fs_purge_txn txn : quiet_fs (svn_fs_fs__purge_txn cc txn).
Proof.
  unfold svn_fs_fs__purge_txn, purge_shared_txn, with_txnlist_lock, modify_fs.
  apply quiet_fs_bind; [by intros fs r fs' [= _ <-]|]. intros _.
  apply quiet_fs_bind; [quiet_all|]. intros _.
  apply quiet_fs_bind; [quiet_all|]. intros fs0.
  destruct (_ <=? _)%Z; [|quiet_all].
  apply quiet_fs_bind; [quiet_all|]. intros _.
  by intros fs r fs' [= _ <-].
Qed.

Lemma quiet_write_final_changed_path_info txn :
  quiet (write_final_changed_path_info cc txn).
Proof.
  unfold write_final_changed_path_info.
  repeat first [apply quiet_write_to_file | quiet_step].
Qed.

(** What [write_final_current] leaves in 'current'. *)
Lemma write_final_current_ok txn rev start_node_id start_copy_id fs u fs' :
  write_final_current cc txn rev start_node_id start_copy_id fs = (Ok u, fs') ->
  current_rev (fs_current fs') = rev
  /\ fs_youngest_rev_cache fs' = fs_youngest_rev_cache fs
  /\ fs_ffd fs' = fs_ffd fs.
Proof.
  unfold write_final_current. intros H.
  step H as fs0 fs1 Hget.
  assert (Hwc : forall ids fsa ua fsb,
             svn_fs_fs__write_current cc rev ids fsa = (Ok ua, fsb) ->
             current_rev (fs_current fsb) = rev
             /\ fs_youngest_rev_cache fsb = fs_youngest_rev_cache fsa
             /\ fs_ffd fsb = fs_ffd fsa).
  { intros ids fsa ua fsb Hw. unfold svn_fs_fs__write_current in Hw.
    step Hw as u1 fsc Hchk. by injection Hw as _ <-. }
  destruct (_ <=? _)%Z; [by eapply Hwc|].
  step H as ids fs2 Hids. by eapply Hwc.
Qed.

(** C1.  A commit that succeeds has found the transaction based on the
    head revision, and the revision it hands to the caller, writes into
    'current' and caches as the youngest is that head plus one. *)
Theorem commit_new_rev_is_head_plus_one (txn : svn_fs_txn_t)
    (set_timestamp : bool) (root : txn_tree) (cs cs' : commit_state) :
  commit_body c cc io txn set_timestamp root cs = (Ok tt, cs') ->
  let old_rev := current_rev (fs_current (cs_fs cs)) in
  base_rev txn = old_rev
  /\ cs_new_rev cs' = Some (old_rev + 1)%Z
  /\ current_rev (fs_current (cs_fs cs')) = (old_rev + 1)%Z
  /\ fs_youngest_rev_cache (cs_fs cs') = (old_rev + 1)%Z.
Proof.
  intros H old_rev. unfold commit_body in H.
  step H as old cs1 Hyoung.
  assert (Hold : old = old_rev /\ cs1 = cs).
  { revert Hyoung.
    unfold on_fs, svn_fs_fs__youngest_rev, bind, attempt, get_fs, ret.
    destruct (read_current cc); [done|]. simpl.
    intros [= <- <-]. by destruct cs. }
  destruct Hold as [-> ->].
  destruct (base_rev txn =? old_rev)%Z eqn:Hbase; [|done]. simpl in H.
  apply Z.eqb_eq in Hbase. split; [done|].
  step H as u1 cs2 Hlocks.
  step H as cs0 cs3 Hget.
  step H as start_ids cs4 Hids.
  destruct start_ids as [start_node_id start_copy_id].
  step H as opened cs5 Hopen.
  destruct opened as [proto_file cookie].
  step H as u2 cs6 Hset.
  step H as new_root_id cs7 Hfinal.
  step H as changed_path_offset cs8 Hchanged.
  step H as u3 cs9 Htrailer.
  step H as u4 cs10 Hflush.
  step H as csa cs11 Hget2.
  step H as u5 cs12 Hclose.
  step H as flags cs13 Hflags.
  step H as u6 cs14 Hprops.
  step H as u7 cs15 Hshard.
  step H as u8 cs16 Hmove.
  step H as u9 cs17 Hunlock.
  step H as u10 cs18 Htime.
  step H as u11 cs19 Hrevprops.
  step H as u12 cs20 Hverify.
  step H as u13 cs21 Hcurrent.
  step H as u14 cs22 Hpublish.
  apply (quiet_on_fs _ (quiet_fs_purge_txn _)) in H
    as (Hcur & Hcache & _ & Hnew).
  injection Hpublish as _ <-.
  unfold on_fs in Hcurrent.
  destruct (write_final_current _ _ _ _ _ _) as [r fs1] eqn:Hwfc.
  injection Hcurrent as -> <-.
  apply write_final_current_ok in Hwfc as (Hrev & _ & _).
  simpl in *. by rewrite Hcur, Hcache, Hnew, Hrev.
Qed.

End commit_claims.

Section root_validation.


Variable c : rep_callees.
Variable cc : commit_callees.
Variable io : lock_io.

Lemma validate_root_noderev_mismatch root_noderev head_root rev :
  head_root_noderev cc (rev - 1)%Z = Ok head_root ->
  count_mismatch root_noderev head_root ->
  is_ok (validate_root_noderev cc root_noderev rev) = false
  /\ ((0 < rev)%Z ->
      raised (validate_root_noderev cc root_noderev rev)
      = Some SVN_ERR_FS_CORRUPT).
Proof.
  intros Hhead [Hne Hdiff]. unfold validate_root_noderev.
  rewrite Hhead. simpl.
  replace (rev - (rev - 1))%Z with 1%Z by lia.
  apply Z.eqb_neq in Hne, Hdiff. rewrite Hne, Hdiff. simpl.
  destruct (0 <? rev)%Z eqn:Hrev; simpl; [done|].
  split; [done|]. intros H. apply Z.ltb_lt in H. congruence.
Qed.

(** Without a mismatch the check lets the root pass. *)
Lemma validate_root_noderev_pass root_noderev head_root rev :
  (0 < rev)%Z ->
  head_root_noderev cc (rev - 1)%Z = Ok head_root ->
  ~ count_mismatch root_noderev head_root ->
  validate_root_noderev cc root_noderev rev = Ok tt.
Proof.
  intros Hrev Hhead Hno. unfold validate_root_noderev.
  apply Z.ltb_lt in Hrev. rewrite Hrev, Hhead. simpl.
  replace (rev - (rev - 1))%Z with 1%Z by lia.
  destruct (_ =? -1)%Z eqn:H1; simpl; [done|].
  destruct (_ =? 1)%Z eqn:H2; simpl; [done|].
  apply Z.eqb_neq in H1, H2. exfalso. apply Hno. by split.
Qed.

(** The steps before the check leave the predecessor count alone. *)
Lemma write_dir_rep_count rev noderev entries cs noderev' cs' :
  write_dir_rep c cc rev noderev entries cs = (Ok noderev', cs') ->
  nr_predecessor_count noderev' = nr_predecessor_count noderev.
Proof.
  unfold write_dir_rep. intros H.
  destruct (nr_data_rep noderev) as [data_rep|];
    [|by apply ret_ok in H as [-> _]].
  destruct (is_txn_rep data_rep); [|by apply ret_ok in H as [-> _]].
  step H as cs0 cs1 Hget. step H as rep' cs2 Hw.
  by apply ret_ok in H as [-> _].
Qed.

Lemma stamp_file_rep_count rev initial_offset noderev cs noderev' cs' :
  stamp_file_rep rev initial_offset noderev cs = (Ok noderev', cs') ->
  nr_predecessor_count noderev' = nr_predecessor_count noderev.
Proof.
  unfold stamp_file_rep. intros H.
  destruct (nr_data_rep noderev) as [data_rep|];
    [|by apply ret_ok in H as [-> _]].
  destruct (is_txn_rep data_rep); [|by apply ret_ok in H as [-> _]].
  destruct (_ <? _)%Z; [done|]. by apply ret_ok in H as [-> _].
Qed.

Lemma write_prop_rep_count rev noderev cs noderev' cs' :
  write_prop_rep c cc rev noderev cs = (Ok noderev', cs') ->
  nr_predecessor_count noderev' = nr_predecessor_count noderev.
Proof.
  unfold write_prop_rep. intros H.
  destruct (nr_prop_rep noderev) as [prop_rep|];
    [|by apply ret_ok in H as [-> _]].
  destruct (is_txn_rep prop_rep); [|by apply ret_ok in H as [-> _]].
  step H as proplist cs0 Hprops. step H as cs1 cs2 Hget.
  step H as rep' cs3 Hw. by apply ret_ok in H as [-> _].
Qed.

Lemma write_node_reps_count rev sn sc off noderev entries cs noderev' cs' :
  write_node_reps c cc rev sn sc off noderev entries cs = (Ok noderev', cs') ->
  nr_predecessor_count noderev' = nr_predecessor_count noderev.
Proof.
  unfold write_node_reps. intros H. step H as nr1 cs1 H1.
  apply write_prop_rep_count in H. rewrite H. clear H.
  destruct (bool_decide _); [|by eapply stamp_file_rep_count].
  step H1 as l cs2 Hl. step H1 as l' cs3 Hchildren.
  by eapply write_dir_rep_count.
Qed.

Lemma bind_bind_run {S A B C : Type} (m : action S A) (f : A -> action S B)
    (g : B -> action S C) s :
  bind m (fun a => bind (f a) g) s
  = match bind m f s with
    | (Ok b, s') => g b s'
    | (Raise e, s') => (Raise e, s')
    end.
Proof.
  unfold bind. destruct (m s) as [[a|e] s1]; [|done].
  by destruct (f a s1) as [[b|e] s2].
Qed.

(** [write_final_rev] on a node-rev of the transaction: its
    representations, then the final id, the check and the record. *)
Lemma write_final_rev_readable rev sn sc off noderev entries id at_root cs :
  svn_fs_fs__id_is_txn id = true ->
  write_final_rev c cc rev sn sc off (readable noderev entries) id at_root cs
  = match write_node_reps c cc rev sn sc off noderev entries cs with
    | (Ok noderev', cs') => finish_noderev cc rev sn sc noderev' at_root cs'
    | (Raise e, cs') => (Raise e, cs')
    end.
Proof.
  intros Hid.
  change (write_final_rev c cc rev sn sc off (readable noderev entries) id
                          at_root cs)
    with ((if negb (svn_fs_fs__id_is_txn id) then ret None
           else
             bind (if bool_decide (nr_kind noderev = svn_node_dir) then
                     bind (lift entries) (fun entries =>
                       bind (write_children rev
                               (fun child id =>
                                  write_final_rev c cc rev sn sc off child id
                                                  false) entries)
                            (fun entries =>
                               write_dir_rep c cc rev noderev entries))
                   else stamp_file_rep rev off noderev)
                  (fun noderev =>
                     bind (write_prop_rep c cc rev noderev)
                          (fun noderev =>
                             finish_noderev cc rev sn sc noderev at_root)))
            cs).
  rewrite Hid. cbn [negb]. apply bind_bind_run.
Qed.

(** With a mismatch the last steps on the root cannot succeed; they end
    in CORRUPT when the steps before the check succeed. *)
Lemma finish_noderev_mismatch rev sn sc noderev head_root cs :
  head_root_noderev cc (rev - 1)%Z = Ok head_root ->
  count_mismatch noderev head_root ->
  is_ok (finish_noderev cc rev sn sc noderev true cs).1 = false
  /\ forall new_id cs',
       (0 < rev)%Z ->
       finish_noderev cc rev sn sc noderev false cs = (Ok new_id, cs') ->
       raised (finish_noderev cc rev sn sc noderev true cs).1
       = Some SVN_ERR_FS_CORRUPT.
Proof.
  intros Hhead Hmis. unfold finish_noderev, bind, get_cs, lift, ret.
  match goal with
  | |- context [remember_new_reps ?a ?b ?n cs] =>
      destruct (remember_new_reps a b n cs) as [[u|e] cs1]
  end.
  2:{ split; [done|]. by intros new_id cs' _ [=]. }
  match goal with
  | |- context [validate_root_noderev cc ?n rev] =>
      assert (Hmis2 : count_mismatch n head_root);
      [|destruct (validate_root_noderev_mismatch n head_root rev Hhead Hmis2)
          as [Hfail Hcorrupt];
        destruct (validate_root_noderev cc n rev) as [u'|e']]
  end.
  - unfold count_mismatch in *.
    repeat (simpl;
            match goal with
            | |- context [if ?b then _ else _] => destruct b
            | |- context [match ?x with Some _ => _ | None => _ end] =>
                destruct x
            end); exact Hmis.
  - done.
  - split; [done|]. intros new_id cs' Hrev _. by apply Hcorrupt.
Qed.

End root_validation.

Section root_validation_claims.


Variable c : rep_callees.
Variable cc : commit_callees.
Variable io : lock_io.

(** One more call of a sequence that has published nothing so far:
    either it went well and the sequence goes on, or the sequence has
    failed there, still with nothing published. *)
Lemma bind_quiet_cases {A B : Type} (m : commit_action A)
    (k : A -> commit_action B) cs0 cs r cs' :
  unpublished cs0 cs -> quiet m ->
  bind m k cs = (r, cs') ->
  (exists a cs1, unpublished cs0 cs1 /\ m cs = (Ok a, cs1)
                 /\ k a cs1 = (r, cs'))
  \/ (is_ok r = false /\ unpublished cs0 cs').
Proof.
  intros Q Hm H. apply bind_cases in H as [(a & cs1 & H1 & H2)|(e & H1 & ->)].
  - left. exists a, cs1. split; [|done].
    eapply unpublished_trans; [exact Q|by eapply Hm].
  - right. split; [done|]. eapply unpublished_trans; [exact Q|by eapply Hm].
Qed.

(** With a mismatch, writing the root of the transaction cannot
    succeed. *)
Lemma write_final_rev_root_mismatch rev sn sc off noderev entries id
    head_root cs r cs' :
  svn_fs_fs__id_is_txn id = true ->
  head_root_noderev cc (rev - 1)%Z = Ok head_root ->
  count_mismatch noderev head_root ->
  write_final_rev c cc rev sn sc off (readable noderev entries) id true cs
  = (r, cs') ->
  is_ok r = false.
Proof.
  intros Hid Hhead Hmis. rewrite write_final_rev_readable by done.
  destruct (write_node_reps _ _ _ _ _ _ _ _ _) as [[nr'|e] cs1] eqn:Hreps;
    [|by intros [= <- _]].
  apply write_node_reps_count in Hreps.
  assert (Hmis' : count_mismatch nr' head_root)
    by (unfold count_mismatch in *; by rewrite Hreps).
  destruct (finish_noderev_mismatch cc rev sn sc nr' head_root cs1 Hhead Hmis')
    as [Hfail _].
  intros H. by rewrite H in Hfail.
Qed.

(** With a mismatch, writing the root ends in CORRUPT whenever writing
    the same node without the check succeeds. *)
Lemma write_final_rev_root_corrupt rev sn sc off noderev entries id
    head_root cs new_id cs1 :
  (0 < rev)%Z ->
  svn_fs_fs__id_is_txn id = true ->
  head_root_noderev cc (rev - 1)%Z = Ok head_root ->
  count_mismatch noderev head_root ->
  write_final_rev c cc rev sn sc off (readable noderev entries) id false cs
  = (Ok new_id, cs1) ->
  raised (write_final_rev c cc rev sn sc off (readable noderev entries) id
                          true cs).1
  = Some SVN_ERR_FS_CORRUPT.
Proof.
  intros Hrev Hid Hhead Hmis. rewrite !write_final_rev_readable by done.
  destruct (write_node_reps _ _ _ _ _ _ _ _ _) as [[nr'|e] cs2] eqn:Hreps;
    [|done].
  apply write_node_reps_count in Hreps.
  assert (Hmis' : count_mismatch nr' head_root)
    by (unfold count_mismatch in *; by rewrite Hreps).
  destruct (finish_noderev_mismatch cc rev sn sc nr' head_root cs2 Hhead Hmis')
    as [_ Hcorrupt].
  intros H. eapply Hcorrupt; [done|exact H].
Qed.

(** With a mismatch the commit publishes nothing. *)
Lemma commit_body_root_mismatch txn set_timestamp noderev head_root entries
    cs r cs' :
  head_root_noderev cc (current_rev (fs_current (cs_fs cs))) = Ok head_root ->
  count_mismatch noderev head_root ->
  commit_body c cc io txn set_timestamp (readable noderev entries) cs
  = (r, cs') ->
  is_ok r = false /\ unpublished cs cs'.
Proof.
  intros Hhead Hmis H.
  set (old_rev := current_rev (fs_current (cs_fs cs))) in *.
  assert (Hhead' : head_root_noderev cc (old_rev + 1 - 1)%Z = Ok head_root)
    by (by rewrite Z.add_simpl_r).
  unfold commit_body in H.
  apply (bind_quiet_cases _ _ cs) in H
    as [(old & cs1 & Q1 & Hyoung & H)|?]; [|done|apply unpublished_refl|];
    [|apply quiet_on_fs, quiet_fs_youngest_rev].
  assert (Hold : old = old_rev /\ cs1 = cs).
  { revert Hyoung.
    unfold on_fs, svn_fs_fs__youngest_rev, bind, attempt, get_fs, ret.
    destruct (read_current cc); [done|]. simpl.
    intros [= <- <-]. by destruct cs. }
  destruct Hold as [-> ->]. clear Hyoung.
  destruct (negb _); [by injection H as <- <-|].
  apply (bind_quiet_cases _ _ cs) in H
    as [(u1 & cs2 & Q2 & _ & H)|?]; [|done|done|apply quiet_attempt].
  apply (bind_quiet_cases _ _ cs) in H
    as [(cs0 & cs3 & Q3 & _ & H)|?]; [|done|done|apply quiet_get_cs].
  apply (bind_quiet_cases _ _ cs) in H
    as [(start_ids & cs4 & Q4 & _ & H)|?]; [|done|done|].
  2:{ destruct (_ <? _)%Z; [|quiet_all].
      apply quiet_bind;
        [apply quiet_on_fs, quiet_fs_get_next_revision_ids|].
      intros ?. quiet_all. }
  destruct start_ids as [sn sc].
  apply (bind_quiet_cases _ _ cs) in H
    as [(opened & cs5 & Q5 & _ & H)|?]; [|done|done|].
  2:{ apply quiet_on_fs, quiet_fs_get_writable. }
  destruct opened as [proto_file cookie].
  apply (bind_quiet_cases _ _ cs) in H
    as [(u2 & cs6 & Q6 & _ & H)|?]; [|done|done|].
  2:{ by intros csa ra csb [= _ <-]. }
  apply (bind_quiet_cases _ _ cs) in H
    as [(new_root_id & cs7 & Q7 & Hroot & _)|?]; [|done|done|].
  2:{ apply quiet_write_final_rev. }
  by apply (write_final_rev_root_mismatch _ _ _ _ _ _ _ head_root)
    in Hroot.
Qed.

(** C9, as the code has it.  When the root node-rev of the transaction
    has a predecessor count other than -1 that is not the predecessor
    count of the head root plus one, the commit fails and the revision is
    not published: 'current' and the cell of the new revision are what
    they were.  When the commit gets as far as the check of the root, the
    error it returns is CORRUPT. *)
Theorem root_predecessor_count_validated (txn : svn_fs_txn_t)
    (set_timestamp : bool) (noderev head_root : node_revision_t)
    (entries : svn_result (list (svn_fs_dirent_t * txn_tree)))
    (cs : commit_state) (r : svn_result unit) (cs' : commit_state) :
  let old_rev := current_rev (fs_current (cs_fs cs)) in
  let root := readable noderev entries in
  head_root_noderev cc old_rev = Ok head_root ->
  count_mismatch noderev head_root ->
  commit_body c cc io txn set_timestamp root cs = (r, cs') ->
  is_ok r = false
  /\ cs_new_rev cs' = cs_new_rev cs
  /\ fs_current (cs_fs cs') = fs_current (cs_fs cs)
  /\ (root_check_reached c cc io txn root cs ->
      raised r = Some SVN_ERR_FS_CORRUPT).
Proof.
  intros old_rev root Hhead Hmis H.
  destruct (commit_body_root_mismatch _ _ _ _ _ _ _ _ Hhead Hmis H)
    as (Hfail & Hcur & _ & _ & Hnew).
  split; [done|]. split; [done|]. split; [done|].
  intros (Hread & Hbase & Hrev & Hlocks & sn & sc & proto_file & cookie
          & fs1 & new_id & cs1 & Hids & Hopen & Hwrite).
  fold old_rev in Hbase, Hrev, Hwrite.
  apply (write_final_rev_root_corrupt _ _ _ _ _ _ _ head_root) in Hwrite;
    [|lia|done|by rewrite Z.add_simpl_r|done].
  revert H. unfold commit_body.
  erewrite run_bind.
  2:{ unfold on_fs, svn_fs_fs__youngest_rev, bind, attempt, get_fs, ret.
      rewrite Hread. by destruct cs. }
  fold old_rev. rewrite Hbase, Z.eqb_refl. cbn [negb].
  erewrite run_bind; [|unfold attempt; by rewrite Hlocks].
  erewrite run_bind; [|reflexivity].
  assert (Hstart :
    (if (format (fs_ffd (cs_fs cs)) <? SVN_FS_FS__MIN_NO_GLOBAL_IDS_FORMAT)%Z
     then run ids <- on_fs (get_next_revision_ids cc);
          ret (Some ids.1, Some ids.2)
     else ret (None, None)) cs = (Ok (sn, sc), cs)).
  { destruct (_ <? _)%Z.
    - destruct Hids as (ids & Hcur' & -> & ->).
      unfold on_fs, get_next_revision_ids, bind, attempt, get_fs, ret.
      rewrite Hread, Hcur'. by destruct cs.
    - by destruct Hids as [-> ->]. }
  unfold bind at 1. rewrite Hstart. cbv beta iota.
  unfold bind at 1, on_fs at 1. rewrite Hopen. cbv beta iota.
  unfold bind at 1, modify_cs at 1. cbv beta iota. cbn [cs_fs cs_file cs_new_rev cs_reps_to_cache cs_reps_hash].
  unfold bind at 1. fold root in Hwrite.
  destruct (write_final_rev _ _ _ _ _ _ _ _ _ _) as [[?|e] cs2]; [done|].
  by intros [= <- _].
Qed.

End root_validation_claims.

(** ** The properties on the sample filesystem *)

Section samples.


Lemma get_writable_proto_rev_being_written_witness :
  (get_writable_proto_rev ex_lock_io "5-1" ex_fs).1
  = Ok (mk_file "5-1" 12, "5-1")
  /\ is_being_written (get_writable_proto_rev ex_lock_io "5-1" ex_fs).2
                      "5-1" = true
  /\ length (proto_rev_data
               (get_writable_proto_rev ex_lock_io "5-1" ex_fs).2 "5-1") = 12.
Proof.
  destruct (get_writable_proto_rev_being_written ex_lock_io "5-1" ex_fs)
    as [_ H].
  destruct (H (mk_file "5-1" 12) "5-1") as (_ & Hset & _ & Hpos);
    [by vm_compute|].
  split; [by vm_compute|]. split; [exact Hset|]. by rewrite <- Hpos.
Defined.


Lemma write_hash_rep_plain_sizes_witness :
  rep_expanded_size (ex_hash_rep None) = 0%Z
  /\ rep_size (ex_hash_rep None) = 8%Z.
Proof.
  destruct (write_hash_rep_plain_sizes (ex_rep_callees None) ex_prop_rep
              ex_file ex_props None ex_fs (ex_hash_rep None)
              (ex_hash_file None) (ex_hash_run None).2)
    as (H1 & H2 & _); [by vm_compute|by vm_compute|by vm_compute|].
  by split.
Defined.

Lemma commit_new_rev_is_head_plus_one_witness :
  cs_new_rev (ex_commit 6 5).2 = Some 6%Z
  /\ current_rev (fs_current (cs_fs (ex_commit 6 5).2)) = 6%Z.
Proof.
  destruct (commit_new_rev_is_head_plus_one (ex_rep_callees None)
              ex_commit_callees ex_lock_io (mk_txn "5-1" 5) false
              (readable (ex_root 6) (Ok [])) (commit_baton ex_fs)
              (ex_commit 6 5).2)
    as (_ & H1 & H2 & _); [by vm_compute|].
  by split.
Defined.

Lemma commit_out_of_date_witness :
  ex_commit 6 4
  = (Raise (svn_error_create SVN_ERR_FS_TXN_OUT_OF_DATE
              "Transaction out of date"), commit_baton ex_fs).
Proof.
  apply (commit_out_of_date (ex_rep_callees None) ex_commit_callees
           ex_lock_io (mk_txn "5-1" 4) false (readable (ex_root 6) (Ok []))
           (commit_baton ex_fs)).
  - reflexivity.
  - by vm_compute.
Defined.

Lemma root_predecessor_count_validated_witness :
  raised (ex_commit 9 5).1 = Some SVN_ERR_FS_CORRUPT
  /\ is_ok (ex_commit 9 5).1 = false
  /\ cs_new_rev (ex_commit 9 5).2 = None
  /\ fs_current (cs_fs (ex_commit 9 5).2) = mk_current 5 None.
Proof.
  destruct (root_predecessor_count_validated (ex_rep_callees None)
              ex_commit_callees ex_lock_io (mk_txn "5-1" 5) false
              (ex_root 9)
              (mk_noderev svn_node_dir (mk_id "0" "0" (origin_rev 5 100))
                          None 5 None None 0%Z false)
              (Ok []) (commit_baton ex_fs)
              (ex_commit 9 5).1 (ex_commit 9 5).2)
    as (Hfail & Hnew & Hcur & Hcorrupt).
  - reflexivity.
  - split; vm_compute; lia.
  - apply surjective_pairing.
  - split; [|done]. apply Hcorrupt. unfold root_check_reached.
    split; [reflexivity|]. split; [reflexivity|]. split; [by vm_compute|].
    split; [reflexivity|]. do 7 eexists.
    split; [|split]; vm_compute; [split|..]; reflexivity.
Defined.

(** C9, as the claim has it, fails: a root whose predecessor count is -1
    is not compared with the head root, and the commit goes through
    although -1 minus the count of the head root is not 1. *)
Lemma root_predecessor_count_unknown_commits :
  head_root_noderev ex_commit_callees 5%Z
  = Ok (mk_noderev svn_node_dir (mk_id "0" "0" (origin_rev 5 100))
                   None 5 None None 0%Z false)
  /\ (nr_predecessor_count (ex_root (-1)) - 5 <> 6 - 5)%Z
  /\ (ex_commit (-1) 5).1 = Ok tt
  /\ cs_new_rev (ex_commit (-1) 5).2 = Some 6%Z
  /\ current_rev (fs_current (cs_fs (ex_commit (-1) 5).2)) = 6%Z.
Proof. repeat split; by vm_compute. Qed.

End samples.
(** * Further properties *)

(** ** More on the folding of the changes log *)

Section fold_algebra.

Implicit Types (m : gmap string svn_fs_path_change2_t) (p k : string).

(** X1.  An add of a path that has no entry, followed by the delete of the
    node just added, leaves the path without entry: the two records cancel
    each other.  The delete still sweeps the entries below the path; every
    other entry is as before. *)
Theorem add_then_delete_cancel m (a d : change_t) :
  m !! path a = None ->
  path d = path a ->
  change_kind (info a) = svn_fs_path_change_add ->
  change_kind (info d) = svn_fs_path_change_delete ->
  is_Some (node_rev_id (info a)) ->
  node_rev_id (info d) = node_rev_id (info a) ->
  exists m',
    process_changes m [a; d] = Ok m'
    /\ m' !! path a = None
    /\ forall k, m' !! k
                 = if svn_dirent_is_child (path a) k then None else m !! k.
Proof.
  intros Hnone Hpath Hka Hkd [i Hi] Hid.
  exists (sweep_children (path a) m).
  assert (Hrun : process_changes m [a; d] = Ok (sweep_children (path a) m)).
  { simpl. unfold fold_change at 1. rewrite Hnone. unfold SVN_ERR at 1.
    rewrite Hka. simpl.
    unfold fold_change. rewrite Hpath, lookup_insert_eq.
    unfold svn_fs_fs__id_copy, svn_fs_fs__id_eq, merge_change. simpl.
    rewrite Hid, Hi, Hkd. simpl.
    rewrite (bool_decide_eq_true_2 (Some i = Some i)) by done. simpl.
    by rewrite delete_insert_eq, delete_id. }
  split; [done|]. split.
  - by rewrite sweep_children_lookup, is_child_irrefl.
  - intros k. apply sweep_children_lookup.
Qed.

(** X2.  A delete of a path that has an entry, followed by an add of the
    path, is folded into one entry of kind replace for the node that was
    added, with the modification flags of the add and the node kind of the
    entry that was there. *)
Theorem delete_then_add_is_replace m (d a : change_t)
    (old : svn_fs_path_change2_t) :
  m !! path d = Some old ->
  path a = path d ->
  change_kind old <> svn_fs_path_change_add ->
  change_kind old <> svn_fs_path_change_delete ->
  change_kind (info d) = svn_fs_path_change_delete ->
  change_kind (info a) = svn_fs_path_change_add ->
  is_Some (node_rev_id old) ->
  node_rev_id (info d) = node_rev_id old ->
  is_Some (node_rev_id (info a)) ->
  exists m' e,
    process_changes m [d; a] = Ok m'
    /\ m' !! path d = Some e
    /\ change_kind e = svn_fs_path_change_replace
    /\ node_rev_id e = node_rev_id (info a)
    /\ text_mod e = text_mod (info a)
    /\ prop_mod e = prop_mod (info a)
    /\ node_kind e = node_kind old.
Proof.
  intros Hold Hpath Hna Hnd Hkd Hka [i Hi] Hid [j Hj].
  simpl. unfold fold_change at 1. rewrite Hold.
  unfold svn_fs_fs__id_eq, merge_change. rewrite Hid, Hi, Hkd. simpl.
  rewrite (bool_decide_eq_true_2 (Some i = Some i)) by done. simpl.
  rewrite (bool_decide_eq_false_2 _ Hnd), (bool_decide_eq_false_2 _ Hna).
  simpl.
  unfold fold_change. rewrite Hpath, sweep_children_lookup, is_child_irrefl.
  rewrite lookup_insert_eq.
  unfold svn_fs_fs__id_eq, svn_fs_fs__id_copy, merge_change.
  rewrite Hj, Hka. simpl. rewrite andb_false_r.
  destruct (bool_decide (copyfrom_rev (info a) = SVN_INVALID_REVNUM));
    (eexists _, _; split; [reflexivity|]; rewrite lookup_insert_eq;
     split; [reflexivity|]; simpl; by rewrite ?Hj).
Qed.

(** X3.  Modify records for the node of an entry never take a flag back:
    after any number of them the entry has its text flag set exactly when
    it was set before or one of the records sets it, likewise the property
    flag, and nothing else of the entry or of the map has changed. *)
Theorem modifications_accumulate m p (old : svn_fs_path_change2_t)
    (l : list change_t) :
  m !! p = Some old ->
  change_kind old <> svn_fs_path_change_delete ->
  is_Some (node_rev_id old) ->
  Forall (modifies p old) l ->
  process_changes m l
  = Ok (<[p := with_mods old
                 (text_mod old || existsb (fun c => text_mod (info c)) l)
                 (prop_mod old || existsb (fun c => prop_mod (info c)) l)]>
          m).
Proof.
  intros Hold Hnd [i Hi] Hall. revert m old Hold Hnd Hi Hall.
  induction l as [|c l IH]; intros m old Hold Hnd Hi Hall.
  - simpl. rewrite !orb_false_r. f_equal. symmetry.
    apply insert_id. rewrite Hold. by destruct old.
  - apply Forall_cons in Hall as [(Hp & Hk & Hid) Hall].
    simpl process_changes. unfold fold_change. rewrite Hp, Hold.
    unfold svn_fs_fs__id_eq, merge_change. rewrite Hid, Hi, Hk. simpl.
    rewrite (bool_decide_eq_true_2 (Some i = Some i)) by done. simpl.
    rewrite (bool_decide_eq_false_2 _ Hnd). simpl.
    set (e := mk_change2 _ _ _ _ _ _ _ _).
    rewrite (IH (<[p := e]> m) e).
    + f_equal. rewrite insert_insert_eq. f_equal. unfold with_mods, e. simpl.
      f_equal; try done;
        first [ by destruct (text_mod (info c)), (text_mod old)
              | by destruct (prop_mod (info c)), (prop_mod old) ].
    + by rewrite lookup_insert_eq.
    + done.
    + done.
    + eapply Forall_impl; [exact Hall|].
      intros c' (Hp' & Hk' & Hid'). repeat split; try done.
      by rewrite Hid', Hi.
Qed.

(** X4.  Folding invents no path: an entry of the folded map is for a path
    the map had an entry for before or for the path of a record of the
    log. *)
Theorem process_changes_no_new_paths m (l : list change_t) m' :
  process_changes m l = Ok m' ->
  forall k, is_Some (m' !! k) -> is_Some (m !! k) \/ k ∈ path <$> l.
Proof.
  revert m. induction l as [|c l IH]; intros m H k Hk.
  - simpl in H. inversion H; subst. by left.
  - simpl in H. destruct (fold_change m c) as [folded|e] eqn:Hf; [|done].
    simpl in H. rewrite fmap_cons.
    destruct (decide (k = path c)) as [->|Hne]; [right; by left|].
    assert (Hstep : forall m1, (forall k', is_Some (m1 !! k') ->
                                           is_Some (folded !! k')) ->
                               process_changes m1 l = Ok m' ->
                               is_Some (m !! k)
                               \/ k ∈ path c :: (path <$> l)).
    { intros m1 Hsub Hrun. destruct (IH m1 Hrun k Hk) as [Hin|Hin].
      - left. apply Hsub in Hin.
        by rewrite (fold_change_other m c folded k Hf Hne) in Hin.
      - right. by right. }
    destruct (_ || _).
    + apply (Hstep (sweep_children (path c) folded)); [|done].
      intros k' H'. rewrite sweep_children_lookup in H'.
      destruct (svn_dirent_is_child _ _); [by destruct H'|done].
    + by apply (Hstep folded).
Qed.

(** X5.  On a path whose entry is a delete, the only records accepted are
    a reset, and an add or a replace that names a node; whatever else
    comes is refused.  An add or replace that is accepted leaves an entry
    of kind replace for the node it names. *)
Theorem fold_change_on_deleted_path m (c : change_t)
    (old : svn_fs_path_change2_t) :
  m !! path c = Some old ->
  change_kind old = svn_fs_path_change_delete ->
  (is_ok (fold_change m c) = true
   <-> change_kind (info c) = svn_fs_path_change_reset
       \/ ((change_kind (info c) = svn_fs_path_change_add
            \/ change_kind (info c) = svn_fs_path_change_replace)
           /\ node_rev_id (info c) <> None))
  /\ (is_ok (fold_change m c) = false ->
      raised (fold_change m c) = Some SVN_ERR_FS_CORRUPT)
  /\ (forall folded e,
        fold_change m c = Ok folded -> folded !! path c = Some e ->
        change_kind e = svn_fs_path_change_replace
        /\ node_rev_id e = node_rev_id (info c)).
Proof.
  intros Hold Hk. unfold fold_change. rewrite Hold, Hk.
  unfold merge_change, svn_fs_fs__id_copy.
  destruct (info c) as [id kind tm pm nk cfk cfr cfp]. simpl.
  destruct id as [i|], kind; simpl; rewrite ?andb_false_r; simpl;
    try destruct (bool_decide (cfr = SVN_INVALID_REVNUM)); simpl;
    (split;
     [split;
      [intros Hx; try done;
       first [ by left
             | right; split; [by left|done]
             | right; split; [by right|done] ]
      |intros [Hx|[[Hx|Hx] Hy]]; done]
     |split; [done|]]);
    intros folded e Heq; try done; injection Heq as <-;
    rewrite ?lookup_insert_eq, ?lookup_delete_eq; try done;
    by intros [= <-].
Qed.

End fold_algebra.

Section fold_algebra_samples.

Lemma add_then_delete_cancel_witness :
  exists m',
    process_changes sample_changes
      [mk_change "/x" (info add_a); mk_change "/x" (info delete_new_a)]
    = Ok m'
    /\ m' !! "/x" = None
    /\ forall k, m' !! k
                 = if svn_dirent_is_child "/x" k then None
                   else sample_changes !! k.
Proof.
  apply (add_then_delete_cancel sample_changes
           (mk_change "/x" (info add_a))
           (mk_change "/x" (info delete_new_a)));
    try reflexivity.
  vm_compute. eexists. reflexivity.
Defined.

Lemma delete_then_add_is_replace_witness :
  exists m' e,
    process_changes sample_changes [delete_a; add_a_again] = Ok m'
    /\ m' !! "/a" = Some e
    /\ change_kind e = svn_fs_path_change_replace
    /\ node_rev_id e = node_rev_id (info add_a_again)
    /\ text_mod e = true
    /\ prop_mod e = true
    /\ node_kind e = svn_node_file.
Proof.
  apply (delete_then_add_is_replace sample_changes delete_a add_a_again
           sample_entry); try reflexivity; try discriminate;
    vm_compute; eexists; reflexivity.
Defined.

Lemma modifications_accumulate_witness :
  process_changes sample_changes
    [sample_modify false true; sample_modify false false]
  = Ok (<["/a" := with_mods sample_entry true true]> sample_changes).
Proof.
  apply (modifications_accumulate sample_changes "/a" sample_entry
           [sample_modify false true; sample_modify false false]).
  - reflexivity.
  - discriminate.
  - vm_compute. eexists. reflexivity.
  - repeat constructor.
Defined.

Lemma process_changes_no_new_paths_witness :
  is_Some (sample_changes !! "/ab") \/ "/ab" ∈ path <$> [delete_a].
Proof.
  apply (process_changes_no_new_paths sample_changes [delete_a] sample_swept).
  - vm_compute. reflexivity.
  - vm_compute. eexists. reflexivity.
Defined.

Lemma fold_change_on_deleted_path_witness :
  (is_ok (fold_change sample_swept add_a_again) = true
   <-> change_kind (info add_a_again) = svn_fs_path_change_reset
       \/ ((change_kind (info add_a_again) = svn_fs_path_change_add
            \/ change_kind (info add_a_again) = svn_fs_path_change_replace)
           /\ node_rev_id (info add_a_again) <> None))
  /\ (is_ok (fold_change sample_swept add_a_again) = false ->
      raised (fold_change sample_swept add_a_again) = Some SVN_ERR_FS_CORRUPT)
  /\ (forall folded e,
        fold_change sample_swept add_a_again = Ok folded ->
        folded !! path add_a_again = Some e ->
        change_kind e = svn_fs_path_change_replace
        /\ node_rev_id e = node_rev_id (info add_a_again)).
Proof.
  apply (fold_change_on_deleted_path sample_swept add_a_again
           (info delete_a)).
  - vm_compute. reflexivity.
  - reflexivity.
Defined.

End fold_algebra_samples.

(** ** The changed paths of a revision *)

Section paths_changed_facts.

Implicit Types (h : gmap string svn_fs_path_change2_t) (k : string).

Local Abbreviation enter :=
  (fun h (change : change_t) => <[path change := info change]> h).

Lemma enter_all_other h (l : list change_t) k :
  k ∉ path <$> l -> foldl enter h l !! k = h !! k.
Proof.
  revert h. induction l as [|c l IH]; intros h Hk; [done|].
  rewrite fmap_cons in Hk. apply not_elem_of_cons in Hk as [Hne Hk].
  simpl. rewrite (IH _ Hk). by rewrite lookup_insert_ne.
Qed.

Lemma enter_all_dom h (l : list change_t) k :
  is_Some (foldl enter h l !! k) <-> is_Some (h !! k) \/ k ∈ path <$> l.
Proof.
  revert h. induction l as [|c l IH]; intros h.
  - simpl. rewrite elem_of_nil. tauto.
  - simpl. rewrite IH, ?fmap_cons, elem_of_cons.
    destruct (decide (k = path c)) as [->|Hne].
    + rewrite lookup_insert_eq. split; [right; by left|left; by eexists].
    + rewrite lookup_insert_ne by done. tauto.
Qed.

End paths_changed_facts.

Section paths_changed_claims.

(** X6.  [svn_fs_fs__paths_changed] does not fold: of the records of a
    path, the last one is the entry of the path, as it stands in the list,
    and the hash has an entry for exactly the paths of the records. *)
Theorem paths_changed_last_record_wins (pre post : list change_t)
    (c : change_t) :
  path c ∉ path <$> post ->
  exists h,
    svn_fs_fs__paths_changed (Ok (pre ++ c :: post)) = Ok h
    /\ h !! path c = Some (info c)
    /\ forall k, is_Some (h !! k) <-> k ∈ path <$> (pre ++ c :: post).
Proof.
  intros Hpost. unfold svn_fs_fs__paths_changed. simpl.
  eexists. split; [reflexivity|]. split.
  - rewrite foldl_app. simpl. rewrite enter_all_other by done.
    by rewrite lookup_insert_eq.
  - intros k. rewrite enter_all_dom, lookup_empty.
    split; [intros [[? [=]]|?]; done | by right].
Qed.

Lemma paths_changed_last_record_wins_witness :
  exists h,
    svn_fs_fs__paths_changed (Ok ([add_a; delete_new_a] ++ add_a_again :: []))
    = Ok h
    /\ h !! "/a" = Some (info add_a_again)
    /\ forall k, is_Some (h !! k)
                 <-> k ∈ path <$> ([add_a; delete_new_a] ++ add_a_again :: []).
Proof.
  apply (paths_changed_last_record_wins [add_a; delete_new_a] [] add_a_again).
  apply not_elem_of_nil.
Defined.

End paths_changed_claims.

(** ** Verification of locks *)

Section verify_locks_facts.

Variable allow : string -> bool -> option svn_error_t.

Lemma verify_paths_checked (changes : gmap string svn_fs_path_change2_t)
    (last_recursed : option string) (paths : list string) :
  LockVerifier.verify_paths allow changes last_recursed paths = Ok tt ->
  (forall q, last_recursed = Some q ->
             exists above, changes !! q = Some above
                           /\ own_lock_check above = true
                           /\ allow q true = None) ->
  forall p, p ∈ paths -> lock_checked allow changes p.
Proof.
  revert last_recursed.
  induction paths as [|path rest IH]; intros lr Hrun Hlr p Hp.
  - by apply elem_of_nil in Hp.
  - simpl in Hrun.
    destruct (match lr with
              | Some parent => svn_dirent_is_child parent path
              | None => false
              end) eqn:Hskip.
    + apply elem_of_cons in Hp as [->|Hp]; [|by apply (IH lr)].
      destruct lr as [q|]; [|done].
      destruct (Hlr q eq_refl) as (above & Hq & Hrec & Hok).
      right. by exists q, above.
    + destruct (changes !! path) as [change|] eqn:Hchange; [|done].
      fold (own_lock_check change) in Hrun.
      destruct (allow path (own_lock_check change)) as [err|] eqn:Hallow;
        [done|].
      apply elem_of_cons in Hp as [->|Hp]; [left; by exists change|].
      apply (IH _ Hrun); [|done].
      intros q Hq. destruct (own_lock_check change) eqn:Hrec.
      * injection Hq as <-. by exists change.
      * by apply Hlr.
Qed.

End verify_locks_facts.

Section verify_locks_claims.

Lemma sample_insert_Permutation p l : sample_insert p l ≡ₚ p :: l.
Proof.
  induction l as [|q l IH]; simpl; [done|].
  destruct (String.leb p q); [done|]. rewrite IH. apply Permutation_swap.
Qed.

Lemma sample_qsort_Permutation l : sample_qsort l ≡ₚ l.
Proof.
  induction l as [|p l IH]; simpl; [done|].
  by rewrite sample_insert_Permutation, IH.
Qed.

(** X7.  When [verify_locks] returns without error, every changed path of
    the transaction has passed a lock check: its own, which is recursive
    unless the change is a modification, or the recursive check of another
    changed path it lies below.  The order the sort leaves the paths in
    plays no part in this, so long as it returns the paths it was given. *)
Theorem verify_locks_checks_every_change
    (allow : string -> bool -> option svn_error_t)
    (qsort : list string -> list string)
    (parsed : svn_result (list change_t))
    (changes : gmap string svn_fs_path_change2_t) :
  (forall l, qsort l ≡ₚ l) ->
  svn_fs_fs__txn_changes_fetch parsed = Ok changes ->
  LockVerifier.verify_locks allow qsort parsed = Ok tt ->
  forall p, is_Some (changes !! p) -> lock_checked allow changes p.
Proof.
  intros Hsort Hfetch Hrun p [change Hp].
  unfold LockVerifier.verify_locks in Hrun. rewrite Hfetch in Hrun.
  simpl in Hrun.
  apply (verify_paths_checked allow changes None _ Hrun); [done|].
  rewrite Hsort. apply list_elem_of_fmap. exists (p, change).
  split; [done|]. by apply elem_of_map_to_list.
Qed.

Lemma verify_locks_checks_every_change_witness :
  lock_checked sample_allow sample_log_changes "/c/d".
Proof.
  apply (verify_locks_checks_every_change sample_allow sample_qsort
           (Ok sample_log) sample_log_changes).
  - apply sample_qsort_Permutation.
  - vm_compute. reflexivity.
  - vm_compute. reflexivity.
  - vm_compute. eexists. reflexivity.
Defined.

End verify_locks_claims.

(** ** More on the registry and the proto-rev lock *)

Section registry_facts.

Implicit Types (l : list fs_fs_shared_txn_data_t) (id : string).

Lemma find_txn_Some l id t :
  find_txn l id = Some t -> txn_id t = id /\ t ∈ l.
Proof.
  induction l as [|x l IH]; simpl; [done|].
  destruct (String.eqb (txn_id x) id) eqn:Hx.
  - intros [= <-]. apply String.eqb_eq in Hx. split; [done|by left].
  - intros H. destruct (IH H) as [? ?]. split; [done|by right].
Qed.

Lemma find_txn_None l id : find_txn l id = None <-> id ∉ txn_id <$> l.
Proof.
  induction l as [|x l IH]; simpl.
  - split; [intros _; apply not_elem_of_nil|done].
  - rewrite not_elem_of_cons, <- IH.
    destruct (String.eqb (txn_id x) id) eqn:Hx.
    + apply String.eqb_eq in Hx. split; [done|]. by intros [? _].
    + apply String.eqb_neq in Hx. split; [|by intros [_ ?]].
      intros H. split; [by intros ->|done].
Qed.

Lemma find_txn_unlink_other l id id' :
  id' <> id -> find_txn (unlink_txn l id) id' = find_txn l id'.
Proof.
  intros Hne. induction l as [|x l IH]; simpl; [done|].
  destruct (String.eqb (txn_id x) id) eqn:Hx; simpl.
  - apply String.eqb_eq in Hx.
    assert (Hx' : String.eqb (txn_id x) id' = false)
      by (apply String.eqb_neq; congruence).
    by rewrite Hx'.
  - by rewrite IH.
Qed.

Lemma unlink_txn_ids l id :
  sublist (txn_id <$> unlink_txn l id) (txn_id <$> l).
Proof.
  induction l as [|x l IH]; simpl; [done|].
  destruct (String.eqb (txn_id x) id); simpl.
  - by apply sublist_cons.
  - by apply sublist_skip.
Qed.

Lemma find_txn_unlink l id :
  NoDup (txn_id <$> l) -> find_txn (unlink_txn l id) id = None.
Proof.
  induction l as [|x l IH]; simpl; [done|].
  intros [Hx Hl]%NoDup_cons.
  destruct (String.eqb (txn_id x) id) eqn:Hid; simpl.
  - apply String.eqb_eq in Hid. subst id. by apply find_txn_None.
  - rewrite Hid. by apply IH.
Qed.

Lemma set_being_written_twice l id v v' :
  set_being_written (set_being_written l id v) id v'
  = set_being_written l id v'.
Proof.
  induction l as [|x l IH]; simpl; [done|].
  destruct (String.eqb (txn_id x) id) eqn:Hx; simpl; rewrite Hx; [done|].
  by rewrite IH.
Qed.

End registry_facts.

Section registry_claims.

(** X8.  [get_shared_txn] with CREATE_NEW hands back the object of the
    transaction asked for, and a later lookup without CREATE_NEW finds
    that same object.  An object made for the occasion is not being
    written.  The objects of the other transactions are untouched, and no
    transaction id comes to stand in the list twice. *)
Theorem get_shared_txn_registers (ffsd : fs_fs_shared_data_t) (id : string) :
  NoDup (registered ffsd) ->
  let r := get_shared_txn ffsd id true in
  (exists t, r.1 = Some t
             /\ txn_id t = id
             /\ get_shared_txn r.2 id false = (Some t, r.2)
             /\ (id ∉ registered ffsd -> being_written t = false))
  /\ (forall id', id' <> id ->
                  (get_shared_txn r.2 id' false).1
                  = (get_shared_txn ffsd id' false).1)
  /\ NoDup (registered r.2).
Proof.
  intros Hnodup. unfold get_shared_txn.
  destruct (find_txn (txns ffsd) id) as [t|] eqn:Hf; simpl.
  - split; [|split; [done|done]].
    exists t. rewrite Hf. destruct (find_txn_Some _ _ _ Hf) as [Hid Hin].
    repeat split; try done.
    intros Hnot. apply find_txn_None in Hnot. congruence.
  - rewrite String.eqb_refl. split; [|split].
    + by exists (mk_shared_txn id false).
    + intros id' Hne.
      assert (Hx : String.eqb id id' = false)
        by (apply String.eqb_neq; congruence).
      rewrite Hx. by destruct (find_txn (txns ffsd) id').
    + unfold registered. simpl. apply NoDup_cons. split; [|done].
      by apply find_txn_None.
Qed.

(** What [purge_shared_txn] leaves behind. *)
Lemma purge_shared_txn_facts (id : string) (fs : svn_fs_t) :
  NoDup (registered (fs_shared fs)) ->
  let r := purge_shared_txn id fs in
  r.1 = Ok tt
  /\ get_shared_txn (fs_shared r.2) id false = (None, fs_shared r.2)
  /\ is_being_written r.2 id = false
  /\ (forall id', id' <> id ->
                  (get_shared_txn (fs_shared r.2) id' false).1
                  = (get_shared_txn (fs_shared fs) id' false).1)
  /\ NoDup (registered (fs_shared r.2))
  /\ fs_proto_revs r.2 = fs_proto_revs fs
  /\ fs_revs r.2 = fs_revs fs
  /\ fs_current r.2 = fs_current fs.
Proof.
  intros Hnodup.
  unfold purge_shared_txn, with_txnlist_lock, modify_fs, free_shared_txn,
    is_being_written, get_shared_txn, registered.
  simpl. destruct (find_txn (txns (fs_shared fs)) id) as [t|] eqn:Hf; simpl.
  - rewrite (find_txn_unlink _ _ Hnodup). repeat split; try done.
    + intros id' Hne. rewrite find_txn_unlink_other by done.
      by destruct (find_txn _ id').
    + eapply sublist_NoDup; [exact Hnodup|apply unlink_txn_ids].
  - rewrite Hf. repeat split; done.
Qed.

(** X9.  After [purge_shared_txn] the registry no longer knows the
    transaction: a lookup finds nothing and the transaction does not count
    as being written.  The other transactions are found as before, and
    the files and the file 'current' are as they were. *)
Theorem purge_shared_txn_forgets (id : string) (fs : svn_fs_t) :
  NoDup (registered (fs_shared fs)) ->
  let r := purge_shared_txn id fs in
  r.1 = Ok tt
  /\ get_shared_txn (fs_shared r.2) id false = (None, fs_shared r.2)
  /\ is_being_written r.2 id = false
  /\ (forall id', id' <> id ->
                  (get_shared_txn (fs_shared r.2) id' false).1
                  = (get_shared_txn (fs_shared fs) id' false).1)
  /\ NoDup (registered (fs_shared r.2))
  /\ fs_proto_revs r.2 = fs_proto_revs fs
  /\ fs_revs r.2 = fs_revs fs
  /\ fs_current r.2 = fs_current fs.
Proof. apply purge_shared_txn_facts. Qed.

(** The ways [unlock_proto_rev] can end. *)
Lemma unlock_proto_rev_cases (io : lock_io) (id : string)
    (fs : svn_fs_t) :
  let r := unlock_proto_rev io id fs in
  (is_ok r.1 = true
   <-> is_being_written fs id = true
       /\ io_file_unlock io = APR_SUCCESS
       /\ io_close_lockfile io = APR_SUCCESS)
  /\ (is_ok r.1 = true -> is_being_written r.2 id = false)
  /\ (is_ok r.1 = false -> r.2 = fs)
  /\ (is_being_written fs id = false ->
      raised r.1 = Some SVN_ERR_FS_CORRUPT)
  /\ fs_proto_revs r.2 = fs_proto_revs fs.
Proof.
  unfold unlock_proto_rev, with_txnlist_lock, unlock_proto_rev_body, bind,
    get_fs, throw, mark_being_written, modify_fs, get_shared_txn,
    is_being_written.
  destruct (find_txn (txns (fs_shared fs)) id) as [t|] eqn:Hf; simpl.
  2:{ rewrite Hf. simpl. repeat split; try done. by intros (? & _). }
  destruct (being_written t) eqn:Hbw; simpl.
  2:{ repeat split; try done. by intros (? & _). }
  destruct (io_file_unlock io =? APR_SUCCESS)%Z eqn:Hu; simpl.
  2:{ apply Z.eqb_neq in Hu. repeat split; try done. by intros (_ & ? & _). }
  destruct (io_close_lockfile io =? APR_SUCCESS)%Z eqn:Hc; simpl.
  2:{ apply Z.eqb_neq in Hc. repeat split; try done. by intros (_ & _ & ?). }
  apply Z.eqb_eq in Hu, Hc.
  rewrite (find_txn_set_being_written _ id false t Hf). by repeat split.
Qed.

(** X10.  [unlock_proto_rev] succeeds exactly when the registry has the
    transaction as being written and the lock file could be unlocked and
    closed; then the transaction is no longer being written.  An unknown
    transaction, or one that is not being written, is a CORRUPT error, and
    whenever the function fails the filesystem is as it was.  The files
    are never touched. *)
Theorem unlock_proto_rev_outcome (io : lock_io) (id : string)
    (fs : svn_fs_t) :
  let r := unlock_proto_rev io id fs in
  (is_ok r.1 = true
   <-> is_being_written fs id = true
       /\ io_file_unlock io = APR_SUCCESS
       /\ io_close_lockfile io = APR_SUCCESS)
  /\ (is_ok r.1 = true -> is_being_written r.2 id = false)
  /\ (is_ok r.1 = false -> r.2 = fs)
  /\ (is_being_written fs id = false ->
      raised r.1 = Some SVN_ERR_FS_CORRUPT)
  /\ fs_proto_revs r.2 = fs_proto_revs fs.
Proof. apply unlock_proto_rev_cases. Qed.

(** X11.  Taking the proto-rev lock and giving it back is a round trip:
    when [get_writable_proto_rev] has succeeded and the lock file can be
    unlocked and closed, [unlock_proto_rev] with the cookie succeeds, the
    transaction is no longer being written, no file has changed, and the
    lock can be taken again, with the same file handle as before. *)
Theorem proto_rev_lock_round_trip (io : lock_io) (id : string)
    (fs fs1 : svn_fs_t) (file : apr_file_t) (cookie : string) :
  get_writable_proto_rev io id fs = (Ok (file, cookie), fs1) ->
  io_file_unlock io = APR_SUCCESS ->
  io_close_lockfile io = APR_SUCCESS ->
  exists fs2,
    unlock_proto_rev io cookie fs1 = (Ok tt, fs2)
    /\ is_being_written fs2 id = false
    /\ fs_proto_revs fs2 = fs_proto_revs fs
    /\ get_writable_proto_rev io id fs2 = (Ok (file, cookie), fs1).
Proof.
  intros Hget Hu Hc.
  unfold get_writable_proto_rev, with_txnlist_lock,
    get_writable_proto_rev_body in *.
  destruct (get_shared_txn_create (fs_shared fs) id)
    as (t & Hcreate & Hfind & _).
  rewrite Hcreate in Hget.
  set (ffsd := (get_shared_txn (fs_shared fs) id true).2) in *.
  destruct (being_written t) eqn:Hbw; [done|].
  destruct (negb (io_open_lockfile io =? APR_SUCCESS)%Z) eqn:Hopen; [done|].
  destruct (negb (io_file_lock io =? APR_SUCCESS)%Z) eqn:Hlock.
  { by destruct (APR_STATUS_IS_EAGAIN _). }
  unfold mark_being_written, modify_fs in Hget. simpl in Hget.
  unfold open_proto_rev_at_end, bind, get_fs, throw, ret in Hget.
  simpl in Hget.
  destruct (fs_proto_revs fs !! id) as [data|] eqn:Hdata.
  2:{ by destruct (unlock_proto_rev_list_locked _ _ _). }
  destruct (negb (io_open_proto_rev io =? APR_SUCCESS)%Z) eqn:Hop.
  { by destruct (unlock_proto_rev_list_locked _ _ _). }
  destruct (negb (io_seek_end io =? APR_SUCCESS)%Z) eqn:Hseek.
  { by destruct (unlock_proto_rev_list_locked _ _ _). }
  injection Hget as <- <- <-.
  pose proof (find_txn_set_being_written _ id true t Hfind) as Hset.
  destruct (find_txn_Some _ _ _ Hfind) as [Htid _].
  unfold unlock_proto_rev, with_txnlist_lock, unlock_proto_rev_body, bind,
    get_fs, throw, mark_being_written, modify_fs, get_shared_txn,
    is_being_written.
  simpl. rewrite Hset. simpl. rewrite Hu, Hc. simpl.
  eexists. split; [reflexivity|]. simpl.
  rewrite set_being_written_twice.
  rewrite (find_txn_set_being_written _ id false t Hfind). simpl.
  split; [done|]. split; [done|].
  unfold open_proto_rev_at_end, bind, get_fs, throw, ret. simpl.
  rewrite Hdata, Hop, Hseek. by rewrite set_being_written_twice.
Qed.

(** X12.  A failed [get_writable_proto_rev] does not leave a transaction
    marked that was not marked before, so long as the lock file can be
    unlocked and closed: if the proto-rev file cannot be opened after the
    lock was taken, the lock is given back.  The files are not touched. *)
Theorem get_writable_proto_rev_failure_releases (io : lock_io) (id : string)
    (fs : svn_fs_t) :
  is_being_written fs id = false ->
  io_file_unlock io = APR_SUCCESS ->
  io_close_lockfile io = APR_SUCCESS ->
  is_ok (get_writable_proto_rev io id fs).1 = false ->
  is_being_written (get_writable_proto_rev io id fs).2 id = false
  /\ fs_proto_revs (get_writable_proto_rev io id fs).2 = fs_proto_revs fs.
Proof.
  intros Hbw Hu Hc.
  unfold get_writable_proto_rev, with_txnlist_lock,
    get_writable_proto_rev_body, is_being_written in *.
  destruct (get_shared_txn_create (fs_shared fs) id)
    as (t & Hcreate & Hfind & Ht).
  rewrite Hcreate.
  set (ffsd := (get_shared_txn (fs_shared fs) id true).2) in *.
  assert (Hbwt : being_written t = false).
  { rewrite Ht. by destruct (find_txn (txns (fs_shared fs)) id). }
  rewrite Hbwt.
  destruct (negb (io_open_lockfile io =? APR_SUCCESS)%Z) eqn:Hopen.
  { simpl. by rewrite Hfind. }
  destruct (negb (io_file_lock io =? APR_SUCCESS)%Z) eqn:Hlock.
  { destruct (APR_STATUS_IS_EAGAIN _); simpl; by rewrite Hfind. }
  unfold mark_being_written, modify_fs. simpl.
  pose proof (find_txn_set_being_written _ id true t Hfind) as Hset.
  destruct (open_proto_rev_at_end io id _) as [[file|err] fs1] eqn:Hop.
  { done. }
  assert (fs1 = with_shared (with_shared fs ffsd)
                  (mk_shared (set_being_written (txns ffsd) id true)
                             (free_txn ffsd))) as ->.
  { revert Hop. unfold open_proto_rev_at_end, bind, get_fs, throw, ret.
    simpl.
    repeat (match goal with
            | |- context [match ?o with Some _ => _ | None => _ end] =>
                destruct o
            | |- context [if ?b then _ else _] => destruct b
            end); by intros [= <-]. }
  unfold unlock_proto_rev_list_locked, unlock_proto_rev_body, bind, get_fs,
    throw, mark_being_written, modify_fs, get_shared_txn.
  simpl. rewrite Hset. simpl. rewrite Hu, Hc. simpl. intros _.
  rewrite set_being_written_twice.
  by rewrite (find_txn_set_being_written _ id false t Hfind).
Qed.

End registry_claims.

Section registry_samples.

Lemma get_shared_txn_registers_witness :
  let r := get_shared_txn ex_registry "5-2" true in
  (exists t, r.1 = Some t
             /\ txn_id t = "5-2"
             /\ get_shared_txn r.2 "5-2" false = (Some t, r.2)
             /\ ("5-2" ∉ registered ex_registry -> being_written t = false))
  /\ (forall id', id' <> "5-2" ->
                  (get_shared_txn r.2 id' false).1
                  = (get_shared_txn ex_registry id' false).1)
  /\ NoDup (registered r.2).
Proof.
  apply (get_shared_txn_registers ex_registry "5-2").
  apply (bool_decide_unpack (NoDup (registered ex_registry))).
  vm_compute. exact I.
Defined.

Lemma purge_shared_txn_forgets_witness :
  let r := purge_shared_txn "4-3" ex_fs_registered in
  r.1 = Ok tt
  /\ get_shared_txn (fs_shared r.2) "4-3" false = (None, fs_shared r.2)
  /\ is_being_written r.2 "4-3" = false
  /\ (forall id', id' <> "4-3" ->
                  (get_shared_txn (fs_shared r.2) id' false).1
                  = (get_shared_txn (fs_shared ex_fs_registered) id' false).1)
  /\ NoDup (registered (fs_shared r.2))
  /\ fs_proto_revs r.2 = fs_proto_revs ex_fs_registered
  /\ fs_revs r.2 = fs_revs ex_fs_registered
  /\ fs_current r.2 = fs_current ex_fs_registered.
Proof.
  apply (purge_shared_txn_forgets "4-3" ex_fs_registered).
  apply (bool_decide_unpack (NoDup (registered ex_registry))).
  vm_compute. exact I.
Defined.

Lemma proto_rev_lock_round_trip_witness :
  exists fs2,
    unlock_proto_rev ex_lock_io "5-1" ex_opened.2 = (Ok tt, fs2)
    /\ is_being_written fs2 "5-1" = false
    /\ fs_proto_revs fs2 = fs_proto_revs ex_fs
    /\ get_writable_proto_rev ex_lock_io "5-1" fs2
       = (Ok (mk_file "5-1" 12, "5-1"), ex_opened.2).
Proof.
  apply (proto_rev_lock_round_trip ex_lock_io "5-1" ex_fs ex_opened.2
           (mk_file "5-1" 12) "5-1").
  - vm_compute. reflexivity.
  - reflexivity.
  - reflexivity.
Defined.

Lemma get_writable_proto_rev_failure_releases_witness :
  is_being_written
    (get_writable_proto_rev ex_lock_io "5-1" ex_fs_no_proto_rev).2 "5-1"
  = false
  /\ fs_proto_revs
       (get_writable_proto_rev ex_lock_io "5-1" ex_fs_no_proto_rev).2
     = fs_proto_revs ex_fs_no_proto_rev.
Proof.
  apply (get_writable_proto_rev_failure_releases ex_lock_io "5-1"
           ex_fs_no_proto_rev); reflexivity.
Defined.

End registry_samples.

(** ** The cleanup of an unfinished representation *)

Section rep_cleanup_claims.

Variable c : rep_callees.
Variable io : lock_io.

(** X13.  Giving up a representation that is being written:
    after [rep_write_get_baton] and any number of writes,
    [rep_write_cleanup] truncates the proto-rev file of the transaction at
    the offset where the representation began.  When the truncation
    reports no error, the file has the bytes it had before the header of
    the representation was written; when moreover the lock file can be
    unlocked and closed the transaction is no longer being written, and
    when the proto-rev file can be closed as well the cleanup reports
    success.  When the truncation reports an error, the status of that
    error is what the cleanup returns, and the lock is released all the
    same: when the lock file can be unlocked and closed the transaction is
    no longer being written. *)
Theorem rep_write_cleanup_restores (txn : string) (noderev : node_revision_t)
    (chunks : list bytes) (fs fs1 fs2 : svn_fs_t) (b b' : rep_write_baton) :
  rep_write_get_baton c io txn noderev fs = (Ok b, fs1) ->
  rep_write_stream c b chunks fs1 = (Ok b', fs2) ->
  let r := rep_write_cleanup c io b' fs2 in
  let before := proto_rev_data fs txn in
  (io_file_trunc c (b_file b') (b_rep_offset b') = None ->
   proto_rev_data r.2 txn = before
   /\ (io_file_unlock io = APR_SUCCESS ->
       io_close_lockfile io = APR_SUCCESS ->
       is_being_written r.2 txn = false
       /\ (svn_io_file_close c (mk_file txn (length before)) = None ->
           r.1 = None)))
  /\ (forall err,
        io_file_trunc c (b_file b') (b_rep_offset b') = Some err ->
        r.1 = Some (apr_err err)
        /\ (io_file_unlock io = APR_SUCCESS ->
            io_close_lockfile io = APR_SUCCESS ->
            is_being_written r.2 txn = false)).
Proof.
  intros Hbaton Hstream r before.
  pose proof (rep_write_get_baton_marks c io _ _ _ _ _ Hbaton) as Hmark.
  apply rep_write_get_baton_ok in Hbaton.
  destruct Hbaton as (Hname & Htxn & _ & Hoff & Hend & _ & _ & header & Hdata).
  pose proof (rep_write_stream_shared c _ _ _ _ _ Hstream) as Hshared.
  apply rep_write_stream_ok in Hstream; [|done].
  destruct Hstream as (Hname' & Htxn' & _ & Hoff' & _ & _ & _ & body & Hdata').
  rewrite Hname, Hdata in Hdata'. fold before in Hdata', Hoff.
  subst r. unfold rep_write_cleanup. rewrite Htxn', Htxn.
  unfold svn_io_file_trunc.
  split.
  - intros ->. rewrite Hname', Hname, Hoff', Hoff, Nat2Z.id.
    rewrite Hdata', <- app_assoc, take_app_length.
    set (fs3 := with_proto_revs fs2 _).
    pose proof (unlock_proto_rev_cases io txn fs3)
      as (Hiff & Hoff3 & _ & _ & Hfiles).
    destruct (unlock_proto_rev io txn fs3) as [unlocked fs4] eqn:Hunlock.
    simpl in *.
    assert (Hbefore : proto_rev_data fs4 txn = before).
    { unfold proto_rev_data. rewrite Hfiles. subst fs3. simpl.
      by rewrite lookup_insert_eq. }
    split; [done|]. intros Hu Hc.
    assert (Hok : is_ok unlocked = true).
    { apply Hiff. split; [|done]. subst fs3. unfold is_being_written in *.
      simpl. by rewrite Hshared. }
    split; [by apply Hoff3|].
    intros Hclose. rewrite Hclose. by destruct unlocked.
  - intros err ->.
    pose proof (unlock_proto_rev_cases io txn fs2) as (Hiff & Hoff3 & _).
    destruct (unlock_proto_rev io txn fs2) as [unlocked fs4] eqn:Hunlock.
    simpl in *. split; [done|]. intros Hu Hc. apply Hoff3, Hiff.
    split; [|done]. unfold is_being_written in *. by rewrite Hshared.
Qed.

End rep_cleanup_claims.

Section rep_cleanup_samples.

Lemma rep_write_cleanup_restores_witness :
  (let r := rep_write_cleanup (ex_rep_callees None) ex_lock_io ex_b
                              ex_written.2 in
   proto_rev_data r.2 "5-1" = proto_rev_data ex_fs "5-1"
   /\ is_being_written r.2 "5-1" = false
   /\ r.1 = None)
  /\ (let r := rep_write_cleanup ex_trunc_fails ex_lock_io ex_b
                                 ex_written.2 in
      r.1 = Some (apr_err ex_trunc_error)
      /\ is_being_written r.2 "5-1" = false).
Proof.
  cbv zeta. split.
  - destruct (rep_write_cleanup_restores (ex_rep_callees None) ex_lock_io
                "5-1" ex_file_noderev ex_chunks ex_fs ex_baton.2
                ex_written.2 ex_b0 ex_b) as [Hworks _];
      [by vm_compute..|].
    destruct Hworks as [Hdata Hrest]; [reflexivity|].
    destruct Hrest as [Hfree Hnone]; [reflexivity..|].
    split; [exact Hdata|]. split; [exact Hfree|]. by apply Hnone.
  - destruct (rep_write_cleanup_restores ex_trunc_fails ex_lock_io
                "5-1" ex_file_noderev ex_chunks ex_fs ex_baton.2
                ex_written.2 ex_b0 ex_b) as [_ Hfails];
      [by vm_compute..|].
    destruct (Hfails ex_trunc_error) as [Herr Hfree]; [reflexivity|].
    split; [exact Herr|]. by apply Hfree.
Defined.

End rep_cleanup_samples.

(** ** What a commit saves for the rep-cache *)

Section keeps_facts.

Variable rev : svn_revnum_t.

Lemma saved_for_same_cache cs cs' :
  cs_reps_to_cache cs' = cs_reps_to_cache cs ->
  saved_for rev cs -> saved_for rev cs'.
Proof. unfold saved_for. by intros ->. Qed.

Lemma keeps_same_cache {A : Type} (m : commit_action A) :
  (forall cs r cs', m cs = (r, cs') ->
                    cs_reps_to_cache cs' = cs_reps_to_cache cs) ->
  keeps (saved_for rev) m.
Proof.
  intros Hm cs r cs' HI H. eapply saved_for_same_cache; [|exact HI].
  by eapply Hm.
Qed.

Lemma keeps_ret {A : Type} (a : A) : keeps (saved_for rev) (ret a).
Proof. apply keeps_same_cache. by intros cs r cs' [= _ <-]. Qed.

Lemma keeps_throw {A : Type} e : keeps (saved_for rev) (throw (A := A) e).
Proof. apply keeps_same_cache. by intros cs r cs' [= _ <-]. Qed.

Lemma keeps_lift {A : Type} (x : svn_result A) : keeps (saved_for rev) (lift x).
Proof. apply keeps_same_cache. by intros cs r cs' [= _ <-]. Qed.

Lemma keeps_attempt x : keeps (saved_for rev) (attempt x).
Proof.
  apply keeps_same_cache. intros cs r cs'. unfold attempt.
  by destruct x; intros [= _ <-].
Qed.

Lemma keeps_get_cs : keeps (saved_for rev) get_cs.
Proof. apply keeps_same_cache. by intros cs r cs' [= _ <-]. Qed.

Lemma keeps_bind {A B : Type} (m : commit_action A)
    (k : A -> commit_action B) :
  keeps (saved_for rev) m -> (forall a, keeps (saved_for rev) (k a)) ->
  keeps (saved_for rev) (bind m k).
Proof.
  intros Hm Hk cs r cs' HI. unfold bind.
  destruct (m cs) as [[a|e] cs1] eqn:H1.
  - intros H2. eapply Hk; [|exact H2]. by eapply Hm.
  - intros [= _ <-]. by eapply Hm.
Qed.

Lemma keeps_bind_lift {A B : Type} (x : svn_result A)
    (k : A -> commit_action B) :
  (forall a, x = Ok a -> keeps (saved_for rev) (k a)) ->
  keeps (saved_for rev) (bind (lift x) k).
Proof.
  intros Hk cs r cs' HI. unfold bind, lift. destruct x as [a|e].
  - by apply Hk.
  - by intros [= _ <-].
Qed.

Lemma keeps_on_fs {A : Type} (m : fs_action A) :
  keeps (saved_for rev) (on_fs m).
Proof.
  apply keeps_same_cache. intros cs r cs'. unfold on_fs.
  destruct (m (cs_fs cs)) as [r1 fs1]. by intros [= _ <-].
Qed.

Lemma keeps_on_file {A : Type}
    (m : apr_file_t -> fs_action (A * apr_file_t)) :
  keeps (saved_for rev) (on_file m).
Proof.
  apply keeps_same_cache. intros cs r cs'. unfold on_file.
  destruct (m (cs_file cs) (cs_fs cs)) as [[[a file]|e] fs1];
    by intros [= _ <-].
Qed.

Lemma keeps_push_rep_to_cache rep :
  rep_revision rep = rev -> keeps (saved_for rev) (push_rep_to_cache rep).
Proof.
  intros Hrep cs r cs' HI. unfold push_rep_to_cache.
  destruct (cs_reps_to_cache cs) as [reps|] eqn:Hreps.
  - intros [= _ <-] reps' [= <-]. apply Forall_app. split; [by apply HI|].
    by apply Forall_singleton.
  - by intros [= _ <-].
Qed.

Lemma keeps_add_to_reps_hash rep : keeps (saved_for rev) (add_to_reps_hash rep).
Proof. apply keeps_same_cache. by intros cs r cs' [= _ <-]. Qed.

End keeps_facts.

(** Decompose a goal [keeps (saved_for rev) m] along the shape of M. *)
Ltac keeps_step :=
  first
    [ apply keeps_ret | apply keeps_throw | apply keeps_lift
    | apply keeps_attempt | apply keeps_get_cs
    | apply keeps_on_fs | apply keeps_on_file
    | apply keeps_add_to_reps_hash
    | apply keeps_bind; [|intros ?]
    | match goal with
      | |- keeps _ (if ?b then _ else _) => destruct b
      | |- keeps _ (match ?x with _ => _ end) => destruct x
      end ].

Section keeps_commit.

Variable c : rep_callees.
Variable cc : commit_callees.
Variable io : lock_io.
Variable rev : svn_revnum_t.

Lemma keeps_remember_new_reps ffd noderev :
  keeps (saved_for rev) (remember_new_reps ffd rev noderev).
Proof.
  unfold remember_new_reps.
  destruct (rep_sharing_allowed ffd); [|apply keeps_ret].
  apply keeps_bind; [|intros _].
  - destruct (nr_data_rep noderev) as [data_rep|]; [|apply keeps_ret].
    destruct (bool_decide _); [|apply keeps_ret]. simpl.
    destruct (rep_revision data_rep =? rev)%Z eqn:Hrev; [|apply keeps_ret].
    apply keeps_push_rep_to_cache. by apply Z.eqb_eq.
  - destruct (nr_prop_rep noderev) as [prop_rep|]; [|apply keeps_ret].
    destruct (rep_revision prop_rep =? rev)%Z eqn:Hrev; [|apply keeps_ret].
    apply keeps_bind; [|intros _; apply keeps_add_to_reps_hash].
    apply keeps_push_rep_to_cache. by apply Z.eqb_eq.
Qed.

Lemma keeps_write_hash deltify rep dump noderev reps_hash props :
  keeps (saved_for rev) (write_hash c deltify rep dump noderev reps_hash props).
Proof. apply keeps_on_file. Qed.

Lemma keeps_write_dir_rep noderev entries :
  keeps (saved_for rev) (write_dir_rep c cc rev noderev entries).
Proof.
  unfold write_dir_rep. repeat first [apply keeps_write_hash | keeps_step].
Qed.

Lemma keeps_stamp_file_rep initial_offset noderev :
  keeps (saved_for rev) (stamp_file_rep rev initial_offset noderev).
Proof. unfold stamp_file_rep. repeat keeps_step. Qed.

Lemma keeps_write_prop_rep noderev :
  keeps (saved_for rev) (write_prop_rep c cc rev noderev).
Proof.
  unfold write_prop_rep. repeat first [apply keeps_write_hash | keeps_step].
Qed.

Lemma keeps_finish_noderev start_node_id start_copy_id noderev at_root :
  keeps (saved_for rev)
        (finish_noderev cc rev start_node_id start_copy_id noderev at_root).
Proof.
  unfold finish_noderev, write_to_file.
  repeat first [apply keeps_remember_new_reps | keeps_step].
Qed.

Lemma keeps_write_children write_child l :
  Forall (fun p => forall id, keeps (saved_for rev) (write_child p.2 id)) l ->
  keeps (saved_for rev) (write_children rev write_child l).
Proof.
  induction 1 as [|[dirent child] l Hchild _ IH]; simpl; [apply keeps_ret|].
  apply keeps_bind; [apply Hchild|]. intros new_id.
  apply keeps_bind; [apply IH|]. intros rest. apply keeps_ret.
Qed.

Lemma keeps_write_final_rev start_node_id start_copy_id initial_offset node :
  forall id at_root,
    keeps (saved_for rev)
          (write_final_rev c cc rev start_node_id start_copy_id
                           initial_offset node id at_root).
Proof.
  induction node as [err|noderev err|noderev l IH] using txn_tree_ind;
    intros id at_root; simpl;
    (destruct (negb (svn_fs_fs__id_is_txn id)); [apply keeps_ret|]).
  - apply keeps_throw.
  - apply keeps_bind; [|intros nr1].
    + destruct (bool_decide _); [|apply keeps_stamp_file_rep].
      apply keeps_bind_lift. intros entries [=].
    + apply keeps_bind; [apply keeps_write_prop_rep|].
      intros nr2. apply keeps_finish_noderev.
  - apply keeps_bind; [|intros nr1].
    + destruct (bool_decide _); [|apply keeps_stamp_file_rep].
      apply keeps_bind_lift. intros entries [= <-].
      apply keeps_bind; [|intros ?; apply keeps_write_dir_rep].
      apply keeps_write_children.
      eapply Forall_impl; [exact IH|]. intros p Hp id'. apply Hp.
    + apply keeps_bind; [apply keeps_write_prop_rep|].
      intros nr2. apply keeps_finish_noderev.
Qed.

Lemma keeps_modify_cs_file file :
  keeps (saved_for rev)
        (modify_cs (fun cs => mk_cs (cs_fs cs) file (cs_new_rev cs)
                                    (cs_reps_to_cache cs) (cs_reps_hash cs))).
Proof. apply keeps_same_cache. by intros cs r cs' [= _ <-]. Qed.

Lemma keeps_modify_cs_publish new_rev :
  keeps (saved_for rev)
        (modify_cs (fun cs =>
           mk_cs (with_youngest_rev_cache (cs_fs cs) new_rev) (cs_file cs)
                 (Some new_rev) (cs_reps_to_cache cs) (cs_reps_hash cs))).
Proof. apply keeps_same_cache. by intros cs r cs' [= _ <-]. Qed.

(** What [svn_fs_fs__youngest_rev] returns is the revision in
    'current', and it changes nothing. *)
Lemma youngest_rev_ok cs old cs1 :
  on_fs (svn_fs_fs__youngest_rev cc) cs = (Ok old, cs1) ->
  old = current_rev (fs_current (cs_fs cs)) /\ cs1 = cs.
Proof.
  unfold on_fs, svn_fs_fs__youngest_rev, bind, attempt, get_fs, ret.
  destruct (read_current cc); [done|]. simpl.
  intros [= <- <-]. by destruct cs.
Qed.

End keeps_commit.

Section saved_reps_claims.

Variable c : rep_callees.
Variable cc : commit_callees.
Variable io : lock_io.

Lemma commit_body_keeps_saved (txn : svn_fs_txn_t) (set_timestamp : bool)
    (root : txn_tree) (cs : commit_state) (r : svn_result unit)
    (cs' : commit_state) :
  let rev := (current_rev (fs_current (cs_fs cs)) + 1)%Z in
  saved_for rev cs ->
  commit_body c cc io txn set_timestamp root cs = (r, cs') ->
  saved_for rev cs'.
Proof.
  intros rev Hstart H. unfold commit_body in H.
  apply bind_cases in H as [(old & cs1 & Hyoung & H)|(e & Hyoung & _)].
  2:{ eapply (keeps_on_fs rev); [exact Hstart|exact Hyoung]. }
  apply youngest_rev_ok in Hyoung as [-> ->]. fold rev in H.
  assert (Happly : forall m : commit_action unit,
             keeps (saved_for rev) m -> m cs = (r, cs') -> saved_for rev cs').
  { intros m Hm Hrun. by eapply Hm. }
  apply Happly in H; [done|]. clear.
  unfold write_final_changed_path_info, write_to_file,
    verify_as_revision_before_current_plus_plus.
  repeat first [ apply keeps_write_final_rev | apply keeps_modify_cs_file
               | apply keeps_modify_cs_publish | keeps_step ].
Qed.

(** X14.  Whatever way [commit_body] ends, the representations it has
    saved for the rep-cache all carry the number of the new revision, the
    revision of 'current' plus one: no representation of an earlier
    revision is among those [svn_fs_fs__commit] goes on to hand to the
    rep-cache. *)
Theorem commit_saves_only_new_reps (txn : svn_fs_txn_t) (set_timestamp : bool)
    (root : txn_tree) (fs : svn_fs_t) (r : svn_result unit)
    (cs' : commit_state) :
  commit_body c cc io txn set_timestamp root (commit_baton fs) = (r, cs') ->
  saved_for (current_rev (fs_current fs) + 1)%Z cs'.
Proof.
  intros H.
  assert (Hfs : cs_fs (commit_baton fs) = fs).
  { unfold commit_baton. by destruct (rep_sharing_allowed _). }
  rewrite <- Hfs. eapply commit_body_keeps_saved; [|exact H].
  unfold commit_baton, saved_for.
  destruct (rep_sharing_allowed (fs_ffd fs)); simpl; [|done].
  by intros reps [= <-].
Qed.

End saved_reps_claims.

Section saved_reps_samples.

Lemma commit_saves_only_new_reps_witness : saved_for 6%Z ex_changed_body.2.
Proof.
  apply (commit_saves_only_new_reps (ex_rep_callees None) ex_commit_callees
           ex_lock_io (mk_txn "5-1" 5) false ex_changed_root ex_fs
           ex_changed_body.1 ex_changed_body.2).
  apply surjective_pairing.
Defined.

End saved_reps_samples.

(** ** What a commit has published when it returns *)

(** One more call of a sequence that has published nothing so far. *)
Ltac quiet_next H cs0 a cs1 Q :=
  apply (bind_quiet_cases _ _ cs0) in H as [(a & cs1 & Q & _ & H)|?];
  [ | by left | first [assumption | apply unpublished_refl]
    | solve [ repeat first
                [ apply quiet_write_final_rev
                | apply quiet_write_final_changed_path_info
                | apply quiet_write_to_file
                | apply quiet_fs_get_next_revision_ids
                | apply quiet_fs_move_proto_rev
                | quiet_step
                | by intros ? ? ? [= _ <-] ] ] ].

Section publication_facts.

Variable c : rep_callees.
Variable cc : commit_callees.
Variable io : lock_io.

(** A failed [write_final_current] has written nothing. *)
Lemma write_final_current_raise txn rev start_node_id start_copy_id fs e fs' :
  write_final_current cc txn rev start_node_id start_copy_id fs
  = (Raise e, fs') ->
  fs' = fs.
Proof.
  unfold write_final_current, svn_fs_fs__write_current, bind, get_fs, lift,
    attempt, modify_fs.
  destruct (_ <=? _)%Z.
  - destruct (write_current cc); [by intros [= _ <-]|done].
  - destruct (txn_next_ids cc); [|by intros [= _ <-]].
    destruct (write_current cc); [by intros [= _ <-]|done].
Qed.

(** The two ways a commit can stand when [commit_body] returns: nothing
    published, and then it has failed, or the new revision out. *)
Lemma commit_body_publication (txn : svn_fs_txn_t) (set_timestamp : bool)
    (root : txn_tree) (cs : commit_state) (r : svn_result unit)
    (cs' : commit_state) :
  commit_body c cc io txn set_timestamp root cs = (r, cs') ->
  let old_rev := current_rev (fs_current (cs_fs cs)) in
  (is_ok r = false /\ unpublished cs cs')
  \/ (published (old_rev + 1)%Z cs' /\ base_rev txn = old_rev).
Proof.
  intros H old_rev. unfold commit_body in H.
  apply (bind_quiet_cases _ _ cs) in H
    as [(old & cs1 & Q1 & Hyoung & H)|?];
    [|by left|apply unpublished_refl|apply quiet_on_fs, quiet_fs_youngest_rev].
  apply youngest_rev_ok in Hyoung as [-> ->]. fold old_rev in H.
  destruct (base_rev txn =? old_rev)%Z eqn:Hbase; simpl in H.
  2:{ left. injection H as <- <-. split; [done|apply unpublished_refl]. }
  apply Z.eqb_eq in Hbase.
  quiet_next H cs u1 cs2 Q2.
  quiet_next H cs cs0 cs3 Q3.
  quiet_next H cs start_ids cs4 Q4.
  destruct start_ids as [start_node_id start_copy_id].
  quiet_next H cs opened cs5 Q5.
  destruct opened as [proto_file cookie].
  quiet_next H cs u2 cs6 Q6.
  quiet_next H cs new_root_id cs7 Q7.
  quiet_next H cs changed_path_offset cs8 Q8.
  quiet_next H cs u3 cs9 Q9.
  quiet_next H cs u4 cs10 Q10.
  quiet_next H cs csa cs11 Q11.
  quiet_next H cs u5 cs12 Q12.
  quiet_next H cs flags cs13 Q13.
  quiet_next H cs u6 cs14 Q14.
  quiet_next H cs u7 cs15 Q15.
  quiet_next H cs u8 cs16 Q16.
  quiet_next H cs u9 cs17 Q17.
  quiet_next H cs u10 cs18 Q18.
  quiet_next H cs u11 cs19 Q19.
  quiet_next H cs u12 cs20 Q20.
  apply bind_cases in H as [(u13 & cs21 & Hcur & H)|(e & Hcur & ->)].
  2:{ left. split; [done|]. unfold on_fs in Hcur.
      destruct (write_final_current _ _ _ _ _ _) as [r1 fs1] eqn:Hwfc.
      injection Hcur as -> <-. apply write_final_current_raise in Hwfc as ->.
      by destruct cs20. }
  right. split; [|done].
  unfold on_fs in Hcur.
  destruct (write_final_current _ _ _ _ _ _) as [r1 fs1] eqn:Hwfc.
  injection Hcur as -> <-.
  apply write_final_current_ok in Hwfc as (Hrev & _ & _).
  unfold bind, modify_cs in H.
  apply (quiet_on_fs _ (quiet_fs_purge_txn cc _)) in H
    as (Hcurrent & Hcache & _ & Hnew).
  unfold published. simpl in *. by rewrite Hcurrent, Hcache, Hnew, Hrev.
Qed.

End publication_facts.

Section publication_claims.

Variable c : rep_callees.
Variable cc : commit_callees.
Variable io : lock_io.
Variable ec : commit_entry_callees.

(** X15.  When [svn_fs_fs__commit] returns, the cell NEW_REV_P points to
    tells what has happened.  Either it has not been written, and then
    the commit has failed and 'current' is what it was; or it holds the
    head revision plus one, and then
    'current' names that revision, the cache has it, and the transaction
    was based on the head, whether or not an error is returned: an error
    of the cleanup or of the rep-cache comes after the revision is out. *)
Theorem commit_reports_what_it_published (txn : svn_fs_txn_t)
    (set_timestamp : bool) (root : txn_tree) (fs : svn_fs_t)
    (r : svn_result unit) (cs' : commit_state) :
  svn_fs_fs__commit c cc io ec txn set_timestamp root fs = (r, cs') ->
  let old_rev := current_rev (fs_current fs) in
  (is_ok r = false
   /\ cs_new_rev cs' = None
   /\ fs_current (cs_fs cs') = fs_current fs)
  \/ (published (old_rev + 1)%Z cs' /\ base_rev txn = old_rev).
Proof.
  intros H old_rev.
  assert (Hfs : cs_fs (commit_baton fs) = fs
                /\ cs_new_rev (commit_baton fs) = None).
  { unfold commit_baton. by destruct (rep_sharing_allowed _). }
  destruct Hfs as [Hfs Hnew].
  unfold svn_fs_fs__commit, svn_fs_fs__with_write_lock in H.
  apply bind_cases in H as [(u & cs1 & Hbody & H)|(e & Hbody & ->)].
  - apply bind_cases in Hbody as [(u0 & cs0 & Hlock & Hbody)|(e & Hlock & [=])].
    apply attempt_ok in Hlock as [_ ->].
    apply commit_body_publication in Hbody as [[[=] _]|Hpub].
    rewrite Hfs in Hpub. right.
    assert (cs' = cs1) as ->; [|done].
    revert H. unfold bind, get_cs, attempt, ret.
    repeat (match goal with
            | |- context [if ?b then _ else _] => destruct b
            | |- context [match ?x with Some _ => _ | None => _ end] =>
                destruct x
            end); by intros [= _ <-].
  - apply bind_cases in Hbody as [(u0 & cs0 & Hlock & Hbody)|(e' & Hlock & _)].
    + apply attempt_ok in Hlock as [_ ->].
      apply commit_body_publication in Hbody as [[_ Hq]|Hpub].
      * left. destruct Hq as (Hcur & _ & _ & Hn).
        rewrite Hcur, Hn, Hfs. by repeat split.
      * rewrite Hfs in Hpub. by right.
    + left. unfold attempt in Hlock.
      destruct (get_write_lock ec); [|done]. injection Hlock as _ <-.
      by rewrite Hfs.
Qed.

End publication_claims.

Section publication_samples.

Lemma commit_reports_what_it_published_witness :
  (is_ok (ex_changed_commit ex_entry_callees_no_cache).1 = false
   /\ cs_new_rev (ex_changed_commit ex_entry_callees_no_cache).2 = None
   /\ fs_current (cs_fs (ex_changed_commit ex_entry_callees_no_cache).2)
      = fs_current ex_fs)
  \/ (published (5 + 1)%Z (ex_changed_commit ex_entry_callees_no_cache).2
      /\ base_rev (mk_txn "5-1" 5) = 5%Z).
Proof.
  apply (commit_reports_what_it_published (ex_rep_callees None)
           ex_commit_callees ex_lock_io ex_entry_callees_no_cache
           (mk_txn "5-1" 5) false ex_changed_root ex_fs
           (ex_changed_commit ex_entry_callees_no_cache).1
           (ex_changed_commit ex_entry_callees_no_cache).2).
  apply surjective_pairing.
Defined.

End publication_samples.

(** ** The layout of the revision file a commit leaves *)

Section grows_facts.

Lemma grows_same {A : Type} (m : commit_action A) :
  (forall cs a cs', m cs = (Ok a, cs') ->
                    cs_fs cs' = cs_fs cs /\ cs_file cs' = cs_file cs) ->
  grows m.
Proof.
  intros Hm cs a cs' Hend H. destruct (Hm _ _ _ H) as [-> ->].
  split; [done|]. split; [done|]. exists []. by rewrite app_nil_r.
Qed.

Lemma grows_ret {A : Type} (a : A) : grows (ret a).
Proof. apply grows_same. by intros cs b cs' [= _ <-]. Qed.

Lemma grows_throw {A : Type} e : grows (throw (A := A) e).
Proof. by intros cs a cs' _ [=]. Qed.

Lemma grows_lift {A : Type} (x : svn_result A) : grows (lift x).
Proof. apply grows_same. by intros cs b cs' [= _ <-]. Qed.

Lemma grows_attempt x : grows (attempt x).
Proof.
  apply grows_same. intros cs b cs'. unfold attempt.
  destruct x; [done|]. by intros [= _ <-].
Qed.

Lemma grows_get_cs : grows get_cs.
Proof. apply grows_same. by intros cs b cs' [= _ <-]. Qed.

Lemma grows_bind {A B : Type} (m : commit_action A)
    (k : A -> commit_action B) :
  grows m -> (forall a, grows (k a)) -> grows (bind m k).
Proof.
  intros Hm Hk cs b cs' Hend H.
  apply bind_ok in H as (a & cs1 & H1 & H2).
  destruct (Hm _ _ _ Hend H1) as (Hn1 & Hend1 & more1 & Hd1).
  destruct (Hk a _ _ _ Hend1 H2) as (Hn2 & Hend2 & more2 & Hd2).
  rewrite Hn1 in Hd2, Hn2. split; [done|]. split; [done|].
  exists (more1 ++ more2). by rewrite Hd2, Hd1, app_assoc.
Qed.

Lemma grows_bind_lift {A B : Type} (x : svn_result A)
    (k : A -> commit_action B) :
  (forall a, x = Ok a -> grows (k a)) -> grows (bind (lift x) k).
Proof.
  intros Hk cs b cs' Hend. unfold bind, lift. destruct x as [a|e]; [|done].
  by apply Hk.
Qed.

Lemma grows_on_file {A : Type}
    (m : apr_file_t -> fs_action (A * apr_file_t)) :
  grows_file m -> grows (on_file m).
Proof.
  intros Hm cs a cs' Hend. unfold on_file.
  destruct (m (cs_file cs) (cs_fs cs)) as [[[a' file']|e] fs'] eqn:H;
    [|done].
  intros [= <- <-]. simpl. by eapply Hm.
Qed.

Lemma grows_push_rep_to_cache rep : grows (push_rep_to_cache rep).
Proof.
  apply grows_same. intros cs a cs'. unfold push_rep_to_cache.
  destruct (cs_reps_to_cache cs); [|done]. by intros [= _ <-].
Qed.

Lemma grows_add_to_reps_hash rep : grows (add_to_reps_hash rep).
Proof. apply grows_same. by intros cs a cs' [= _ <-]. Qed.

(** [write_to_file] at the end of the file appends. *)
Lemma write_to_file_ok data cs u cs' :
  at_end (cs_file cs) (cs_fs cs) ->
  write_to_file data cs = (Ok u, cs') ->
  file_name (cs_file cs') = file_name (cs_file cs)
  /\ at_end (cs_file cs') (cs_fs cs')
  /\ proto_rev_data (cs_fs cs') (file_name (cs_file cs))
     = proto_rev_data (cs_fs cs) (file_name (cs_file cs)) ++ data
  /\ fs_revs (cs_fs cs') = fs_revs (cs_fs cs)
  /\ fs_shared (cs_fs cs') = fs_shared (cs_fs cs).
Proof.
  intros Hend. unfold write_to_file, on_file, bind, ret.
  rewrite (file_write_at_end _ _ _ Hend). intros [= _ <-]. simpl.
  split; [done|]. split; [by apply at_end_after_write|].
  by rewrite proto_rev_data_insert.
Qed.

Lemma grows_write_to_file data : grows (write_to_file data).
Proof.
  intros cs u cs' Hend H.
  destruct (write_to_file_ok _ _ _ _ Hend H) as (H1 & H2 & H3 & _).
  split; [done|]. split; [done|]. by exists data.
Qed.

End grows_facts.

(** Decompose a goal [grows m] along the shape of M. *)
Ltac grows_step :=
  first
    [ apply grows_ret | apply grows_throw | apply grows_lift
    | apply grows_attempt | apply grows_get_cs
    | apply grows_push_rep_to_cache | apply grows_add_to_reps_hash
    | apply grows_write_to_file
    | apply grows_bind; [|intros ?]
    | match goal with
      | |- grows (if ?b then _ else _) => destruct b
      | |- grows (match ?x with _ => _ end) => destruct x
      end ].

Section grows_writers.

Variable c : rep_callees.
Variable cc : commit_callees.
Variable io : lock_io.

Lemma grows_write_hash_rep rep hash_dump reps_hash :
  grows_file (fun file => write_hash_rep c rep file hash_dump reps_hash).
Proof.
  intros file fs rep' file' fs' Hend H.
  apply write_hash_rep_ok in H as (Hend' & Hname & _ & old_rep & _ & Hres);
    [|done].
  split; [done|]. split; [done|].
  destruct old_rep as [old|]; destruct Hres as [-> _].
  - exists []. by rewrite app_nil_r.
  - by eexists.
Qed.

Lemma grows_write_hash_delta_rep rep hash_dump noderev reps_hash props :
  grows_file (fun file => write_hash_delta_rep c rep file hash_dump noderev
                                               reps_hash props).
Proof.
  intros file fs rep' file' fs' Hend H. unfold write_hash_delta_rep in H.
  step H as fsa fsb Hget. step H as base_rep fsc Hbase.
  step H as source fsd Hsource.
  step H as file1 fs1 Hw1.
  rewrite (file_write_at_end _ _ _ Hend) in Hw1. injection Hw1 as <- <-.
  pose proof (at_end_after_write _ (svn_fs_fs__write_rep_header c
                                      (header_of base_rep)) _ Hend) as Hend1.
  step H as file2 fs2 Hw2.
  rewrite (file_write_at_end _ _ _ Hend1) in Hw2. injection Hw2 as <- <-.
  pose proof (at_end_after_write _ (svndiff_window c source hash_dump) _ Hend1)
    as Hend2.
  step H as file3 fs3 Hw3.
  rewrite (file_write_at_end _ _ _ Hend2) in Hw3. injection Hw3 as <- <-.
  pose proof (at_end_after_write _ (svndiff_close c source hash_dump) _ Hend2)
    as Hend3.
  cbn [file_name] in *. rewrite !proto_rev_data_insert in *.
  step H as old_rep fse Hshared.
  destruct old_rep as [old|].
  - step H as file4 fs4 Htrunc. apply ret_ok in H as [[= _ ->] ->].
    unfold svn_io_file_trunc in Htrunc.
    destruct (io_file_trunc c _ _); [done|]. injection Htrunc as <- <-.
    unfold at_end, svn_fs_fs__get_file_offset.
    cbn [file_name file_pos rep_offset with_checksums with_offset].
    rewrite !proto_rev_data_insert, !Nat2Z.id.
    unfold at_end in Hend. rewrite !Hend, <- !app_assoc, !take_app_length.
    split; [done|]. split; [done|]. exists []. by rewrite app_nil_r.
  - step H as file4 fs4 Hw4. apply ret_ok in H as [[= _ ->] ->].
    rewrite (file_write_at_end _ _ _ Hend3) in Hw4. injection Hw4 as <- <-.
    pose proof (at_end_after_write _ (bytes_of ("ENDREP" +:+ LF)) _ Hend3)
      as Hend4.
    cbn [file_name] in *. rewrite !proto_rev_data_insert in *.
    split; [done|]. split; [done|]. eexists. by rewrite <- !app_assoc.
Qed.

Lemma grows_write_hash deltify rep dump noderev reps_hash props :
  grows (write_hash c deltify rep dump noderev reps_hash props).
Proof.
  unfold write_hash. apply grows_on_file.
  destruct deltify;
    [apply grows_write_hash_delta_rep | apply grows_write_hash_rep].
Qed.

Lemma grows_remember_new_reps ffd rev noderev :
  grows (remember_new_reps ffd rev noderev).
Proof. unfold remember_new_reps. repeat grows_step. Qed.

Lemma grows_write_dir_rep rev noderev entries :
  grows (write_dir_rep c cc rev noderev entries).
Proof.
  unfold write_dir_rep. repeat first [apply grows_write_hash | grows_step].
Qed.

Lemma grows_stamp_file_rep rev initial_offset noderev :
  grows (stamp_file_rep rev initial_offset noderev).
Proof. unfold stamp_file_rep. repeat grows_step. Qed.

Lemma grows_write_prop_rep rev noderev :
  grows (write_prop_rep c cc rev noderev).
Proof.
  unfold write_prop_rep. repeat first [apply grows_write_hash | grows_step].
Qed.

Lemma grows_finish_noderev rev start_node_id start_copy_id noderev at_root :
  grows (finish_noderev cc rev start_node_id start_copy_id noderev at_root).
Proof.
  unfold finish_noderev.
  repeat first [apply grows_remember_new_reps | grows_step].
Qed.

Lemma grows_write_children rev write_child l :
  Forall (fun p => forall id, grows (write_child p.2 id)) l ->
  grows (write_children rev write_child l).
Proof.
  induction 1 as [|[dirent child] l Hchild _ IH]; simpl; [apply grows_ret|].
  apply grows_bind; [apply Hchild|]. intros new_id.
  apply grows_bind; [apply IH|]. intros rest. apply grows_ret.
Qed.

Lemma grows_write_final_rev rev start_node_id start_copy_id initial_offset
    node :
  forall id at_root,
    grows (write_final_rev c cc rev start_node_id start_copy_id
                           initial_offset node id at_root).
Proof.
  induction node as [err|noderev err|noderev l IH] using txn_tree_ind;
    intros id at_root; simpl;
    (destruct (negb (svn_fs_fs__id_is_txn id)); [apply grows_ret|]).
  - apply grows_throw.
  - apply grows_bind; [|intros nr1].
    + destruct (bool_decide _); [|apply grows_stamp_file_rep].
      apply grows_bind_lift. intros entries [=].
    + apply grows_bind; [apply grows_write_prop_rep|].
      intros nr2. apply grows_finish_noderev.
  - apply grows_bind; [|intros nr1].
    + destruct (bool_decide _); [|apply grows_stamp_file_rep].
      apply grows_bind_lift. intros entries [= <-].
      apply grows_bind; [|intros ?; apply grows_write_dir_rep].
      apply grows_write_children.
      eapply Forall_impl; [exact IH|]. intros p Hp id'. apply Hp.
    + apply grows_bind; [apply grows_write_prop_rep|].
      intros nr2. apply grows_finish_noderev.
Qed.

Lemma grows_write_node_reps rev sn sc off noderev entries :
  grows (write_node_reps c cc rev sn sc off noderev entries).
Proof.
  unfold write_node_reps.
  apply grows_bind; [|intros ?; apply grows_write_prop_rep].
  destruct (bool_decide _); [|apply grows_stamp_file_rep].
  destruct entries as [l|e]; [|by intros cs a cs' _ [=]].
  apply grows_bind_lift. intros entries [= <-].
  apply grows_bind; [|intros ?; apply grows_write_dir_rep].
  apply grows_write_children. apply Forall_forall.
  intros p _ id. apply grows_write_final_rev.
Qed.

End grows_writers.

Section layout_facts.

Variable c : rep_callees.
Variable cc : commit_callees.
Variable io : lock_io.

Lemma remember_new_reps_same ffd rev noderev cs u cs' :
  remember_new_reps ffd rev noderev cs = (Ok u, cs') ->
  cs_fs cs' = cs_fs cs /\ cs_file cs' = cs_file cs.
Proof.
  assert (Hpush : forall rep cs0 u0 cs1,
             push_rep_to_cache rep cs0 = (Ok u0, cs1) ->
             cs_fs cs1 = cs_fs cs0 /\ cs_file cs1 = cs_file cs0).
  { intros rep cs0 u0 cs1. unfold push_rep_to_cache.
    destruct (cs_reps_to_cache cs0); [|done]. by intros [= _ <-]. }
  unfold remember_new_reps. intros H.
  destruct (rep_sharing_allowed ffd); [|by apply ret_ok in H as [_ ->]].
  step H as u1 cs1 H1.
  assert (Hcs1 : cs_fs cs1 = cs_fs cs /\ cs_file cs1 = cs_file cs).
  { destruct (nr_data_rep noderev) as [data_rep|];
      [|by apply ret_ok in H1 as [_ ->]].
    destruct (_ && _); [by eapply Hpush|by apply ret_ok in H1 as [_ ->]]. }
  destruct Hcs1 as [<- <-].
  destruct (nr_prop_rep noderev) as [prop_rep|];
    [|by apply ret_ok in H as [_ ->]].
  destruct (_ =? _)%Z; [|by apply ret_ok in H as [_ ->]].
  step H as u2 cs2 H2. apply Hpush in H2 as [<- <-].
  by injection H as _ <-.
Qed.

(** The last steps of [write_final_rev]: the node-rev is written at the
    end of the file, and the id handed back names the new revision and
    the offset the record starts at. *)
Lemma finish_noderev_writes rev sn sc noderev at_root cs new_id cs' :
  at_end (cs_file cs) (cs_fs cs) ->
  finish_noderev cc rev sn sc noderev at_root cs = (Ok new_id, cs') ->
  let name := file_name (cs_file cs) in
  let data := proto_rev_data (cs_fs cs) name in
  exists written,
    new_id = Some (nr_id written)
    /\ svn_fs_fs__id_rev (nr_id written) = rev
    /\ svn_fs_fs__id_offset (nr_id written) = Z.of_nat (length data)
    /\ file_name (cs_file cs') = name
    /\ at_end (cs_file cs') (cs_fs cs')
    /\ proto_rev_data (cs_fs cs') name
       = data ++ svn_fs_fs__write_noderev cc written.
Proof.
  intros Hend H name data. unfold finish_noderev in H.
  step H as cs0 cs1 Hget. injection Hget as -> ->.
  step H as u1 cs2 Hrem. apply remember_new_reps_same in Hrem as [Hfs Hfile].
  step H as u2 cs3 Hval.
  assert (cs3 = cs2) as ->.
  { destruct at_root; [by apply lift_ok in Hval as [_ ->]|].
    by apply ret_ok in Hval as [_ ->]. }
  step H as u3 cs4 Hw. apply ret_ok in H as [-> ->].
  match type of Hw with
  | write_to_file (svn_fs_fs__write_noderev cc ?w) _ = _ =>
      set (written := w) in *
  end.
  assert (Hid : nr_id written
                = svn_fs_fs__id_rev_create
                    (final_key cc (fs_ffd (cs_fs cs1)) rev sn
                               (id_node_id (nr_id noderev)))
                    (final_key cc (fs_ffd (cs_fs cs1)) rev sc
                               (id_copy_id (nr_id noderev)))
                    rev (svn_fs_fs__get_file_offset (cs_file cs1))).
  { unfold written.
    repeat (simpl;
            match goal with
            | |- context [if ?b then _ else _] => destruct b
            | |- context [match ?x with Some _ => _ | None => _ end] =>
                destruct x
            end); reflexivity. }
  clearbody written.
  assert (Hend2 : at_end (cs_file cs2) (cs_fs cs2)) by (by rewrite Hfs, Hfile).
  destruct (write_to_file_ok _ _ _ _ Hend2 Hw) as (Hn & He & Hd & _).
  rewrite Hfile in Hn. rewrite Hfs, Hfile in Hd.
  fold name in Hn, Hd. fold data in Hd.
  exists written. rewrite Hid. simpl.
  repeat split; try done.
  unfold svn_fs_fs__get_file_offset. by rewrite Hend.
Qed.

(** [write_final_changed_path_info]: the offset it returns is the end of
    the file as it was, and the folded changes are written there. *)
Lemma write_final_changed_path_info_ok txn cs offset cs' :
  at_end (cs_file cs) (cs_fs cs) ->
  write_final_changed_path_info cc txn cs = (Ok offset, cs') ->
  let name := file_name (cs_file cs) in
  let data := proto_rev_data (cs_fs cs) name in
  exists changed_paths,
    svn_fs_fs__txn_changes_fetch (svn_fs_fs__read_changes cc txn)
    = Ok changed_paths
    /\ offset = Z.of_nat (length data)
    /\ file_name (cs_file cs') = name
    /\ at_end (cs_file cs') (cs_fs cs')
    /\ proto_rev_data (cs_fs cs') name
       = data ++ svn_fs_fs__write_changes cc changed_paths.
Proof.
  intros Hend H name data. unfold write_final_changed_path_info in H.
  step H as cs0 cs1 Hget. injection Hget as -> ->.
  step H as changed_paths cs2 Hfetch.
  step H as u cs3 Hw. apply ret_ok in H as [-> ->].
  destruct (write_to_file_ok _ _ _ _ Hend Hw) as (Hn & He & Hd & _).
  exists changed_paths. repeat split; try done.
  unfold svn_fs_fs__get_file_offset. by rewrite Hend.
Qed.

End layout_facts.

Section layout_commit.

Variable c : rep_callees.
Variable cc : commit_callees.
Variable io : lock_io.

Lemma on_fs_ok {A : Type} (m : fs_action A) cs a cs' :
  on_fs m cs = (Ok a, cs') ->
  exists fs', m (cs_fs cs) = (Ok a, fs')
              /\ cs' = mk_cs fs' (cs_file cs) (cs_new_rev cs)
                             (cs_reps_to_cache cs) (cs_reps_hash cs).
Proof.
  unfold on_fs. destruct (m (cs_fs cs)) as [r fs'].
  intros [= -> <-]. by exists fs'.
Qed.

Lemma get_next_revision_ids_ok fs ids fs' :
  get_next_revision_ids cc fs = (Ok ids, fs') -> fs' = fs.
Proof.
  unfold get_next_revision_ids. intros H.
  step H as u fs1 Hread. step H as fs2 fs3 Hget.
  destruct (current_ids (fs_current fs)); [|done].
  by apply ret_ok in H as [_ ->].
Qed.

Lemma move_proto_rev_into_place_ok txn rev fs u fs' :
  move_proto_rev_into_place cc txn rev fs = (Ok u, fs') ->
  fs_revs fs' = <[rev := proto_rev_data fs txn]> (fs_revs fs)
  /\ fs_proto_revs fs' = delete txn (fs_proto_revs fs).
Proof.
  unfold move_proto_rev_into_place. intros H.
  step H as u1 fs1 Hren. by injection H as _ <-.
Qed.

Lemma write_final_current_files txn rev sn sc fs u fs' :
  write_final_current cc txn rev sn sc fs = (Ok u, fs') ->
  fs_revs fs' = fs_revs fs /\ fs_proto_revs fs' = fs_proto_revs fs.
Proof.
  unfold write_final_current. intros H.
  step H as fs0 fs1 Hget.
  assert (Hwc : forall ids fsa ua fsb,
             svn_fs_fs__write_current cc rev ids fsa = (Ok ua, fsb) ->
             fs_revs fsb = fs_revs fsa
             /\ fs_proto_revs fsb = fs_proto_revs fsa).
  { intros ids fsa ua fsb Hw. unfold svn_fs_fs__write_current in Hw.
    step Hw as u1 fsc Hchk. by injection Hw as _ <-. }
  destruct (_ <=? _)%Z; [by eapply Hwc|].
  step H as ids fs2 Hids. by eapply Hwc.
Qed.

Lemma purge_txn_files txn fs u fs' :
  svn_fs_fs__purge_txn cc txn fs = (Ok u, fs') ->
  fs_revs fs' = fs_revs fs
  /\ (fs_proto_revs fs' = fs_proto_revs fs
      \/ fs_proto_revs fs' = delete txn (fs_proto_revs fs)).
Proof.
  unfold svn_fs_fs__purge_txn, purge_shared_txn, with_txnlist_lock. intros H.
  step H as u1 fs1 Hpurge. injection Hpurge as _ <-.
  step H as u2 fs2 Hdir. step H as fs3 fs4 Hget.
  destruct (_ <=? _)%Z.
  - step H as u3 fs5 Hfile. injection H as _ <-. split; [done|by right].
  - apply ret_ok in H as [_ ->]. split; [done|by left].
Qed.

(** X16.  The revision file a successful commit leaves under the number
    of the new revision starts with the bytes the proto-rev file had when
    the commit began, so that the representations written before the
    commit are at the offsets their node-revs name.  After what the
    commit wrote for the nodes of the transaction come the root node-rev,
    the folded changes and the trailer, and the two offsets of the
    trailer are the ones the root node-rev and the changes start at.  The
    id of the root node-rev names the new revision and that offset, and
    the proto-rev file is gone. *)
Theorem commit_lays_out_revision_file (txn : svn_fs_txn_t)
    (set_timestamp : bool) (root : txn_tree) (cs cs' : commit_state) :
  commit_body c cc io txn set_timestamp root cs = (Ok tt, cs') ->
  let new_rev := (current_rev (fs_current (cs_fs cs)) + 1)%Z in
  let before := proto_rev_data (cs_fs cs) (txn_name txn) in
  exists written root_noderev changed_paths,
    let root_offset := length (before ++ written) in
    let root_record := svn_fs_fs__write_noderev cc root_noderev in
    let changes_offset := root_offset + length root_record in
    svn_fs_fs__txn_changes_fetch (svn_fs_fs__read_changes cc (txn_name txn))
    = Ok changed_paths
    /\ svn_fs_fs__id_rev (nr_id root_noderev) = new_rev
    /\ svn_fs_fs__id_offset (nr_id root_noderev) = Z.of_nat root_offset
    /\ fs_revs (cs_fs cs') !! new_rev
       = Some (before ++ written ++ root_record
                 ++ svn_fs_fs__write_changes cc changed_paths
                 ++ svn_fs_fs__unparse_revision_trailer cc
                      (Z.of_nat root_offset) (Z.of_nat changes_offset))
    /\ fs_proto_revs (cs_fs cs') !! txn_name txn = None.
Proof.
  intros H new_rev before. unfold commit_body in H.
  step H as old cs1 Hyoung. apply youngest_rev_ok in Hyoung as [-> ->].
  fold new_rev in H.
  destruct (negb _); [done|].
  step H as u1 cs2 Hlocks.
  step H as cs0 cs3 Hget. injection Hget as <- <-.
  step H as start_ids cs4 Hids.
  assert (cs4 = cs) as ->.
  { destruct (_ <? _)%Z; [|by apply ret_ok in Hids as [_ ->]].
    step Hids as ids cs5 Hnext. apply ret_ok in Hids as [_ ->].
    apply on_fs_ok in Hnext as (fs' & Hnext & ->).
    apply get_next_revision_ids_ok in Hnext as ->. by destruct cs. }
  destruct start_ids as [start_node_id start_copy_id].
  step H as opened cs5 Hopen. destruct opened as [proto_file cookie].
  apply on_fs_ok in Hopen as (fs1 & Hopen & ->).
  pose proof (get_writable_proto_rev_outcome io (txn_name txn) (cs_fs cs))
    as [_ Hok].
  rewrite Hopen in Hok.
  destruct (Hok proto_file cookie eq_refl) as (_ & _ & Hname & Hpos).
  pose proof Hopen as Hshared.
  apply get_writable_proto_rev_shared in Hshared as [s ->].
  simpl in Hpos.
  change (proto_rev_data (with_shared (cs_fs cs) s) (txn_name txn))
    with before in Hpos.
  step H as u2 cs6 Hset. injection Hset as _ <-.
  step H as new_root_id cs7 Hfinal.
  clear Hok Hids Hlocks Hopen.
  match type of Hfinal with
  | write_final_rev _ _ _ _ _ _ _ _ _ ?st = _ => set (cs6 := st) in *
  end.
  assert (Hend6 : at_end (cs_file cs6) (cs_fs cs6)).
  { unfold at_end. simpl. by rewrite Hname. }
  destruct root as [err|noderev entries]; [done|].
  rewrite write_final_rev_readable in Hfinal by done.
  destruct (write_node_reps _ _ _ _ _ _ _ _ _) as [[nr'|e] cs6'] eqn:Hreps;
    [|done].
  destruct (grows_write_node_reps c cc _ _ _ _ _ _ _ _ _ Hend6 Hreps)
    as (Hn1 & Hend1 & written & Hd1).
  destruct (finish_noderev_writes cc _ _ _ _ _ _ _ _ Hend1 Hfinal)
    as (root_noderev & -> & Hrev & Hoff & Hn2 & Hend2 & Hd2).
  step H as changed_path_offset cs8 Hchanged.
  destruct (write_final_changed_path_info_ok cc _ _ _ _ Hend2 Hchanged)
    as (changed_paths & Hfetch & -> & Hn3 & Hend3 & Hd3).
  step H as u3 cs9 Htrailer.
  destruct (write_to_file_ok _ _ _ _ Hend3 Htrailer)
    as (Hn4 & _ & Hd4 & _).
  assert (N6 : file_name (cs_file cs6) = txn_name txn) by done.
  assert (N6' : file_name (cs_file cs6') = txn_name txn) by congruence.
  assert (N7 : file_name (cs_file cs7) = txn_name txn) by congruence.
  assert (N8 : file_name (cs_file cs8) = txn_name txn) by congruence.
  rewrite N6 in Hd1. rewrite N6' in Hd2, Hoff. rewrite N7 in Hd3, Hd4.
  rewrite N8 in Hd4.
  change (proto_rev_data (cs_fs cs6) (txn_name txn)) with before in Hd1.
  rewrite Hd1 in Hd2, Hoff. rewrite Hd2 in Hd3. rewrite Hd3, Hd2, Hoff in Hd4.
  exists written, root_noderev, changed_paths. cbv zeta.
  split; [done|]. split; [done|]. split; [done|].
  clear Hreps Hfinal Hchanged Htrailer.
  step H as u4 cs10 Hflush.
  step H as csa cs11 Hget2. injection Hget2 as <- <-.
  step H as u5 cs12 Hclose.
  step H as flags cs13 Hflags.
  step H as u6 cs14 Hprops.
  assert (cs14 = cs9) as ->.
  { destruct (_ || _); [by apply attempt_ok in Hprops as [_ ->]|].
    by apply ret_ok in Hprops as [_ ->]. }
  step H as u7 cs15 Hshard.
  assert (cs15 = cs9) as ->.
  { destruct (_ && _); [|by apply ret_ok in Hshard as [_ ->]].
    step Hshard as u cs16 Hs1. by apply attempt_ok in Hshard as [_ ->]. }
  step H as u8 cs16 Hmove.
  apply on_fs_ok in Hmove as (fs16 & Hmove & ->).
  apply move_proto_rev_into_place_ok in Hmove as [Hrevs16 Hprotos16].
  step H as u9 cs17 Hunlock.
  apply on_fs_ok in Hunlock as (fs17 & Hunlock & ->).
  apply unlock_proto_rev_shared in Hunlock as [s17 ->].
  step H as u10 cs18 Htime.
  assert (cs18 = mk_cs (with_shared fs16 s17) (cs_file cs9) (cs_new_rev cs9)
                       (cs_reps_to_cache cs9) (cs_reps_hash cs9)) as ->.
  { destruct set_timestamp; [by apply attempt_ok in Htime as [_ ->]|].
    by apply ret_ok in Htime as [_ ->]. }
  step H as u11 cs19 Hrevprops.
  step H as u12 cs20 Hverify. injection Hverify as _ <-.
  step H as u13 cs21 Hcurrent.
  apply on_fs_ok in Hcurrent as (fs21 & Hcurrent & ->).
  apply write_final_current_files in Hcurrent as [Hrevs21 Hprotos21].
  step H as u14 cs22 Hpublish. injection Hpublish as _ <-.
  apply on_fs_ok in H as (fs22 & Hpurge & ->).
  apply purge_txn_files in Hpurge as [Hrevs22 Hprotos22].
  simpl in *. split.
  - rewrite Hrevs22, Hrevs21, Hrevs16, lookup_insert_eq, Hd4.
    rewrite (length_app (before ++ written)). by rewrite <- !app_assoc.
  - destruct Hprotos22 as [-> | ->]; rewrite Hprotos21, Hprotos16;
      by rewrite ?lookup_delete_eq.
Qed.

End layout_commit.

Section layout_samples.

Lemma commit_lays_out_revision_file_witness :
  let cc := ex_commit_callees in
  let before := proto_rev_data ex_fs "5-1" in
  exists written root_noderev changed_paths,
    let root_offset := length (before ++ written) in
    let root_record := svn_fs_fs__write_noderev cc root_noderev in
    let changes_offset := root_offset + length root_record in
    svn_fs_fs__txn_changes_fetch (svn_fs_fs__read_changes cc "5-1")
    = Ok changed_paths
    /\ svn_fs_fs__id_rev (nr_id root_noderev) = (5 + 1)%Z
    /\ svn_fs_fs__id_offset (nr_id root_noderev) = Z.of_nat root_offset
    /\ fs_revs (cs_fs ex_changed_body.2) !! (5 + 1)%Z
       = Some (before ++ written ++ root_record
                 ++ svn_fs_fs__write_changes cc changed_paths
                 ++ svn_fs_fs__unparse_revision_trailer cc
                      (Z.of_nat root_offset) (Z.of_nat changes_offset))
    /\ fs_proto_revs (cs_fs ex_changed_body.2) !! "5-1" = None.
Proof.
  apply (commit_lays_out_revision_file (ex_rep_callees None)
           ex_commit_callees ex_lock_io (mk_txn "5-1" 5) false
           ex_changed_root (commit_baton ex_fs) ex_changed_body.2).
  vm_compute. reflexivity.
Defined.

End layout_samples.

(** ** Creating and listing transactions *)

Section strings.

Lemma string_app_nil (t : string) : "" +:+ t = t.
Proof. done. Qed.

Lemma string_app_cons (a : ascii) (s t : string) :
  String a s +:+ t = String a (s +:+ t).
Proof. done. Qed.

Lemma string_length_app (s t : string) :
  String.length (s +:+ t) = String.length s + String.length t.
Proof.
  induction s as [|a s IH]; [done|].
  rewrite string_app_cons. simpl. by rewrite IH.
Qed.

Lemma string_app_assoc (s t u : string) : (s +:+ t) +:+ u = s +:+ t +:+ u.
Proof.
  induction s as [|a s IH]; [done|].
  rewrite !string_app_cons. by rewrite IH.
Qed.

Lemma substring_all (s : string) : String.substring 0 (String.length s) s = s.
Proof. induction s as [|a s IH]; simpl; [done|]. by rewrite IH. Qed.

Lemma substring_app_l (s t : string) :
  String.substring 0 (String.length s) (s +:+ t) = s.
Proof.
  induction s as [|a s IH]; [by destruct t|].
  rewrite string_app_cons. simpl. by rewrite IH.
Qed.

Lemma substring_app_r (s t : string) :
  String.substring (String.length s) (String.length t) (s +:+ t) = t.
Proof.
  induction s as [|a s IH]; [apply substring_all|].
  by rewrite string_app_cons.
Qed.

Lemma substring_split (n : nat) (s : string) :
  n <= String.length s ->
  String.substring 0 n s +:+ String.substring n (String.length s - n) s = s.
Proof.
  revert s. induction n as [|n IH]; intros s Hn.
  - rewrite Nat.sub_0_r, substring_all. by destruct s.
  - destruct s as [|a s]; simpl in *; [lia|].
    rewrite string_app_cons, IH; [done|lia].
Qed.

Lemma substring_length (n : nat) (s : string) :
  n <= String.length s -> String.length (String.substring 0 n s) = n.
Proof.
  revert s. induction n as [|n IH]; intros s Hn.
  - by destruct s.
  - destruct s as [|a s]; simpl in *; [lia|]. rewrite IH; [done|lia].
Qed.

End strings.

Section txns_dir_facts.

Import TxnStore.

(** A name of the directory is listed as ID exactly if it is ID with the
    extension, and ID is not empty. *)
Lemma txn_of_dirent_Some (name id : string) :
  txn_of_dirent name = Some id <-> id <> "" /\ name = id +:+ PATH_EXT_TXN.
Proof.
  unfold txn_of_dirent. split.
  - change (String.length PATH_EXT_TXN) with 4.
    destruct (_ <=? _) eqn:Hlen; [done|]. apply Nat.leb_gt in Hlen.
    destruct (String.eqb_spec
                (String.substring (String.length name - 4) 4 name)
                PATH_EXT_TXN) as [Hext|]; [|done].
    simpl negb. simpl orb. cbv iota. intros [= <-].
    assert (String.length name - 4 <= String.length name) as Hle by lia.
    split.
    + intros Hempty. apply substring_length in Hle.
      rewrite Hempty in Hle. simpl in Hle. lia.
    + rewrite <- (substring_split _ _ Hle) at 1. f_equal.
      rewrite <- Hext. f_equal. lia.
  - intros [Hid ->].
    rewrite string_length_app, Nat.add_sub, substring_app_r, substring_app_l.
    rewrite String.eqb_refl.
    destruct (_ <=? _) eqn:Hlen; [|done]. apply Nat.leb_le in Hlen.
    destruct id; [done|]. simpl in Hlen. lia.
Qed.

Lemma NoDup_omap_inj {A B : Type} (f : A -> option B) (l : list A) :
  (forall x y z, f x = Some z -> f y = Some z -> x = y) ->
  NoDup l -> NoDup (omap f l).
Proof.
  intros Hinj. induction 1 as [|x l Hx Hl IH]; simpl; [constructor|].
  destruct (f x) as [z|] eqn:Hfx; [|done].
  constructor; [|done].
  intros (y & Hy & Hfy)%list_elem_of_omap.
  by rewrite (Hinj x y z Hfx Hfy) in Hx.
Qed.

Lemma list_transactions_names (dirents : gset string) :
  let names := omap txn_of_dirent (elements dirents) in
  NoDup names
  /\ forall id, id ∈ names <-> id <> "" /\ id +:+ PATH_EXT_TXN ∈ dirents.
Proof.
  simpl. split.
  - apply NoDup_omap_inj; [|apply NoDup_elements].
    intros x y z [_ ->]%txn_of_dirent_Some [_ ->]%txn_of_dirent_Some. done.
  - intros id. rewrite list_elem_of_omap. split.
    + intros (name & Hname%elem_of_elements & [Hid ->]%txn_of_dirent_Some).
      done.
    + intros [Hid Hin]. exists (id +:+ PATH_EXT_TXN). split.
      * by apply elem_of_elements.
      * by apply txn_of_dirent_Some.
Qed.

(** X17: listing the transactions changes nothing and gives, each once,
    the non-empty names N for which the transactions directory has an
    entry N.txn; entries without the extension, and the entry ".txn"
    itself, are passed over. *)
Theorem list_transactions_lists_txn_dirs (dirents : gset string) :
  exists names,
    svn_fs_fs__list_transactions None dirents = (Ok names, dirents)
    /\ NoDup names
    /\ forall id,
         id ∈ names <-> id <> "" /\ id +:+ PATH_EXT_TXN ∈ dirents.
Proof.
  exists (omap txn_of_dirent (elements dirents)).
  split; [done|]. apply list_transactions_names.
Qed.

Section create.

Variable io_dir_make : string -> Z.
Variable fs_path : string.

Lemma svn_io_dir_make_cases (name : string) (dirents : gset string) :
  (svn_io_dir_make io_dir_make name dirents = (Ok tt, {[name]} ∪ dirents)
   /\ (name ∉ dirents) /\ io_dir_make name = APR_SUCCESS)
  \/ (exists err,
        svn_io_dir_make io_dir_make name dirents = (Raise err, dirents)
        /\ (APR_STATUS_IS_EEXIST (apr_err err) = true
            <-> name ∈ dirents \/ io_dir_make name = APR_EEXIST)).
Proof.
  unfold svn_io_dir_make. case_bool_decide as Hin.
  - right. eexists. split; [done|]. simpl. split; [by left|done].
  - destruct (io_dir_make name =? APR_SUCCESS)%Z eqn:Hs; simpl.
    + apply Z.eqb_eq in Hs. by left.
    + right. eexists. split; [done|]. simpl. rewrite Z.eqb_eq. tauto.
Qed.

Lemma unique_name_id (rev : svn_revnum_t) (i : Z) :
  String.substring
    0 (String.length (unique_name rev i) - String.length PATH_EXT_TXN)
    (unique_name rev i)
  = pretty rev +:+ "-" +:+ pretty i.
Proof.
  unfold unique_name.
  rewrite <- (string_app_assoc "-"), <- (string_app_assoc (pretty rev)).
  rewrite string_length_app, Nat.add_sub. apply substring_app_l.
Qed.

Lemma try_unique_names_ok (rounds : nat) (rev : svn_revnum_t) (i : Z)
    (dirents dirents' : gset string) (id : string) :
  try_unique_names io_dir_make fs_path rounds rev i dirents
  = (Ok id, dirents') ->
  exists k,
    (i <= k < i + Z.of_nat rounds)%Z
    /\ id = pretty rev +:+ "-" +:+ pretty k
    /\ (id +:+ PATH_EXT_TXN ∉ dirents)
    /\ dirents' = {[id +:+ PATH_EXT_TXN]} ∪ dirents
    /\ forall j, (i <= j < k)%Z -> taken io_dir_make rev dirents j.
Proof.
  revert i. induction rounds as [|rounds IH]; intros i; simpl; [done|].
  destruct (svn_io_dir_make_cases (unique_name rev i) dirents)
    as [(-> & Hfree & _) | (err & -> & Hexist)].
  - intros [= <- <-]. exists i. rewrite unique_name_id.
    assert ((pretty rev +:+ "-" +:+ pretty i) +:+ PATH_EXT_TXN
            = unique_name rev i) as ->.
    { unfold unique_name. by rewrite !string_app_assoc. }
    repeat split; [lia|lia|done|intros; lia].
  - destruct (APR_STATUS_IS_EEXIST (apr_err err)) eqn:He; simpl; [|done].
    intros (k & Hk & -> & Hfree & -> & Hbelow)%IH.
    exists k. repeat split; [lia|lia|done|].
    intros j Hj. destruct (decide (j = i)) as [->|].
    + by apply Hexist.
    + apply Hbelow. lia.
Qed.

Lemma try_unique_names_exhausted (rounds : nat) (rev : svn_revnum_t) (i : Z)
    (dirents : gset string) :
  (forall j, (i <= j < i + Z.of_nat rounds)%Z -> taken io_dir_make rev dirents j) ->
  raised (try_unique_names io_dir_make fs_path rounds rev i dirents).1
  = Some SVN_ERR_IO_UNIQUE_NAMES_EXHAUSTED
  /\ (try_unique_names io_dir_make fs_path rounds rev i dirents).2 = dirents.
Proof.
  revert i. induction rounds as [|rounds IH]; intros i Htaken; simpl; [done|].
  destruct (svn_io_dir_make_cases (unique_name rev i) dirents)
    as [(_ & Hfree & Hs) | (err & -> & Hexist)].
  - destruct (Htaken i) as [Hin | Hsys]; [lia|done|].
    rewrite Hs in Hsys. done.
  - rewrite (proj2 Hexist); [|apply Htaken; lia]. simpl.
    apply IH. intros j Hj. apply Htaken. lia.
Qed.

End create.

(** X18: when the transaction directory of a repository of the old
    format is made, the transaction is named <rev>-<k> with k the least
    number from 1 to 99999 whose directory <rev>-<k>.txn neither is there
    nor is said to be there by the system; that one directory is added,
    and the transaction is among those listed afterwards. *)
Theorem create_txn_dir_pre_1_5_least_free (io_dir_make : string -> Z)
    (fs_path : string) (rev : svn_revnum_t) (dirents dirents' : gset string)
    (id : string) :
  create_txn_dir_pre_1_5 io_dir_make fs_path rev dirents = (Ok id, dirents') ->
  exists k names,
    (1 <= k <= 99999)%Z
    /\ id = pretty rev +:+ "-" +:+ pretty k
    /\ (id +:+ PATH_EXT_TXN ∉ dirents)
    /\ dirents' = {[id +:+ PATH_EXT_TXN]} ∪ dirents
    /\ (forall j, (1 <= j < k)%Z -> taken io_dir_make rev dirents j)
    /\ svn_fs_fs__list_transactions None dirents' = (Ok names, dirents')
    /\ id ∈ names.
Proof.
  intros (k & Hk & -> & Hfree & -> & Hbelow)%try_unique_names_ok.
  exists k, (omap txn_of_dirent
               (elements ({[(pretty rev +:+ "-" +:+ pretty k) +:+ PATH_EXT_TXN]}
                          ∪ dirents))).
  repeat split; [lia|lia|done|done|].
  apply list_transactions_names. split; [|apply elem_of_union_l, elem_of_singleton; done].
  by destruct (pretty rev).
Qed.

(** X19: when each of the 99999 names of a revision is taken, no
    transaction directory is made: the error is
    SVN_ERR_IO_UNIQUE_NAMES_EXHAUSTED and the directory is as before. *)
Theorem create_txn_dir_pre_1_5_exhausted (io_dir_make : string -> Z)
    (fs_path : string) (rev : svn_revnum_t) (dirents : gset string) :
  (forall j, (1 <= j <= 99999)%Z -> taken io_dir_make rev dirents j) ->
  raised (create_txn_dir_pre_1_5 io_dir_make fs_path rev dirents).1
  = Some SVN_ERR_IO_UNIQUE_NAMES_EXHAUSTED
  /\ (create_txn_dir_pre_1_5 io_dir_make fs_path rev dirents).2 = dirents.
Proof.
  intros Htaken. apply try_unique_names_exhausted.
  intros j Hj. apply Htaken. lia.
Qed.

Lemma create_txn_dir_pre_1_5_least_free_witness :
  let dirents' := (create_txn_dir_pre_1_5 ex_dir_make "/repo" 5 ex_txns_dir).2 in
  exists k names,
    (1 <= k <= 99999)%Z
    /\ "5-3" = pretty 5%Z +:+ "-" +:+ pretty k
    /\ ("5-3" +:+ PATH_EXT_TXN ∉ ex_txns_dir)
    /\ dirents' = {["5-3" +:+ PATH_EXT_TXN]} ∪ ex_txns_dir
    /\ (forall j, (1 <= j < k)%Z -> taken ex_dir_make 5 ex_txns_dir j)
    /\ svn_fs_fs__list_transactions None dirents' = (Ok names, dirents')
    /\ "5-3" ∈ names.
Proof.
  apply (create_txn_dir_pre_1_5_least_free ex_dir_make "/repo" 5 ex_txns_dir).
  vm_compute. reflexivity.
Defined.

Lemma create_txn_dir_pre_1_5_exhausted_witness :
  raised (create_txn_dir_pre_1_5 full_dir_make "/repo" 5 ex_txns_dir).1
  = Some SVN_ERR_IO_UNIQUE_NAMES_EXHAUSTED
  /\ (create_txn_dir_pre_1_5 full_dir_make "/repo" 5 ex_txns_dir).2
     = ex_txns_dir.
Proof.
  apply (create_txn_dir_pre_1_5_exhausted full_dir_make "/repo" 5 ex_txns_dir).
  intros j _. right. reflexivity.
Defined.

(** X20: the root node-revision made for a transaction on the head
    revision is the head root with a transaction id, the head root as
    predecessor, one predecessor more and no copy source, and it passes
    the check of the root that the commit of the next revision makes. *)
Theorem txn_root_passes_root_check (c : rep_callees) (cc : commit_callees)
    (txn_id : string) (src : svn_fs_id_t) (rev : svn_revnum_t)
    (head_root root : node_revision_t) (copyfrom_path : option string)
    (copyfrom_rev : svn_revnum_t) :
  (0 <= rev)%Z ->
  svn_fs_fs__get_node_revision c (Some src) = Ok head_root ->
  head_root_noderev cc rev = Ok head_root ->
  create_new_txn_noderev_from_rev c txn_id src
  = Ok (root, copyfrom_path, copyfrom_rev) ->
  validate_root_noderev cc root (rev + 1)%Z = Ok tt
  /\ nr_id root
     = svn_fs_fs__id_txn_create (id_node_id (nr_id head_root))
                                (id_copy_id (nr_id head_root)) txn_id
  /\ nr_predecessor_id root = Some (nr_id head_root)
  /\ nr_predecessor_count root = (nr_predecessor_count head_root + 1)%Z
  /\ nr_is_fresh_txn_root root = true
  /\ nr_kind root = nr_kind head_root
  /\ nr_data_rep root = nr_data_rep head_root
  /\ nr_prop_rep root = nr_prop_rep head_root
  /\ copyfrom_path = None
  /\ copyfrom_rev = SVN_INVALID_REVNUM.
Proof.
  intros Hrev Hget Hhead. unfold create_new_txn_noderev_from_rev.
  rewrite Hget. simpl. destruct (svn_fs_fs__id_is_txn _); [done|].
  unfold svn_fs_fs__put_node_revision. simpl.
  destruct (write_noderev_file c _); [done|]. intros [= <- <- <-].
  unfold validate_root_noderev. simpl.
  replace (rev + 1 - 1)%Z with rev by lia. rewrite Hhead. simpl.
  destruct (0 <? rev + 1)%Z eqn:Hpos; [|apply Z.ltb_ge in Hpos; lia].
  simpl.
  replace (nr_predecessor_count head_root + 1
           - nr_predecessor_count head_root =? rev + 1 - rev)%Z
    with true by (symmetry; apply Z.eqb_eq; lia).
  by rewrite andb_false_r.
Qed.

Lemma txn_root_passes_root_check_witness :
  let head_root := ex_head_root_noderev in
  let root := ex_txn_root in
  validate_root_noderev ex_commit_callees root (5 + 1)%Z = Ok tt
  /\ nr_id root
     = svn_fs_fs__id_txn_create (id_node_id (nr_id head_root))
                                (id_copy_id (nr_id head_root)) "5-3"
  /\ nr_predecessor_id root = Some (nr_id head_root)
  /\ nr_predecessor_count root = (nr_predecessor_count head_root + 1)%Z
  /\ nr_is_fresh_txn_root root = true
  /\ nr_kind root = nr_kind head_root
  /\ nr_data_rep root = nr_data_rep head_root
  /\ nr_prop_rep root = nr_prop_rep head_root
  /\ None = (None : option string)
  /\ SVN_INVALID_REVNUM = SVN_INVALID_REVNUM.
Proof.
  apply (txn_root_passes_root_check ex_root_callees ex_commit_callees "5-3"
           ex_head_root_id 5 ex_head_root_noderev ex_txn_root None
           SVN_INVALID_REVNUM); [lia|reflexivity..].
Defined.

End txns_dir_facts.

(** ** Transaction properties *)

Section txn_props_facts.

Import TxnProps.

(** Where the property file can be read, a change of properties that
    works leaves the old properties with the changes made in order. *)
Lemma change_txn_props_ok (io : props_io) (txn : svn_fs_txn_t)
    (props : list svn_prop_t) (file file' : props_file) :
  io_read_props io = None ->
  svn_fs_fs__change_txn_props io txn props file = (Ok tt, file') ->
  file' = Some (foldl (fun ht prop => svn_hash_sets ht prop.1 prop.2)
                      (default ∅ file) props).
Proof.
  intros Hread. unfold svn_fs_fs__change_txn_props, get_txn_proplist.
  rewrite Hread. destruct file as [stored|]; simpl.
  - rewrite (right_id_L ∅ (∪)). unfold bind, attempt.
    destruct (io_write_props io); [done|]. by intros [= <-].
  - unfold bind, attempt. destruct (io_write_props io); [done|].
    by intros [= <-].
Qed.

Lemma txn_proplist_ok (io : props_io) (txn : svn_fs_txn_t)
    (stored : gmap string string) :
  io_read_props io = None ->
  svn_fs_fs__txn_proplist io txn (Some stored) = (Ok stored, Some stored).
Proof.
  intros Hread. unfold svn_fs_fs__txn_proplist, get_txn_proplist.
  by rewrite Hread, (right_id_L ∅ (∪)).
Qed.

(** X21: after a property of a transaction was changed, reading that
    property gives the new value, or nothing if the change was a
    deletion, and reading any other property gives what the property
    file held for it before, which is nothing if there was no file. *)
Theorem change_txn_prop_then_read (io : props_io) (txn : svn_fs_txn_t)
    (name : string) (value : option string) (file file' : props_file) :
  io_read_props io = None ->
  svn_fs__check_fs io = None ->
  svn_fs_fs__change_txn_prop io txn name value file = (Ok tt, file') ->
  forall propname,
    svn_fs_fs__txn_prop io txn propname file'
    = (Ok (if decide (propname = name) then value
           else default ∅ file !! propname), file').
Proof.
  intros Hread Hcheck Hchange propname.
  apply change_txn_props_ok in Hchange as ->; [|done]. simpl.
  unfold svn_fs_fs__txn_prop. rewrite Hcheck. unfold bind at 1. simpl.
  unfold bind. rewrite txn_proplist_ok by done. unfold ret. do 2 f_equal.
  destruct value as [v|]; simpl; case_decide as Heq; subst.
  - by rewrite lookup_insert_eq.
  - by rewrite lookup_insert_ne.
  - by rewrite lookup_delete_eq.
  - by rewrite lookup_delete_ne.
Qed.

Lemma change_txn_prop_then_read_witness :
  let txn := mk_txn "5-3" 5 in
  let file' :=
    (svn_fs_fs__change_txn_prop ex_props_io txn "svn:log" None
       ex_props_file).2 in
  svn_fs_fs__txn_prop ex_props_io txn "svn:check-locks" file'
  = (Ok (if decide ("svn:check-locks" = "svn:log") then None
         else default ∅ ex_props_file !! "svn:check-locks"), file').
Proof.
  apply (change_txn_prop_then_read ex_props_io (mk_txn "5-3" 5) "svn:log"
           None ex_props_file); [reflexivity..|].
  vm_compute. reflexivity.
Defined.

(** X22: the step of the commit that removes the flag properties, when
    it works, leaves the property file with both flag properties gone and
    every other property as it was. *)
Theorem commit_removes_flag_props (io : props_io)
    (SVN_FS__PROP_TXN_CHECK_OOD SVN_FS__PROP_TXN_CHECK_LOCKS : string)
    (txn : svn_fs_txn_t) (file file' : props_file) :
  remove_flag_props io SVN_FS__PROP_TXN_CHECK_OOD
    SVN_FS__PROP_TXN_CHECK_LOCKS txn file = (Ok tt, file') ->
  exists txnprops,
    file = Some txnprops
    /\ file' = Some (delete SVN_FS__PROP_TXN_CHECK_LOCKS
                       (delete SVN_FS__PROP_TXN_CHECK_OOD txnprops)).
Proof.
  unfold remove_flag_props. intros H.
  apply bind_ok in H as (txnprops & file1 & Hlist & H).
  assert (io_read_props io = None /\ file = Some txnprops /\ file1 = file)
    as (Hread & -> & ->).
  { revert Hlist. unfold svn_fs_fs__txn_proplist, get_txn_proplist.
    destruct file as [stored|]; [|done].
    destruct (io_read_props io); [done|].
    rewrite (right_id_L ∅ (∪)). by intros [= ->]. }
  exists txnprops. split; [done|].
  repeat case_bool_decide; simpl in H;
    repeat match goal with
           | Hn : ¬ is_Some _ |- _ =>
               apply eq_None_not_Some in Hn
           end.
  all: try (apply change_txn_props_ok in H as ->; [|done]; simpl).
  all: try (injection H as <-).
  all: f_equal.
  all: rewrite ?(delete_id txnprops SVN_FS__PROP_TXN_CHECK_OOD) by done.
  all: rewrite ?(delete_id txnprops SVN_FS__PROP_TXN_CHECK_LOCKS) by done.
  all: try done.
  symmetry. by apply delete_id, lookup_delete_None; right.
Qed.

Lemma commit_removes_flag_props_witness :
  exists txnprops,
    ex_props_file = Some txnprops
    /\ (remove_flag_props ex_props_io "svn:check-ood" "svn:check-locks"
         (mk_txn "5-3" 5) ex_props_file).2
       = Some (delete "svn:check-locks" (delete "svn:check-ood" txnprops)).
Proof.
  apply (commit_removes_flag_props ex_props_io "svn:check-ood"
           "svn:check-locks" (mk_txn "5-3" 5) ex_props_file).
  vm_compute. reflexivity.
Defined.

(** X23: a transaction begun without a property file gets one with the
    date, and with each flag property set to "true" exactly if the bit of
    the flag was given; once the commit has removed the flag properties,
    the date alone is left in the property file. *)
Theorem begin_txn_flags_do_not_outlive_commit (io : props_io)
    (SVN_PROP_REVISION_DATE SVN_FS__PROP_TXN_CHECK_OOD
       SVN_FS__PROP_TXN_CHECK_LOCKS : string)
    (SVN_FS_TXN_CHECK_OOD SVN_FS_TXN_CHECK_LOCKS flags : Z)
    (txn : svn_fs_txn_t) (begun committed : props_file) :
  NoDup [SVN_PROP_REVISION_DATE; SVN_FS__PROP_TXN_CHECK_OOD;
         SVN_FS__PROP_TXN_CHECK_LOCKS] ->
  svn_fs_fs__begin_txn io SVN_PROP_REVISION_DATE SVN_FS__PROP_TXN_CHECK_OOD
    SVN_FS__PROP_TXN_CHECK_LOCKS SVN_FS_TXN_CHECK_OOD SVN_FS_TXN_CHECK_LOCKS
    flags None = (Ok txn, begun) ->
  remove_flag_props io SVN_FS__PROP_TXN_CHECK_OOD
    SVN_FS__PROP_TXN_CHECK_LOCKS txn begun = (Ok tt, committed) ->
  (exists txnprops,
     begun = Some txnprops
     /\ dom txnprops ⊆ {[SVN_PROP_REVISION_DATE; SVN_FS__PROP_TXN_CHECK_OOD;
                         SVN_FS__PROP_TXN_CHECK_LOCKS]}
     /\ txnprops !! SVN_PROP_REVISION_DATE = Some (svn_time_to_cstring_now io)
     /\ txnprops !! SVN_FS__PROP_TXN_CHECK_OOD
        = (if (Z.land flags SVN_FS_TXN_CHECK_OOD =? 0)%Z then None
           else Some "true")
     /\ txnprops !! SVN_FS__PROP_TXN_CHECK_LOCKS
        = (if (Z.land flags SVN_FS_TXN_CHECK_LOCKS =? 0)%Z then None
           else Some "true"))
  /\ committed = Some {[SVN_PROP_REVISION_DATE := svn_time_to_cstring_now io]}.
Proof.
  intros Hnames.
  assert (SVN_PROP_REVISION_DATE <> SVN_FS__PROP_TXN_CHECK_OOD
          /\ SVN_PROP_REVISION_DATE <> SVN_FS__PROP_TXN_CHECK_LOCKS
          /\ SVN_FS__PROP_TXN_CHECK_OOD <> SVN_FS__PROP_TXN_CHECK_LOCKS)
    as (Hdo & Hdl & Hol).
  { apply NoDup_cons in Hnames as [Hd Hnames].
    apply NoDup_cons in Hnames as [Ho _].
    apply not_elem_of_cons in Hd as [Hdo Hd].
    apply not_elem_of_cons in Hd as [Hdl _].
    apply not_elem_of_cons in Ho as [Hol _]. done. }
  clear Hnames. unfold svn_fs_fs__begin_txn. intros Hbegin Hremove.
  apply bind_ok in Hbegin as (u & file0 & Hcheck & Hbegin).
  apply attempt_ok in Hcheck as [_ ->].
  apply bind_ok in Hbegin as (txn0 & file1 & Hcreate & Hbegin).
  apply lift_ok in Hcreate as [_ ->].
  apply bind_ok in Hbegin as (u' & file2 & Hchange & Hbegin).
  apply ret_ok in Hbegin as [-> ->]. destruct u'.
  revert Hchange. unfold svn_fs_fs__change_txn_props. simpl.
  unfold bind, attempt. destruct (io_write_props io); [done|].
  intros [= <-].
  apply commit_removes_flag_props in Hremove as (txnprops & [= <-] & ->).
  split.
  - eexists. split; [done|].
    destruct (Z.land flags SVN_FS_TXN_CHECK_OOD =? 0)%Z,
             (Z.land flags SVN_FS_TXN_CHECK_LOCKS =? 0)%Z; simpl;
      rewrite ?dom_insert, ?dom_empty;
      rewrite ?lookup_insert_eq, ?lookup_insert_ne, ?lookup_insert_eq,
        ?lookup_insert_ne, ?lookup_insert_eq, ?lookup_empty by done;
      (split; [|done]);
      intros k; rewrite !elem_of_union, !elem_of_singleton, elem_of_empty;
      tauto.
  - f_equal.
    destruct (Z.land flags SVN_FS_TXN_CHECK_OOD =? 0)%Z,
             (Z.land flags SVN_FS_TXN_CHECK_LOCKS =? 0)%Z; simpl;
      repeat first [ rewrite delete_insert_eq
                   | rewrite delete_insert_ne by done
                   | rewrite delete_empty ];
      done.
Qed.

Lemma begin_txn_flags_do_not_outlive_commit_witness :
  let io := ex_props_io in
  let begun :=
    (svn_fs_fs__begin_txn io "svn:date" "svn:check-ood" "svn:check-locks"
       1 2 3 None).2 in
  (exists txnprops,
     begun = Some txnprops
     /\ dom txnprops ⊆ {["svn:date"; "svn:check-ood"; "svn:check-locks"]}
     /\ txnprops !! "svn:date" = Some (svn_time_to_cstring_now io)
     /\ txnprops !! "svn:check-ood"
        = (if (Z.land 3 1 =? 0)%Z then None else Some "true")
     /\ txnprops !! "svn:check-locks"
        = (if (Z.land 3 2 =? 0)%Z then None else Some "true"))
  /\ (remove_flag_props io "svn:check-ood" "svn:check-locks"
        (mk_txn "5-3" 5) begun).2
     = Some {["svn:date" := svn_time_to_cstring_now io]}.
Proof.
  apply (begin_txn_flags_do_not_outlive_commit ex_props_io "svn:date"
           "svn:check-ood" "svn:check-locks" 1 2 3 (mk_txn "5-3" 5)).
  - apply (bool_decide_unpack
             (NoDup ["svn:date"; "svn:check-ood"; "svn:check-locks"])).
    vm_compute. exact I.
  - vm_compute. reflexivity.
  - vm_compute. reflexivity.
Defined.

End txn_props_facts.

(** ** Aborting a transaction, and the property list of a node *)

Section abort_facts.

Variable cc : commit_callees.

(** X24: when a transaction is aborted, the registry forgets it and, in a
    format that keeps proto-revision files in a directory of their own,
    its proto-revision file is removed; the other transactions keep their
    registry objects and proto-revision files, and the revisions and
    'current' are untouched. *)
Theorem abort_txn_removes_transaction (check_fs : option svn_error_t)
    (txn : svn_fs_txn_t) (fs fs' : svn_fs_t) :
  NoDup (registered (fs_shared fs)) ->
  svn_fs_fs__abort_txn cc check_fs txn fs = (Ok tt, fs') ->
  get_shared_txn (fs_shared fs') (txn_name txn) false
  = (None, fs_shared fs')
  /\ ((SVN_FS_FS__MIN_PROTOREVS_DIR_FORMAT <= format (fs_ffd fs))%Z ->
      fs_proto_revs fs' !! txn_name txn = None)
  /\ (forall id', id' <> txn_name txn ->
        (get_shared_txn (fs_shared fs') id' false).1
        = (get_shared_txn (fs_shared fs) id' false).1
        /\ fs_proto_revs fs' !! id' = fs_proto_revs fs !! id')
  /\ fs_revs fs' = fs_revs fs
  /\ fs_current fs' = fs_current fs.
Proof.
  intros Hnodup. unfold svn_fs_fs__abort_txn. intros H.
  apply bind_ok in H as (u & fs0 & Hcheck & H).
  apply attempt_ok in Hcheck as [_ ->].
  destruct (svn_fs_fs__purge_txn cc (txn_name txn) fs) as [[u'|err] fs1]
    eqn:Hpurge; [|done].
  injection H as <-. unfold svn_fs_fs__purge_txn in Hpurge.
  apply bind_ok in Hpurge as (u1 & fs2 & Hshared & Hpurge).
  destruct (purge_shared_txn_facts (txn_name txn) fs Hnodup)
    as (Hok & Hgone & _ & Hothers & _ & Hprotos & Hrevs & Hcur).
  assert (fs2 = (purge_shared_txn (txn_name txn) fs).2) as Hfs2
    by (by rewrite Hshared).
  assert (format (fs_ffd fs2) = format (fs_ffd fs)) as Hformat.
  { rewrite Hfs2. done. }
  assert (fs_revs fs2 = fs_revs fs /\ fs_current fs2 = fs_current fs
          /\ fs_proto_revs fs2 = fs_proto_revs fs
          /\ get_shared_txn (fs_shared fs2) (txn_name txn) false
             = (None, fs_shared fs2)
          /\ (forall id', id' <> txn_name txn ->
                (get_shared_txn (fs_shared fs2) id' false).1
                = (get_shared_txn (fs_shared fs) id' false).1))
    as (Hrevs2 & Hcur2 & Hprotos2 & Hgone2 & Hothers2).
  { rewrite Hfs2. done. }
  clear Hfs2 Hshared Hok Hgone Hothers Hprotos Hrevs Hcur.
  apply bind_ok in Hpurge as (u2 & fs3 & Hdir & Hpurge).
  apply attempt_ok in Hdir as [_ ->].
  apply bind_ok in Hpurge as (fs4 & fs5 & Hget & Hpurge).
  apply get_fs_ok in Hget as [-> ->].
  rewrite Hformat in Hpurge.
  destruct (SVN_FS_FS__MIN_PROTOREVS_DIR_FORMAT <=? format (fs_ffd fs))%Z
    eqn:Hf.
  - apply bind_ok in Hpurge as (u3 & fs6 & Hfile & Hpurge).
    apply attempt_ok in Hfile as [_ ->].
    unfold modify_fs in Hpurge. injection Hpurge as Heq. subst fs1.
    simpl. repeat split; try done.
    + intros _. apply lookup_delete_eq.
    + by apply Hothers2.
    + rewrite lookup_delete_ne by done. by rewrite Hprotos2.
  - apply ret_ok in Hpurge as [_ ->]. apply Z.leb_gt in Hf.
    repeat split; try done.
    + intros. lia.
    + by apply Hothers2.
    + by rewrite Hprotos2.
Qed.

End abort_facts.

Lemma abort_txn_removes_transaction_witness :
  let txn := mk_txn "4-3" 4 in
  let fs' := (svn_fs_fs__abort_txn ex_commit_callees None txn
                ex_fs_registered).2 in
  get_shared_txn (fs_shared fs') (txn_name txn) false
  = (None, fs_shared fs')
  /\ ((SVN_FS_FS__MIN_PROTOREVS_DIR_FORMAT
       <= format (fs_ffd ex_fs_registered))%Z ->
      fs_proto_revs fs' !! txn_name txn = None)
  /\ (forall id', id' <> txn_name txn ->
        (get_shared_txn (fs_shared fs') id' false).1
        = (get_shared_txn (fs_shared ex_fs_registered) id' false).1
        /\ fs_proto_revs fs' !! id' = fs_proto_revs ex_fs_registered !! id')
  /\ fs_revs fs' = fs_revs ex_fs_registered
  /\ fs_current fs' = fs_current ex_fs_registered.
Proof.
  apply (abort_txn_removes_transaction ex_commit_callees None (mk_txn "4-3" 4)
           ex_fs_registered).
  - apply (bool_decide_unpack (NoDup (registered ex_registry))).
    vm_compute. exact I.
  - vm_compute. reflexivity.
Defined.


Section set_proplist_facts.

(** X25: after the property list of a node was set, the node-revision
    has a property representation that is mutable.  If it had one
    already the node-revision is as before; if not, the node is one of a
    transaction, the new representation belongs to that transaction, and
    nothing else of the node-revision has changed but the mark of a fresh
    transaction root, which is cleared. *)
Theorem set_proplist_makes_props_mutable (c : rep_callees)
    (dump_proplist : gmap string string -> option svn_error_t)
    (noderev noderev' : node_revision_t) (proplist : gmap string string) :
  svn_fs_fs__set_proplist c dump_proplist noderev proplist = Ok noderev' ->
  (exists rep, nr_prop_rep noderev' = Some rep /\ is_txn_rep rep = true)
  /\ ((exists rep, nr_prop_rep noderev = Some rep /\ is_txn_rep rep = true)
      -> noderev' = noderev)
  /\ ((forall rep, nr_prop_rep noderev = Some rep -> is_txn_rep rep = false)
      -> svn_fs_fs__id_is_txn (nr_id noderev) = true
         /\ (exists rep,
               nr_prop_rep noderev' = Some rep
               /\ rep_txn_id rep = svn_fs_fs__id_txn_id (nr_id noderev)
               /\ rep_revision rep = 0%Z
               /\ rep_uniquifier rep = None)
         /\ nr_is_fresh_txn_root noderev' = false)
  /\ nr_id noderev' = nr_id noderev
  /\ nr_kind noderev' = nr_kind noderev
  /\ nr_data_rep noderev' = nr_data_rep noderev
  /\ nr_predecessor_id noderev' = nr_predecessor_id noderev
  /\ nr_predecessor_count noderev' = nr_predecessor_count noderev.
Proof.
  unfold svn_fs_fs__set_proplist.
  destruct (dump_proplist proplist); [done|].
  assert (svn_fs_fs__id_is_txn (nr_id noderev) = true ->
          is_txn_rep
            (mk_rep None None 0 0 0 0
                    (svn_fs_fs__id_txn_id (nr_id noderev)) None) = true)
    as Hmut.
  { unfold svn_fs_fs__id_is_txn, svn_fs_fs__id_txn_id, is_txn_rep. simpl.
    by destruct (id_origin_of (nr_id noderev)). }
  destruct (match nr_prop_rep noderev with
            | Some rep => negb (is_txn_rep rep)
            | None => true
            end) eqn:Hfresh.
  - unfold svn_fs_fs__put_node_revision. simpl.
    destruct (svn_fs_fs__id_is_txn (nr_id noderev)) eqn:Hid; [|done].
    simpl. destruct (write_noderev_file c _); [done|].
    intros [= <-]. simpl. specialize (Hmut eq_refl).
    split; [by eexists|]. split.
    { intros (rep & Hrep & Htxn). by rewrite Hrep, Htxn in Hfresh. }
    split; [|done]. intros _. split; [done|]. split; [by eexists|done].
  - intros [= <-].
    destruct (nr_prop_rep noderev) as [rep|] eqn:Hrep; [|done].
    apply negb_false_iff in Hfresh.
    split; [by exists rep|]. split; [done|]. split; [|done].
    intros H. specialize (H rep eq_refl). congruence.
Qed.

Lemma set_proplist_makes_props_mutable_witness :
  let noderev := ex_txn_file_noderev in
  let noderev' := ex_txn_file_noderev_mutable in
  (exists rep, nr_prop_rep noderev' = Some rep /\ is_txn_rep rep = true)
  /\ ((exists rep, nr_prop_rep noderev = Some rep /\ is_txn_rep rep = true)
      -> noderev' = noderev)
  /\ ((forall rep, nr_prop_rep noderev = Some rep -> is_txn_rep rep = false)
      -> svn_fs_fs__id_is_txn (nr_id noderev) = true
         /\ (exists rep,
               nr_prop_rep noderev' = Some rep
               /\ rep_txn_id rep = svn_fs_fs__id_txn_id (nr_id noderev)
               /\ rep_revision rep = 0%Z
               /\ rep_uniquifier rep = None)
         /\ nr_is_fresh_txn_root noderev' = false)
  /\ nr_id noderev' = nr_id noderev
  /\ nr_kind noderev' = nr_kind noderev
  /\ nr_data_rep noderev' = nr_data_rep noderev
  /\ nr_predecessor_id noderev' = nr_predecessor_id noderev
  /\ nr_predecessor_count noderev' = nr_predecessor_count noderev.
Proof.
  apply (set_proplist_makes_props_mutable ex_root_callees (fun _ => None)
           ex_txn_file_noderev ex_txn_file_noderev_mutable ∅).
  reflexivity.
Defined.

End set_proplist_facts.
